(** * BASED back end: deadline warnings, dashboard progress and the
      dependency store

    A shallow embedding of

    - [BASED/views/dashboard/helpers.py]  ([get_warnings_list],
      [get_status_order_number]),
    - [BASED/views/dashboard/views.py]    ([get_dashboard_tasks]),
    - [BASED/repository/task.py]          (the SQL statements of
      [TaskRepository]),

    followed by the properties of the warning engine, of the progress
    figure and of the dependency edges.

    Conventions of the embedding.

    - A Python [date] is its proleptic Gregorian ordinal, an integer day
      number from 1 (0001-01-01) to 3652059 (9999-12-31); [date - date] is
      the difference of the ordinals, and [date - timedelta] raises
      [OverflowError] when the result leaves that range, as the
      constructor of a timedelta does beyond 999999999 days.
    - A raised exception is the left injection of [Py.result]; a returned
      value is the right one.
    - [date.today()] is an explicit argument [current_date].
    - [TIME_RESERVE_COEF] is defined in [BASED/conf.py], which is not among
      the sources: it is a section variable, the number that the constant
      is written as.  Python holds the float of that number; the product
      [n * TIME_RESERVE_COEF] is rounded to binary64, and
      [timedelta(days=product)] accumulates microseconds as CPython does,
      rounds them to the nearest whole number and keeps the whole days,
      which are what [date - timedelta] subtracts.
    - [int(a / b * 100)] in the dashboard view has no missing part and is
      modelled with binary64 floats, as Python evaluates it.
    - A table is the list of its rows; each SQL statement is the list
      function it denotes.  SQL leaves open where an updated row lies in
      its table and in which order [order by] gives rows with equal keys:
      the list functions keep the rows in place, and what is proved of the
      rows of a table after an update is proved up to their order. *)

From Stdlib Require Import String ZArith QArith Qround Qabs List Bool Lia Lqa.
From Stdlib Require Import Sorted Permutation Floats Uint63.
Import ListNotations.
Local Open Scope Z_scope.

(* ================================================================== *)
(** * The fragment of Python the code relies on *)
(* ================================================================== *)

Module Py.

(** The exceptions that the modelled code can raise. *)
Inductive exn : Set :=
| TypeError
| KeyError
| ZeroDivisionError
| OverflowError
| ValueError
| UniqueViolationError.

(** [inl e]: the call raised [e]; [inr v]: it returned [v]. *)
Definition result (A : Type) : Type := (exn + A)%type.

Definition ret {A : Type} (a : A) : result A := inr a.
Definition raise {A : Type} (e : exn) : result A := inl e.

Definition bind {A B : Type} (c : result A) (k : A -> result B) : result B :=
  match c with
  | inl e => inl e
  | inr a => k a
  end.

(** ** Dates and durations *)

Definition date : Set := Z.

(** [date.max.toordinal()]; [date.min.toordinal()] is 1. *)
Definition MAXORDINAL : Z := 3652059.

(** The ordinals of the dates, from 0001-01-01 to 9999-12-31. *)
Definition is_date (o : Z) : bool := (1 <=? o) && (o <=? MAXORDINAL).

(** [(a - b).days] for two dates; [b] may be [None], in which case
    [date.__sub__] answers [NotImplemented] and Python raises
    [TypeError]. *)
Definition date_sub (a : date) (b : option date) : result Z :=
  match b with
  | Some b' => ret (a - b')
  | None => raise TypeError
  end.

(** The largest magnitude of the [days] of a timedelta. *)
Definition MAX_DELTA_DAYS : Z := 999999999.

(** The check that every constructor of timedelta ends with:
    [OverflowError] for a number of days beyond [MAX_DELTA_DAYS]. *)
Definition check_delta_day_range (days : Z) : result Z :=
  if Z.abs days <=? MAX_DELTA_DAYS then ret days else raise OverflowError.

(** [timedelta(days=n).days] for an [int]. *)
Definition timedelta_days_int (n : Z) : result Z := check_delta_day_range n.

(** [d - timedelta] on a date, given the timedelta's [days]:
    [OverflowError] when the result is not a date.  The ordinal [d] is that
    of a date object; an integer that is not has no counterpart in Python,
    and the model refuses it as well. *)
Definition date_minus (d : date) (days : Z) : result date :=
  if is_date d && is_date (d - days) then ret (d - days)
  else raise OverflowError.

(** ** binary64 arithmetic on the values of the floats

    A finite float is the rational number it stands for; every operation
    rounds the exact result to the nearest binary64 value, ties to even. *)

(** [2^e], also for a negative [e]. *)
Definition pow2 (e : Z) : Q :=
  if 0 <=? e then inject_Z (2 ^ e) else 1 # Z.to_pos (2 ^ (- e)).

(** The integer nearest to [n / d], ties to even, for [0 < d]. *)
Definition rne (n d : Z) : Z :=
  let f := n / d in
  match 2 * (n mod d) ?= d with
  | Lt => f
  | Gt => f + 1
  | Eq => if Z.even f then f else f + 1
  end.

(** The floor of the binary logarithm of [a], for [0 < a]. *)
Definition ilog2 (a : Q) : Z :=
  if Qle_bool 1 a then Z.log2 (Qfloor a) else - Z.log2_up (Qceiling (/ a)).

(** Rounding of [0 < a]: 53 significant bits, and no bit below
    [2^-1074]. *)
Definition round64_pos (a : Q) : Q :=
  let e := Z.max (ilog2 a - 52) (-1074) in
  let m := if 0 <=? e
           then rne (Qnum a) (Zpos (Qden a) * 2 ^ e)
           else rne (Qnum a * 2 ^ (- e)) (Zpos (Qden a)) in
  (inject_Z m * pow2 e)%Q.

Definition round64 (q : Q) : Q :=
  match Qnum q with
  | Z0 => 0%Q
  | Zpos _ => round64_pos q
  | Zneg _ => (- round64_pos (- q))%Q
  end.

(** A rounded value from [2^1024] on is an infinity. *)
Definition is_finite64 (x : Q) : bool := negb (Qle_bool (pow2 1024) (Qabs x)).

(** The float of the number [q], [None] for an infinity. *)
Definition to_float (q : Q) : option Q :=
  let v := round64 q in if is_finite64 v then Some v else None.

(** [n * c] for an [int] and the float of the number [c].  The [int] is
    converted first ([OverflowError] when it is too large); an infinite
    product, or the NaN of [0 * inf], is refused by the timedelta
    constructor that takes the product, with [OverflowError] and
    [ValueError]: the model raises them here. *)
Definition int_mul_float (n : Z) (c : Q) : result Q :=
  match to_float (inject_Z n) with
  | None => raise OverflowError
  | Some nf =>
      match to_float c with
      | None => if n =? 0 then raise ValueError else raise OverflowError
      | Some cf =>
          match to_float (nf * cf) with
          | None => raise OverflowError
          | Some product => ret product
          end
      end
  end.

Definition us_per_day : Z := 86400000000.

(** [modf]: the integral part, toward zero, and the fractional part. *)
Definition Qtrunc (x : Q) : Z := if Qle_bool 0 x then Qfloor x else Qceiling x.

Definition modf (x : Q) : Z * Q := (Qtrunc x, (x - inject_Z (Qtrunc x))%Q).

(** The rounding of the microseconds that are left over, to the nearest
    whole number, a half toward an even total [x]. *)
Definition round_leftover (leftover : Q) (x : Z) : Z :=
  let sign := if Qle_bool 0 leftover then 1 else -1 in
  match (Qabs leftover ?= 1 # 2)%Q with
  | Lt => 0
  | Eq => if Z.odd x then sign else 0
  | Gt => sign
  end.

(** The microseconds of [timedelta(days=x)] for a float [x], as the
    constructor accumulates them: the whole days, then the fraction of a
    day, multiplied in binary64, then the rounded rest. *)
Definition timedelta_microseconds (x : Q) : Z :=
  let (intpart, fracpart) := modf x in
  let sum := intpart * us_per_day in
  if Qeq_bool fracpart 0 then sum
  else
    let (intpart', leftover) :=
      modf (round64 (inject_Z us_per_day * fracpart)) in
    let y := sum + intpart' in
    y + round_leftover leftover y.

(** [timedelta(days=x).days] for a float [x]. *)
Definition timedelta_days (x : Q) : result Z :=
  check_delta_day_range (timedelta_microseconds x / us_per_day).

(** ** Floats: [int / int], [float * int] and [int(float)] *)

(** [float(n)], exact below [2^53]; on such operands Python's correctly
    rounded [int / int] is the binary64 quotient of the two floats. *)
Definition float_of_int (n : Z) : float :=
  match n with
  | Z0 => PrimFloat.zero
  | Zpos _ => PrimFloat.of_uint63 (Uint63.of_Z n)
  | Zneg p => PrimFloat.opp (PrimFloat.of_uint63 (Uint63.of_Z (Zpos p)))
  end.

(** [a / b] on two [int]s: true division, a float. *)
Definition truediv (a b : Z) : result float :=
  if b =? 0 then raise ZeroDivisionError
  else ret (PrimFloat.div (float_of_int a) (float_of_int b)).

(** [x * n] for a float and an [int]. *)
Definition float_mul_int (x : float) (n : Z) : float :=
  PrimFloat.mul x (float_of_int n).

(** [int(x)]: truncation toward zero. *)
Definition int_of_float (x : float) : result Z :=
  match Prim2SF x with
  | S754_zero _ => ret 0
  | S754_finite s m e =>
      let magnitude :=
        match e with
        | Z0 => Zpos m
        | Zpos _ => Zpos m * 2 ^ e
        | Zneg p => Zpos m / 2 ^ Zpos p
        end in
      ret (if s then - magnitude else magnitude)
  | S754_infinity _ => raise OverflowError
  | S754_nan => raise ValueError
  end.

(** ** Dictionaries, in insertion order *)

Section Dict.
Context {K V : Type}.
Variable eqb : K -> K -> bool.

Definition dict : Type := list (K * V).

(** [k in d] *)
Definition contains (k : K) (d : dict) : bool :=
  existsb (fun kv => eqb (fst kv) k) d.

(** [d[k]] *)
Fixpoint getitem (k : K) (d : dict) : result V :=
  match d with
  | [] => raise KeyError
  | (k', v) :: d' => if eqb k' k then ret v else getitem k d'
  end.

(** [d[k] = v] for a key that is not in [d] yet *)
Definition setitem_new (k : K) (v : V) (d : dict) : dict := d ++ [(k, v)].

(** in-place update of the value stored under [k] *)
Definition update (k : K) (f : V -> V) (d : dict) : dict :=
  map (fun kv => if eqb (fst kv) k then (fst kv, f (snd kv)) else kv) d.
End Dict.

End Py.

Notation "x <- c ;; k" := (Py.bind c (fun x => k))
  (at level 61, c at next level, right associativity).

(* ================================================================== *)
(** * SQL: [order by] and [union] *)
(* ================================================================== *)

Section OrderBy.
Context {A : Type}.
Variable key : A -> Z.

Fixpoint order_insert (a : A) (l : list A) : list A :=
  match l with
  | [] => [a]
  | b :: l' => if key a <=? key b then a :: l else b :: order_insert a l'
  end.

(** [order by key]: ascending; rows with equal keys keep their order
    (any order of them is an answer of the database). *)
Fixpoint order_by (l : list A) : list A :=
  match l with
  | [] => []
  | a :: l' => order_insert a (order_by l')
  end.

(** The order of the result. *)
Definition key_le (a b : A) : Prop := key a <= key b.
End OrderBy.

(** [q1 union q2]: the rows of both, without duplicate rows. *)
Definition sql_union {A : Type} (eq_dec : forall a b : A, {a = b} + {a <> b})
    (q1 q2 : list A) : list A :=
  nodup eq_dec (q1 ++ q2).

(* ================================================================== *)
(** * [BASED/repository/task.py] *)
(* ================================================================== *)

Inductive TaskStatusEnum : Set := to_do | in_progress | done.

Inductive DependencyTypeEnum : Set := depends_of | dependent_for | self.

(** [TaskStatusOrder], an [IntEnum]: the value of each member. *)
Module TaskStatusOrder.
Definition to_do : Z := 1.
Definition in_progress : Z := 2.
Definition done : Z := 3.
End TaskStatusOrder.

Definition TaskStatusEnum_eqb (a b : TaskStatusEnum) : bool :=
  match a, b with
  | to_do, to_do | in_progress, in_progress | done, done => true
  | _, _ => false
  end.

Module ShortTask.
Record ShortTask : Set := Build {
  id : Z;
  title : string
}.
End ShortTask.
Abbreviation ShortTask := ShortTask.ShortTask.

Module Task.
Record Task : Set := Build {
  id : Z;
  responsible_user_id : Z;
  status : TaskStatusEnum;
  title : option string;
  description : option string;
  deadline : Py.date;
  days_for_completion : Z;
  actual_start_date : option Py.date;
  actual_finish_date : option Py.date;
  actual_completion_days : option Z;
  is_archived : bool;
  created_timestamp : Z
}.
End Task.
Abbreviation Task := Task.Task.

Module TaskDepends.
Record TaskDepends : Set := Build {
  task_id : Z;
  depends_task_id : Z;
  created_timestamp : Z
}.
End TaskDepends.
Abbreviation TaskDepends := TaskDepends.TaskDepends.

Module TaskWithDependency.
Record TaskWithDependency : Set := Build {
  id : Z;
  dependency_type : DependencyTypeEnum;
  responsible_user_id : Z;
  title : option string;
  deadline : Py.date
}.
End TaskWithDependency.
Abbreviation TaskWithDependency := TaskWithDependency.TaskWithDependency.

Definition TaskWithDependency_eq_dec (a b : TaskWithDependency) :
  {a = b} + {a <> b}.
Proof.
  decide equality; try apply Z.eq_dec.
  - decide equality. apply string_dec.
  - decide equality.
Defined.

(** The two tables the statements of [TaskRepository] touch. *)
Module Db.
Record Db : Set := Build {
  task : list Task;
  task_depends : list TaskDepends
}.
End Db.
Abbreviation Db := Db.Db.

Module TaskRepository.

(** [update "task" set "actual_start_date" = $2, "actual_finish_date" = $3,
    "actual_completion_days" = $4 where "id" = $1]: the new row. *)
Definition set_actual_dates (new_start_date new_finish_date : option Py.date)
    (actual_completion_days : option Z) (t : Task) : Task :=
  {| Task.id := Task.id t;
     Task.responsible_user_id := Task.responsible_user_id t;
     Task.status := Task.status t;
     Task.title := Task.title t;
     Task.description := Task.description t;
     Task.deadline := Task.deadline t;
     Task.days_for_completion := Task.days_for_completion t;
     Task.actual_start_date := new_start_date;
     Task.actual_finish_date := new_finish_date;
     Task.actual_completion_days := actual_completion_days;
     Task.is_archived := Task.is_archived t;
     Task.created_timestamp := Task.created_timestamp t |}.

(** Returns the new state of the database and the [bool] of the method:
    [returning 1] yields a row for each updated row, [fetchrow] the first
    of them or [None]. *)
Definition update_task_start_finish_dates (db : Db) (task_id : Z)
    (new_start_date new_finish_date : option Py.date) : Db * bool :=
  let actual_completion_days :=
    match new_start_date, new_finish_date with
    | Some start, Some finish => Some ((finish - start) + 1)
    | _, _ => None
    end in
  let hit (t : Task) := Task.id t =? task_id in
  ({| Db.task :=
        map (fun t =>
               if hit t
               then set_actual_dates new_start_date new_finish_date
                      actual_completion_days t
               else t) (Db.task db);
      Db.task_depends := Db.task_depends db |},
   existsb hit (Db.task db)).

(** [select * from "task_depends" where "task_id" = $1] *)
Definition get_task_depends (db : Db) (id_ : Z) : list TaskDepends :=
  filter (fun d => TaskDepends.task_id d =? id_) (Db.task_depends db).

(** [select * from "task_depends" where "depends_task_id" = $1] *)
Definition get_tasks_dependent_of (db : Db) (dependent_task_id : Z) :
    list TaskDepends :=
  filter (fun d => TaskDepends.depends_task_id d =? dependent_task_id)
    (Db.task_depends db).

(** The rows in conflict with the key [(task_id, depends_task_id)]. *)
Definition same_edge (id_ depends_id : Z) (d : TaskDepends) : bool :=
  (TaskDepends.task_id d =? id_) && (TaskDepends.depends_task_id d =? depends_id).

(** [insert into "task_depends" (task_id, depends_task_id) values ($1, $2)]
    under the unique key that the [on conflict] clause names; the
    timestamp column takes the time of the statement. *)
Definition insert_task_depends (rows : list TaskDepends) (now id_ depends_id : Z) :
    Py.result (list TaskDepends) :=
  if existsb (same_edge id_ depends_id) rows
  then Py.raise Py.UniqueViolationError
  else Py.ret (rows ++ [ {| TaskDepends.task_id := id_;
                            TaskDepends.depends_task_id := depends_id;
                            TaskDepends.created_timestamp := now |} ]).

(** The same statement with [on conflict (task_id, depends_task_id) do
    nothing]: a conflict on that key leaves the table as it is. *)
Definition add_task_depends (db : Db) (now id_ depends_id : Z) : Py.result Db :=
  match insert_task_depends (Db.task_depends db) now id_ depends_id with
  | inr rows => Py.ret {| Db.task := Db.task db; Db.task_depends := rows |}
  | inl Py.UniqueViolationError => Py.ret db
  | inl e => Py.raise e
  end.

(** [select * from "task" where not "is_archived" order by "deadline"] *)
Definition get_tasks_ordered_by_deadline (db : Db) : list Task :=
  order_by Task.deadline (filter (fun t => negb (Task.is_archived t)) (Db.task db)).

(** [delete from "task_depends" where "task_id" = $1 and
    "depends_task_id" = $2 returning true]; [fetchrow] gives the first
    deleted row or [None]. *)
Definition del_tasks_depends (db : Db) (id_ depends_id : Z) : Db * bool :=
  let row := find (same_edge id_ depends_id) (Db.task_depends db) in
  ({| Db.task := Db.task db;
      Db.task_depends :=
        filter (fun d => negb (same_edge id_ depends_id d)) (Db.task_depends db) |},
   match row with
   | None => false
   | Some _ => true
   end).

(** One row of [get_all_task_dependencies]: the columns ["id"],
    ["title"], ["deadline"], ["responsible_user_id"] of a task and the
    constant column ["dependency_type"]. *)
Definition dependency_row (ty : DependencyTypeEnum) (t : Task) :
    TaskWithDependency :=
  {| TaskWithDependency.id := Task.id t;
     TaskWithDependency.dependency_type := ty;
     TaskWithDependency.responsible_user_id := Task.responsible_user_id t;
     TaskWithDependency.title := Task.title t;
     TaskWithDependency.deadline := Task.deadline t |}.

(** ["task_depends" join "task" on cond where cond'], projected on the
    task columns and labelled [ty]. *)
Definition join_select (db : Db) (ty : DependencyTypeEnum)
    (on_where : TaskDepends -> Task -> bool) : list TaskWithDependency :=
  flat_map
    (fun d =>
       map (dependency_row ty) (filter (on_where d) (Db.task db)))
    (Db.task_depends db).

Definition get_all_task_dependencies (db : Db) (task_id : Z) :
    list TaskWithDependency :=
  let q_depends_of :=
    join_select db depends_of
      (fun d t => (TaskDepends.task_id d =? Task.id t)
                  && (TaskDepends.depends_task_id d =? task_id)) in
  let q_dependent_for :=
    join_select db dependent_for
      (fun d t => (TaskDepends.depends_task_id d =? Task.id t)
                  && (TaskDepends.task_id d =? task_id)) in
  let q_self :=
    map (dependency_row self)
      (filter (fun t => Task.id t =? task_id) (Db.task db)) in
  order_by TaskWithDependency.deadline
    (sql_union TaskWithDependency_eq_dec
       (sql_union TaskWithDependency_eq_dec q_depends_of q_dependent_for)
       q_self).

(** [update "task" set ... where "id" = $1 returning ...]: the table after
    the statement and the rows it returns, the updated ones.  The rows
    keep their places in the list; the database may store the new version
    of a row elsewhere. *)
Definition update_where_id (db : Db) (task_id : Z) (set : Task -> Task) :
    Db * list Task :=
  let hit (t : Task) := Task.id t =? task_id in
  ({| Db.task := map (fun t => if hit t then set t else t) (Db.task db);
      Db.task_depends := Db.task_depends db |},
   map set (filter hit (Db.task db))).

(** [fetchrow]: the first row of the result, or [None]. *)
Definition fetchrow {A : Type} (rows : list A) : option A := hd_error rows.

(** [bool(row)] for the row of [returning 1]. *)
Definition bool_of_row {A : Type} (row : option A) : bool :=
  match row with
  | Some _ => true
  | None => false
  end.

(** [select * from "task" where "id" = $1] *)
Definition get_by_id (db : Db) (id_ : Z) : option Task :=
  fetchrow (filter (fun t => Task.id t =? id_) (Db.task db)).

(** [set "title" = $2, "description" = $3, "deadline" = $4,
    "responsible_user_id" = $5, "days_for_completion" = $6] *)
Definition set_task_data (title description : option string)
    (deadline : Py.date) (responsible_user_id days_for_completion : Z)
    (t : Task) : Task :=
  {| Task.id := Task.id t;
     Task.responsible_user_id := responsible_user_id;
     Task.status := Task.status t;
     Task.title := title;
     Task.description := description;
     Task.deadline := deadline;
     Task.days_for_completion := days_for_completion;
     Task.actual_start_date := Task.actual_start_date t;
     Task.actual_finish_date := Task.actual_finish_date t;
     Task.actual_completion_days := Task.actual_completion_days t;
     Task.is_archived := Task.is_archived t;
     Task.created_timestamp := Task.created_timestamp t |}.

Definition update_task_data (db : Db) (task_id : Z)
    (title description : option string) (deadline : Py.date)
    (responsible_user_id days_for_completion : Z) : Db * option Task :=
  let r := update_where_id db task_id
             (set_task_data title description deadline responsible_user_id
                days_for_completion) in
  (fst r, fetchrow (snd r)).

(** [set "status" = $2] *)
Definition set_status (new_status : TaskStatusEnum) (t : Task) : Task :=
  {| Task.id := Task.id t;
     Task.responsible_user_id := Task.responsible_user_id t;
     Task.status := new_status;
     Task.title := Task.title t;
     Task.description := Task.description t;
     Task.deadline := Task.deadline t;
     Task.days_for_completion := Task.days_for_completion t;
     Task.actual_start_date := Task.actual_start_date t;
     Task.actual_finish_date := Task.actual_finish_date t;
     Task.actual_completion_days := Task.actual_completion_days t;
     Task.is_archived := Task.is_archived t;
     Task.created_timestamp := Task.created_timestamp t |}.

Definition update_task_status (db : Db) (task_id : Z)
    (new_status : TaskStatusEnum) : Db * option Task :=
  let r := update_where_id db task_id (set_status new_status) in
  (fst r, fetchrow (snd r)).

(** [set "is_archived" = $2] *)
Definition set_is_archived (archive_status : bool) (t : Task) : Task :=
  {| Task.id := Task.id t;
     Task.responsible_user_id := Task.responsible_user_id t;
     Task.status := Task.status t;
     Task.title := Task.title t;
     Task.description := Task.description t;
     Task.deadline := Task.deadline t;
     Task.days_for_completion := Task.days_for_completion t;
     Task.actual_start_date := Task.actual_start_date t;
     Task.actual_finish_date := Task.actual_finish_date t;
     Task.actual_completion_days := Task.actual_completion_days t;
     Task.is_archived := archive_status;
     Task.created_timestamp := Task.created_timestamp t |}.

Definition update_task_archive_status (db : Db) (task_id : Z)
    (archive_status : bool) : Db * bool :=
  let r := update_where_id db task_id (set_is_archived archive_status) in
  (fst r, bool_of_row (fetchrow (snd r))).

(** [set "deadline" = $2] *)
Definition set_deadline (new_deadline : Py.date) (t : Task) : Task :=
  {| Task.id := Task.id t;
     Task.responsible_user_id := Task.responsible_user_id t;
     Task.status := Task.status t;
     Task.title := Task.title t;
     Task.description := Task.description t;
     Task.deadline := new_deadline;
     Task.days_for_completion := Task.days_for_completion t;
     Task.actual_start_date := Task.actual_start_date t;
     Task.actual_finish_date := Task.actual_finish_date t;
     Task.actual_completion_days := Task.actual_completion_days t;
     Task.is_archived := Task.is_archived t;
     Task.created_timestamp := Task.created_timestamp t |}.

Definition update_task_deadline (db : Db) (task_id : Z)
    (new_deadline : Py.date) : Db * bool :=
  let r := update_where_id db task_id (set_deadline new_deadline) in
  (fst r, bool_of_row (fetchrow (snd r))).

(** [ShortTask] built from the dict of a row: the columns that are not
    fields of the model are ignored; [title: str] refuses [None] with pydantic's
    [ValidationError], which is a [ValueError]. *)
Definition ShortTask_of_row (t : Task) : Py.result ShortTask :=
  match Task.title t with
  | Some title => Py.ret {| ShortTask.id := Task.id t; ShortTask.title := title |}
  | None => Py.raise Py.ValueError
  end.

(** The list comprehension over [data], row after row. *)
Fixpoint short_tasks_of_rows (data : list Task) : Py.result (list ShortTask) :=
  match data with
  | [] => Py.ret []
  | i :: data' =>
      Py.bind (ShortTask_of_row i) (fun short =>
      Py.bind (short_tasks_of_rows data') (fun shorts =>
      Py.ret (short :: shorts)))
  end.

(** [select * from "task"] *)
Definition get_all_short_tasks (db : Db) : Py.result (list ShortTask) :=
  short_tasks_of_rows (Db.task db).

End TaskRepository.

(* ================================================================== *)
(** * [BASED/views/dashboard]: the models the views build *)
(* ================================================================== *)

(** Modelled from the spec: [BASED/views/dashboard/models.py] is not among
    the sources; [WarningTypeEnum] has the six warning kinds of the data
    model. *)
Inductive WarningTypeEnum : Set :=
| start_soft
| start_hard
| finish_soft
| finish_hard
| late_deadline
| crossed_deadline.

(** Modelled from the spec: the fields are the keyword arguments with
    which [helpers.py] builds a [WarningModel]. *)
Module WarningModel.
Record WarningModel : Set := Build {
  type : WarningTypeEnum;
  task_id : Z
}.
End WarningModel.
Abbreviation WarningModel := WarningModel.WarningModel.

Definition WarningTypeEnum_eq_dec (a b : WarningTypeEnum) : {a = b} + {a <> b}.
Proof. decide equality. Defined.

Definition WarningModel_eq_dec (a b : WarningModel) : {a = b} + {a <> b}.
Proof. decide equality; [apply Z.eq_dec | apply WarningTypeEnum_eq_dec]. Defined.

(* ================================================================== *)
(** * [BASED/views/dashboard/helpers.py] *)
(* ================================================================== *)

Section Helpers.

(** [BASED.conf.TIME_RESERVE_COEF] *)
Variable TIME_RESERVE_COEF : Q.

Definition get_warnings_list (task : Task) (current_date : Py.date) :
    Py.result (list WarningModel) :=
  let warning ty :=
    {| WarningModel.type := ty; WarningModel.task_id := Task.id task |} in
  warnings <-
    match Task.status task with
    | to_do =>
        days <- Py.timedelta_days_int (Task.days_for_completion task) ;;
        hard <- Py.date_minus (Task.deadline task) days ;;
        if current_date >=? hard
        then Py.ret [warning start_hard]
        else
          product <- Py.int_mul_float (Task.days_for_completion task)
                       TIME_RESERVE_COEF ;;
          days' <- Py.timedelta_days product ;;
          soft <- Py.date_minus (Task.deadline task) days' ;;
          if current_date >=? soft
          then Py.ret [warning start_soft]
          else Py.ret []
    | in_progress =>
        days_in_work <- Py.date_sub current_date (Task.actual_start_date task) ;;
        let days_to_deadline := Task.days_for_completion task - days_in_work in
        let days_to_deadline :=
          if days_to_deadline <? 0 then 0 else days_to_deadline in
        days <- Py.timedelta_days_int days_to_deadline ;;
        hard <- Py.date_minus (Task.deadline task) days ;;
        if current_date >=? hard
        then Py.ret [warning finish_hard]
        else
          product <- Py.int_mul_float days_to_deadline TIME_RESERVE_COEF ;;
          days' <- Py.timedelta_days product ;;
          soft <- Py.date_minus (Task.deadline task) days' ;;
          if current_date >=? soft
          then Py.ret [warning finish_soft]
          else Py.ret []
    | done => Py.ret []
    end ;;
  Py.ret (warnings ++
          (if current_date >? Task.deadline task
           then [warning late_deadline]
           else [])).

Definition get_status_order_number (status : TaskStatusEnum) : Z :=
  match status with
  | to_do => TaskStatusOrder.to_do
  | in_progress => TaskStatusOrder.in_progress
  | done => TaskStatusOrder.done
  end.

(* ================================================================== *)
(** * [BASED/views/dashboard/views.py] *)
(* ================================================================== *)

(** [app_state.user_repo.get_by_id]: the user repository is not among the
    sources. *)
Variable User : Set.
Variable user_get_by_id : Z -> option User.

Record DashboardTask : Set := Build_DashboardTask {
  dt_id : Z;
  dt_title : option string;
  dt_deadline : Py.date;
  dt_responsible : option User;
  dt_warnings : list WarningModel
}.

Record DashboardTasksByStatus : Set := Build_DashboardTasksByStatus {
  status_name : TaskStatusEnum;
  order_number : Z;
  tasks : list DashboardTask
}.

Record GetDashboardTasksResponse : Set := Build_GetDashboardTasksResponse {
  progress : Z;
  statuses : list DashboardTasksByStatus
}.

(** The body of [for task in tasks], from the dictionary [statuses] built
    so far. *)
Fixpoint group_by_status (current_date : Py.date) (tasks : list Task)
    (statuses : Py.dict (K := TaskStatusEnum) (V := list DashboardTask)) :
    Py.result (Py.dict (K := TaskStatusEnum) (V := list DashboardTask)) :=
  match tasks with
  | [] => Py.ret statuses
  | task :: rest =>
      let responsible := user_get_by_id (Task.responsible_user_id task) in
      warnings_list <- get_warnings_list task current_date ;;
      let dashboard_task :=
        {| dt_id := Task.id task;
           dt_title := Task.title task;
           dt_deadline := Task.deadline task;
           dt_responsible := responsible;
           dt_warnings := warnings_list |} in
      group_by_status current_date rest
        (if Py.contains TaskStatusEnum_eqb (Task.status task) statuses
         then Py.update TaskStatusEnum_eqb (Task.status task)
                (fun l => l ++ [dashboard_task]) statuses
         else Py.setitem_new (Task.status task) [dashboard_task] statuses)
  end.

Definition get_dashboard_tasks (db : Db) (current_date : Py.date) :
    Py.result GetDashboardTasksResponse :=
  let tasks := TaskRepository.get_tasks_ordered_by_deadline db in
  statuses <- group_by_status current_date tasks [] ;;
  done_tasks <- Py.getitem TaskStatusEnum_eqb done statuses ;;
  ratio <- Py.truediv (Z.of_nat (length done_tasks)) (Z.of_nat (length tasks)) ;;
  progress <- Py.int_of_float (Py.float_mul_int ratio 100) ;;
  Py.ret
    {| progress := progress;
       statuses :=
         map (fun kv =>
                {| status_name := fst kv;
                   order_number := get_status_order_number (fst kv);
                   tasks := snd kv |})
           statuses |}.

End Helpers.

Arguments progress {User} _.
Arguments statuses {User} _.
Arguments dt_id {User} _.
Arguments dt_title {User} _.
Arguments dt_deadline {User} _.
Arguments dt_responsible {User} _.
Arguments dt_warnings {User} _.
Arguments status_name {User} _.
Arguments order_number {User} _.
Arguments tasks {User} _.

(* ================================================================== *)
(** * Vocabulary of the statements *)
(* ================================================================== *)

(** The warning list [ws] holds a warning of type [ty]. *)
Definition has_warning (ty : WarningTypeEnum) (ws : list WarningModel) : Prop :=
  In ty (map WarningModel.type ws).

(** The warning engine, called on [task] at [current_date], returns a list
    that holds a warning of type [ty]. *)
Definition emits (coef : Q) (task : Task) (current_date : Py.date)
    (ty : WarningTypeEnum) : Prop :=
  exists ws, get_warnings_list coef task current_date = inr ws
             /\ has_warning ty ws.

(** What the engine appends after the status branch. *)
Definition late_part (task : Task) (current_date : Py.date) : list WarningModel :=
  if current_date >? Task.deadline task
  then [ {| WarningModel.type := late_deadline;
            WarningModel.task_id := Task.id task |} ]
  else [].

(** The four warnings that depend on the status of the task. *)
Definition status_conditioned (w : WarningModel) : bool :=
  match WarningModel.type w with
  | start_soft | start_hard | finish_soft | finish_hard => true
  | late_deadline | crossed_deadline => false
  end.

Definition is_late_deadline (w : WarningModel) : bool :=
  match WarningModel.type w with
  | late_deadline => true
  | _ => false
  end.

(** [deadline - timedelta(days=n)], the hard threshold of a branch. *)
Definition hard_threshold (deadline : Py.date) (n : Z) : Py.result Py.date :=
  days <- Py.timedelta_days_int n ;;
  Py.date_minus deadline days.

(** [deadline - timedelta(days=n * TIME_RESERVE_COEF)], the soft threshold
    of a branch. *)
Definition soft_threshold (coef : Q) (deadline : Py.date) (n : Z) :
    Py.result Py.date :=
  product <- Py.int_mul_float n coef ;;
  days <- Py.timedelta_days product ;;
  Py.date_minus deadline days.

(** [deadline - timedelta(days=n)] is a date: the timedelta exists, and
    [deadline] and the difference lie between 0001-01-01 and
    9999-12-31. *)
Definition representable (deadline : Py.date) (n : Z) : Prop :=
  Z.abs n <= Py.MAX_DELTA_DAYS
  /\ 1 <= deadline <= Py.MAXORDINAL
  /\ 1 <= deadline - n <= Py.MAXORDINAL.

(** The thresholds that a branch computes at [current_date] for [n] days
    are dates: the hard one, and the soft one when the hard one is not
    reached. *)
Definition thresholds_defined (coef : Q) (deadline : Py.date) (n : Z)
    (current_date : Py.date) : Prop :=
  representable deadline n
  /\ (current_date < deadline - n ->
      exists soft, soft_threshold coef deadline n = inr soft).

(** The precondition of the branch of the task: an [in_progress] task has
    its [actual_start_date], and the thresholds of the branch are
    dates. *)
Definition branch_precondition (coef : Q) (task : Task)
    (current_date : Py.date) : Prop :=
  match Task.status task with
  | to_do =>
      thresholds_defined coef (Task.deadline task)
        (Task.days_for_completion task) current_date
  | in_progress =>
      exists start,
        Task.actual_start_date task = Some start
        /\ thresholds_defined coef (Task.deadline task)
             (Z.max (Task.days_for_completion task - (current_date - start)) 0)
             current_date
  | done => True
  end.

(** The number [coef] is within the range of the floats. *)
Definition finite_coef (coef : Q) : Prop :=
  exists c, Py.to_float coef = Some c.

(** The value of a primitive float, for the comparison of [Py.round64]
    with the floats of the machine. *)
Definition Q_of_float (f : float) : option Q :=
  match Prim2SF f with
  | S754_zero _ => Some 0%Q
  | S754_finite s m e =>
      Some ((if s then - (1) else 1) * (inject_Z (Zpos m) * Py.pow2 e))%Q
  | _ => None
  end.

(** The status branch of the engine for [n] days: the hard test, then the
    soft one. *)
Definition branch_warnings (coef : Q) (task_id : Z)
    (hard_type soft_type : WarningTypeEnum) (deadline : Py.date) (n : Z)
    (current_date : Py.date) : Py.result (list WarningModel) :=
  hard <- hard_threshold deadline n ;;
  if current_date >=? hard
  then Py.ret [ {| WarningModel.type := hard_type;
                   WarningModel.task_id := task_id |} ]
  else
    soft <- soft_threshold coef deadline n ;;
    if current_date >=? soft
    then Py.ret [ {| WarningModel.type := soft_type;
                     WarningModel.task_id := task_id |} ]
    else Py.ret [].

(** An [in_progress] task without [actual_start_date]. *)
Definition unstarted (t : Task) : Prop :=
  Task.status t = in_progress /\ Task.actual_start_date t = None.

(** The invariant of the three actual-date columns of a task. *)
Definition completion_days_invariant (t : Task) : Prop :=
  match Task.actual_start_date t, Task.actual_finish_date t with
  | Some start, Some finish =>
      Task.actual_completion_days t = Some ((finish - start) + 1)
  | _, _ => Task.actual_completion_days t = None
  end.

(** A task with the given identity, status, deadline, planned duration and
    actual start date; the other columns are arbitrary. *)
Definition sample_task (id_ : Z) (status : TaskStatusEnum)
    (deadline days_for_completion : Z) (actual_start_date : option Py.date) :
    Task :=
  {| Task.id := id_;
     Task.responsible_user_id := 1;
     Task.status := status;
     Task.title := None;
     Task.description := None;
     Task.deadline := deadline;
     Task.days_for_completion := days_for_completion;
     Task.actual_start_date := actual_start_date;
     Task.actual_finish_date := None;
     Task.actual_completion_days := None;
     Task.is_archived := false;
     Task.created_timestamp := 0 |}.

(** A database of [n] tasks that are not archived, the first [k] of them
    [done] and the others [to_do], without dependency. *)
Definition tasks_with_done (n k : nat) : Db :=
  {| Db.task :=
       map (fun i => sample_task (Z.of_nat i)
                       (if (i <=? k)%nat then done else to_do) 100 1 None)
         (seq 1 n);
     Db.task_depends := [] |}.

(** The progress figure of the view, when it returns one. *)
Definition progress_of (db : Db) (current_date : Py.date) : Py.result Z :=
  r <- get_dashboard_tasks (1 # 2) unit (fun _ => None) db current_date ;;
  Py.ret (progress r).

(** The key of the unique constraint of ["task_depends"]. *)
Definition edge_key (d : TaskDepends) : Z * Z :=
  (TaskDepends.task_id d, TaskDepends.depends_task_id d).

(** The edge [(id_, depends_id)] is stored. *)
Definition has_edge (db : Db) (id_ depends_id : Z) : bool :=
  existsb (TaskRepository.same_edge id_ depends_id) (Db.task_depends db).

(** The unique constraint: no two rows with the same key. *)
Definition unique_edges (db : Db) : Prop :=
  NoDup (map edge_key (Db.task_depends db)).

(** The primary key of ["task"]: no two rows with the same ["id"]. *)
Definition unique_ids (db : Db) : Prop := NoDup (map Task.id (Db.task db)).

(** The rows of category [self]. *)
Definition is_self (row : TaskWithDependency) : bool :=
  match TaskWithDependency.dependency_type row with
  | self => true
  | _ => false
  end.

(** The value that [update_task_start_finish_dates] stores in
    ["actual_completion_days"]. *)
Definition inclusive_days (start finish : option Py.date) : option Z :=
  match start, finish with
  | Some s, Some f => Some ((f - s) + 1)
  | _, _ => None
  end.

(** Two tasks and the edge from the first to the second. *)
Definition sample_db : Db :=
  {| Db.task := [sample_task 1 to_do 30 10 None;
                 sample_task 2 in_progress 20 5 (Some 10)];
     Db.task_depends :=
       [ {| TaskDepends.task_id := 1;
            TaskDepends.depends_task_id := 2;
            TaskDepends.created_timestamp := 7 |} ] |}.

(** The task [t] has the status [s]. *)
Definition status_is (s : TaskStatusEnum) (t : Task) : bool :=
  TaskStatusEnum_eqb (Task.status t) s.

(** The dashboard entry [dt] is the one the view builds for the task [t]
    at [current_date]. *)
Definition shows (coef : Q) {User : Set} (user_get_by_id : Z -> option User)
    (current_date : Py.date) (t : Task) (dt : DashboardTask User) : Prop :=
  dt_id dt = Task.id t
  /\ dt_title dt = Task.title t
  /\ dt_deadline dt = Task.deadline t
  /\ dt_responsible dt = user_get_by_id (Task.responsible_user_id t)
  /\ get_warnings_list coef t current_date = inr (dt_warnings dt).

(** The loop invariant of the grouping: the keys of [statuses] are
    distinct and are the statuses of the tasks seen so far, and each key
    holds the entries of the tasks of that status, in the order of the
    tasks. *)
Definition grouped (coef : Q) {User : Set} (user_get_by_id : Z -> option User)
    (current_date : Py.date) (seen : list Task)
    (statuses : list (TaskStatusEnum * list (DashboardTask User))) : Prop :=
  NoDup (map fst statuses)
  /\ (forall t, In t seen -> In (Task.status t) (map fst statuses))
  /\ (forall k l, In (k, l) statuses ->
        l <> []
        /\ Forall2 (shows coef user_get_by_id current_date)
             (filter (status_is k) seen) l).

(** The calls of [TaskRepository] that change the database, with their
    arguments. *)
Inductive mutation : Set :=
| UpdateTaskData (task_id : Z) (title description : option string)
    (deadline : Py.date) (responsible_user_id days_for_completion : Z)
| UpdateTaskStatus (task_id : Z) (new_status : TaskStatusEnum)
| UpdateTaskStartFinishDates (task_id : Z)
    (new_start_date new_finish_date : option Py.date)
| AddTaskDepends (now id_ depends_id : Z)
| UpdateTaskArchiveStatus (task_id : Z) (archive_status : bool)
| UpdateTaskDeadline (task_id : Z) (new_deadline : Py.date)
| DelTasksDepends (id_ depends_id : Z).

(** The database after the call; a call that raises leaves it as it is. *)
Definition apply_mutation (db : Db) (m : mutation) : Db :=
  match m with
  | UpdateTaskData task_id title description deadline responsible days =>
      fst (TaskRepository.update_task_data db task_id title description
             deadline responsible days)
  | UpdateTaskStatus task_id new_status =>
      fst (TaskRepository.update_task_status db task_id new_status)
  | UpdateTaskStartFinishDates task_id new_start_date new_finish_date =>
      fst (TaskRepository.update_task_start_finish_dates db task_id
             new_start_date new_finish_date)
  | AddTaskDepends now id_ depends_id =>
      match TaskRepository.add_task_depends db now id_ depends_id with
      | inr db' => db'
      | inl _ => db
      end
  | UpdateTaskArchiveStatus task_id archive_status =>
      fst (TaskRepository.update_task_archive_status db task_id archive_status)
  | UpdateTaskDeadline task_id new_deadline =>
      fst (TaskRepository.update_task_deadline db task_id new_deadline)
  | DelTasksDepends id_ depends_id =>
      fst (TaskRepository.del_tasks_depends db id_ depends_id)
  end.

(** The constraints of the two tables and the invariant of the actual
    dates, on every row. *)
Definition consistent (db : Db) : Prop :=
  unique_ids db
  /\ unique_edges db
  /\ Forall completion_days_invariant (Db.task db).

(* ================================================================== *)
(** * binary64 rounding and the days of a timedelta *)
(* ================================================================== *)

Lemma rne_le (n d k : Z) : 0 < d -> n <= k * d -> Py.rne n d <= k.
Proof.
  intros Hd H. unfold Py.rne.
  pose proof (Z.div_mod n d ltac:(lia)) as E.
  pose proof (Z.mod_pos_bound n d Hd) as Hr.
  assert (Hf : n / d <= k) by (apply Z.div_le_upper_bound; lia).
  destruct (Z.compare_spec (2 * (n mod d)) d) as [Hc | Hc | Hc].
  - destruct (Z.even (n / d)); [exact Hf|]. nia.
  - exact Hf.
  - nia.
Qed.

Lemma rne_ge (n d k : Z) : 0 < d -> k * d <= n -> k <= Py.rne n d.
Proof.
  intros Hd H. unfold Py.rne.
  assert (Hf : k <= n / d) by (apply Z.div_le_lower_bound; lia).
  destruct (2 * (n mod d) ?= d); [destruct (Z.even (n / d))| |]; lia.
Qed.

Lemma pow2_pos (e : Z) : (0 < Py.pow2 e)%Q.
Proof.
  unfold Py.pow2. destruct (Z.leb_spec 0 e).
  - change 0%Q with (inject_Z 0). rewrite <- Zlt_Qlt. apply Z.pow_pos_nonneg; lia.
  - reflexivity.
Qed.

Lemma round64_pos_nonneg (a : Q) : (0 < a)%Q -> (0 <= Py.round64_pos a)%Q.
Proof.
  intros Ha. unfold Py.round64_pos.
  assert (Hn : 0 < Qnum a) by (unfold Qlt in Ha; cbn in Ha; lia).
  apply Qmult_le_0_compat; [|apply Qlt_le_weak, pow2_pos].
  change 0%Q with (inject_Z 0). rewrite <- Zle_Qle.
  destruct (0 <=? _) eqn:E.
  - apply (rne_ge _ _ 0); [|lia].
    apply Z.leb_le in E. pose proof (Z.pow_pos_nonneg 2 _ ltac:(lia) E). nia.
  - apply (rne_ge _ _ 0); [lia|].
    apply Z.leb_gt in E.
    pose proof (Z.pow_pos_nonneg 2 (- Z.max (Py.ilog2 a - 52) (-1074)) ltac:(lia) ltac:(lia)).
    nia.
Qed.

Lemma ilog2_le_52 (a : Q) (z : Z) :
  (a <= inject_Z z)%Q -> z < 2 ^ 53 -> Py.ilog2 a <= 52.
Proof.
  intros Ha Hz. unfold Py.ilog2. destruct (Qle_bool 1 a) eqn:E.
  - apply Qle_bool_iff in E.
    assert (H1 : 1 <= Qfloor a).
    { change 1 with (Qfloor 1). now apply Qfloor_resp_le. }
    assert (H2 : Qfloor a <= z).
    { rewrite <- (Qfloor_Z z). now apply Qfloor_resp_le. }
    assert (Qfloor a < 2 ^ 53) by lia.
    apply Z.log2_lt_pow2 in H; lia.
  - pose proof (Z.log2_up_nonneg (Qceiling (/ a))). lia.
Qed.

Lemma round64_pos_le (a : Q) (z : Z) :
  (0 < a)%Q -> (a <= inject_Z z)%Q -> z < 2 ^ 53 ->
  (Py.round64_pos a <= inject_Z z)%Q.
Proof.
  intros Hpos Ha Hz. pose proof (ilog2_le_52 a z Ha Hz) as He.
  unfold Py.round64_pos.
  set (e := Z.max (Py.ilog2 a - 52) (-1074)). assert (Hle : e <= 0) by lia.
  assert (Hnum : Qnum a <= z * Zpos (Qden a)).
  { unfold Qle in Ha. cbn in Ha. lia. }
  unfold Py.pow2. destruct (Z.leb_spec 0 e) as [H0 | H0].
  - replace e with 0 by lia. cbn [Z.pow]. rewrite Qmult_1_r, <- Zle_Qle.
    apply rne_le; lia.
  - assert (Hp : 0 < 2 ^ (- e)) by (apply Z.pow_pos_nonneg; lia).
    assert (Hm : Py.rne (Qnum a * 2 ^ (- e)) (Zpos (Qden a)) <= z * 2 ^ (- e)).
    { apply rne_le; [lia | nia]. }
    unfold Qle, Qmult, inject_Z. cbn.
    rewrite Z2Pos.id by exact Hp. lia.
Qed.

Lemma round64_le (q : Q) (z : Z) :
  0 <= z < 2 ^ 53 -> (q <= inject_Z z)%Q -> (Py.round64 q <= inject_Z z)%Q.
Proof.
  intros Hz Hq. unfold Py.round64. destruct (Qnum q) eqn:E.
  - change 0%Q with (inject_Z 0). rewrite <- Zle_Qle. lia.
  - apply round64_pos_le; [|exact Hq | lia].
    unfold Qlt. cbn. rewrite E. lia.
  - apply Qle_trans with 0%Q.
    + apply (Qopp_le_compat 0). apply round64_pos_nonneg.
      unfold Qlt. cbn. rewrite E. lia.
    + change 0%Q with (inject_Z 0). rewrite <- Zle_Qle. lia.
Qed.

Lemma round64_nonneg (q : Q) : (0 <= q)%Q -> (0 <= Py.round64 q)%Q.
Proof.
  intros Hq. unfold Py.round64. destruct (Qnum q) eqn:E.
  - apply Qle_refl.
  - apply round64_pos_nonneg. unfold Qlt. cbn. rewrite E. lia.
  - unfold Qle in Hq. cbn in Hq. lia.
Qed.

Lemma round64_nonpos (q : Q) : (q <= 0)%Q -> (Py.round64 q <= 0)%Q.
Proof.
  intros Hq. unfold Py.round64. destruct (Qnum q) eqn:E.
  - apply Qle_refl.
  - unfold Qle in Hq. cbn in Hq. lia.
  - apply (Qopp_le_compat 0). apply round64_pos_nonneg.
    unfold Qlt. cbn. rewrite E. lia.
Qed.

Lemma Qtrunc_nonneg (x : Q) :
  (0 <= x)%Q ->
  0 <= Py.Qtrunc x /\ (inject_Z (Py.Qtrunc x) <= x)%Q /\ (x < inject_Z (Py.Qtrunc x) + 1)%Q.
Proof.
  intros Hx. unfold Py.Qtrunc.
  rewrite (proj2 (Qle_bool_iff 0 x) Hx).
  split; [|split].
  - change 0 with (Qfloor 0). now apply Qfloor_resp_le.
  - apply Qfloor_le.
  - pose proof (Qlt_floor x) as H. rewrite inject_Z_plus in H. exact H.
Qed.

Lemma Qtrunc_nonpos (x : Q) :
  (x <= 0)%Q ->
  Py.Qtrunc x <= 0 /\ (x <= inject_Z (Py.Qtrunc x))%Q /\ (inject_Z (Py.Qtrunc x) - 1 < x)%Q.
Proof.
  intros Hx. unfold Py.Qtrunc. destruct (Qle_bool 0 x) eqn:E.
  - apply Qle_bool_iff in E. assert (Hz : (x == 0)%Q) by lra.
    pose proof (Qfloor_comp x 0 Hz) as Hf. cbn in Hf. rewrite Hf.
    change (inject_Z 0) with 0%Q. split; [lia | split; lra].
  - split; [|split].
    + change 0 with (Qceiling 0). now apply Qceiling_resp_le.
    + apply Qle_ceiling.
    + pose proof (Qceiling_lt x) as H.
      unfold Z.sub in H. rewrite inject_Z_plus in H. exact H.
Qed.

Lemma round_leftover_nonneg (l : Q) (y : Z) :
  (0 <= l)%Q -> 0 <= Py.round_leftover l y <= 1.
Proof.
  intros Hl. unfold Py.round_leftover.
  rewrite (proj2 (Qle_bool_iff 0 l) Hl).
  destruct (Qabs l ?= 1 # 2)%Q; [destruct (Z.odd y)| |]; lia.
Qed.

Lemma round_leftover_nonpos (l : Q) (y : Z) :
  (l <= 0)%Q -> Py.round_leftover l y <= 0.
Proof.
  intros Hl. unfold Py.round_leftover. destruct (Qle_bool 0 l) eqn:E.
  - apply Qle_bool_iff in E. assert (Hz : (l == 0)%Q) by lra.
    assert (Ha : (Qabs l == 0)%Q) by (rewrite Hz; reflexivity).
    assert (Hc : (Qabs l ?= 1 # 2)%Q = Lt).
    { apply Qlt_alt. rewrite Ha. reflexivity. }
    rewrite Hc. lia.
  - destruct (Qabs l ?= 1 # 2)%Q; [destruct (Z.odd y)| |]; lia.
Qed.

Lemma us_per_day_small : 0 <= Py.us_per_day < 2 ^ 53.
Proof. unfold Py.us_per_day. lia. Qed.

(** An amount of days [x <= n] gives at most [n] whole days. *)
Lemma timedelta_microseconds_le (x : Q) (n : Z) :
  0 <= n -> (x <= inject_Z n)%Q ->
  Py.timedelta_microseconds x / Py.us_per_day <= n.
Proof.
  intros Hn Hx.
  assert (HD : 1 < Py.us_per_day) by (unfold Py.us_per_day; lia).
  apply Z.lt_succ_r. apply Z.div_lt_upper_bound; [lia|].
  unfold Py.timedelta_microseconds, Py.modf.
  destruct (Qlt_le_dec x 0) as [Hneg | Hpos].
  - destruct (Qtrunc_nonpos x (Qlt_le_weak _ _ Hneg)) as (H1 & H2 & H3).
    destruct (Qeq_bool _ 0); [nia|].
    set (f := (x - inject_Z (Py.Qtrunc x))%Q).
    assert (Hf : (f <= 0)%Q) by (unfold f; lra).
    assert (Hd : (Py.round64 (inject_Z Py.us_per_day * f) <= 0)%Q).
    { apply round64_nonpos.
      assert (0 <= inject_Z Py.us_per_day)%Q
        by (change 0%Q with (inject_Z 0); rewrite <- Zle_Qle; lia).
      nra. }
    destruct (Qtrunc_nonpos _ Hd) as (H4 & H5 & H6).
    assert (Hl : (Py.round64 (inject_Z Py.us_per_day * f)
                  - inject_Z (Py.Qtrunc (Py.round64 (inject_Z Py.us_per_day * f))) <= 0)%Q)
      by lra.
    pose proof (round_leftover_nonpos _
                  (Py.Qtrunc x * Py.us_per_day
                   + Py.Qtrunc (Py.round64 (inject_Z Py.us_per_day * f))) Hl).
    nia.
  - destruct (Qtrunc_nonneg x Hpos) as (H1 & H2 & H3).
    assert (Hip : Py.Qtrunc x <= n).
    { rewrite Zle_Qle. lra. }
    destruct (Qeq_bool _ 0) eqn:E; [nia|].
    set (f := (x - inject_Z (Py.Qtrunc x))%Q) in *.
    assert (Hf0 : (0 <= f)%Q) by (unfold f; lra).
    assert (Hf1 : (f < 1)%Q) by (unfold f; lra).
    assert (Hip' : Py.Qtrunc x <= n - 1).
    { destruct (Z.eq_dec (Py.Qtrunc x) n) as [Heq | Hne]; [|lia].
      exfalso. assert (Hz : (f == 0)%Q) by (unfold f; rewrite Heq in *; lra).
      apply Qeq_bool_iff in Hz. congruence. }
    assert (HDq : (0 < inject_Z Py.us_per_day)%Q)
      by (change 0%Q with (inject_Z 0); rewrite <- Zlt_Qlt; lia).
    assert (Hd0 : (0 <= Py.round64 (inject_Z Py.us_per_day * f))%Q)
      by (apply round64_nonneg; nra).
    assert (Hd1 : (Py.round64 (inject_Z Py.us_per_day * f) <= inject_Z Py.us_per_day)%Q)
      by (apply round64_le; [apply us_per_day_small | nra]).
    destruct (Qtrunc_nonneg _ Hd0) as (H4 & H5 & H6).
    assert (Hip2 : Py.Qtrunc (Py.round64 (inject_Z Py.us_per_day * f)) <= Py.us_per_day).
    { rewrite Zle_Qle. lra. }
    assert (Hl : (0 <= Py.round64 (inject_Z Py.us_per_day * f)
                       - inject_Z (Py.Qtrunc (Py.round64 (inject_Z Py.us_per_day * f))))%Q)
      by lra.
    pose proof (round_leftover_nonneg _
                  (Py.Qtrunc x * Py.us_per_day
                   + Py.Qtrunc (Py.round64 (inject_Z Py.us_per_day * f))) Hl).
    nia.
Qed.

(** A nonnegative amount of days gives a nonnegative number of days. *)
Lemma timedelta_microseconds_nonneg (x : Q) :
  (0 <= x)%Q -> 0 <= Py.timedelta_microseconds x / Py.us_per_day.
Proof.
  intros Hpos.
  assert (HD : 0 < Py.us_per_day) by (unfold Py.us_per_day; lia).
  apply Z.div_pos; [|exact HD].
  unfold Py.timedelta_microseconds, Py.modf.
  destruct (Qtrunc_nonneg x Hpos) as (H1 & H2 & H3).
  destruct (Qeq_bool _ 0) eqn:E; [nia|].
  set (f := (x - inject_Z (Py.Qtrunc x))%Q) in *.
  assert (Hf0 : (0 <= f)%Q) by (unfold f; lra).
  assert (HDq : (0 < inject_Z Py.us_per_day)%Q)
    by (change 0%Q with (inject_Z 0); rewrite <- Zlt_Qlt; lia).
  assert (Hd0 : (0 <= Py.round64 (inject_Z Py.us_per_day * f))%Q)
    by (apply round64_nonneg; nra).
  destruct (Qtrunc_nonneg _ Hd0) as (H4 & H5 & H6).
  assert (Hl : (0 <= Py.round64 (inject_Z Py.us_per_day * f)
                     - inject_Z (Py.Qtrunc (Py.round64 (inject_Z Py.us_per_day * f))))%Q)
    by lra.
  pose proof (round_leftover_nonneg _
                (Py.Qtrunc x * Py.us_per_day
                 + Py.Qtrunc (Py.round64 (inject_Z Py.us_per_day * f))) Hl).
  nia.
Qed.

Lemma is_finite64_small (v : Q) (z : Z) :
  z < 2 ^ 53 -> (0 <= v)%Q -> (v <= inject_Z z)%Q -> Py.is_finite64 v = true.
Proof.
  intros Hz H0 Hv. unfold Py.is_finite64. apply negb_true_iff.
  destruct (Qle_bool (Py.pow2 1024) (Qabs v)) eqn:E; [|reflexivity].
  exfalso. apply Qle_bool_iff in E. rewrite (Qabs_pos v H0) in E.
  assert (H53 : (inject_Z z < inject_Z (2 ^ 53))%Q) by now rewrite <- Zlt_Qlt.
  assert (Hbig : (inject_Z (2 ^ 53) < Py.pow2 1024)%Q) by (vm_compute; reflexivity).
  lra.
Qed.

Lemma to_float_some (q v : Q) : Py.to_float q = Some v -> v = Py.round64 q.
Proof.
  unfold Py.to_float. destruct (Py.is_finite64 _); congruence.
Qed.

(** The product of a number of days [0 <= n] with a coefficient
    [coef <= 1] is at most [n]. *)
Lemma int_mul_float_le (n : Z) (coef product : Q) :
  0 <= n < 2 ^ 53 -> (coef <= 1)%Q ->
  Py.int_mul_float n coef = inr product ->
  (product <= inject_Z n)%Q.
Proof.
  intros Hn Hc. unfold Py.int_mul_float.
  destruct (Py.to_float (inject_Z n)) as [nf|] eqn:En; [|discriminate].
  destruct (Py.to_float coef) as [cf|] eqn:Ec;
    [|destruct (n =? 0); discriminate].
  destruct (Py.to_float (nf * cf)) as [p|] eqn:Ep; [|discriminate].
  intros [= <-].
  apply to_float_some in En, Ec, Ep. subst nf cf p.
  assert (Hn0 : (0 <= Py.round64 (inject_Z n))%Q).
  { apply round64_nonneg. change 0%Q with (inject_Z 0). rewrite <- Zle_Qle. lia. }
  assert (Hn1 : (Py.round64 (inject_Z n) <= inject_Z n)%Q)
    by (apply round64_le; [exact Hn | apply Qle_refl]).
  assert (Hc1 : (Py.round64 coef <= 1)%Q)
    by (apply (round64_le coef 1); [lia | exact Hc]).
  apply round64_le; [exact Hn|]. nra.
Qed.

(** With [0 <= coef <= 1] the product exists and lies between 0 and
    [n]. *)
Lemma int_mul_float_small (n : Z) (coef : Q) :
  0 <= n < 2 ^ 53 -> (0 <= coef)%Q -> (coef <= 1)%Q ->
  exists product,
    Py.int_mul_float n coef = inr product
    /\ (0 <= product)%Q /\ (product <= inject_Z n)%Q.
Proof.
  intros Hn Hc0 Hc1.
  assert (HnQ : (0 <= inject_Z n)%Q)
    by (change 0%Q with (inject_Z 0); rewrite <- Zle_Qle; lia).
  assert (Hn0 : (0 <= Py.round64 (inject_Z n))%Q) by now apply round64_nonneg.
  assert (Hn1 : (Py.round64 (inject_Z n) <= inject_Z n)%Q)
    by (apply round64_le; [exact Hn | apply Qle_refl]).
  assert (Hcf0 : (0 <= Py.round64 coef)%Q) by now apply round64_nonneg.
  assert (Hcf1 : (Py.round64 coef <= 1)%Q)
    by (apply (round64_le coef 1); [lia | exact Hc1]).
  assert (Hp0 : (0 <= Py.round64 (Py.round64 (inject_Z n) * Py.round64 coef))%Q)
    by (apply round64_nonneg; nra).
  assert (Hp1 : (Py.round64 (Py.round64 (inject_Z n) * Py.round64 coef)
                 <= inject_Z n)%Q)
    by (apply round64_le; [exact Hn | nra]).
  exists (Py.round64 (Py.round64 (inject_Z n) * Py.round64 coef)).
  split; [|now split].
  unfold Py.int_mul_float, Py.to_float.
  rewrite (is_finite64_small _ n (proj2 Hn) Hn0 Hn1).
  rewrite (is_finite64_small _ 1 ltac:(lia) Hcf0 Hcf1).
  now rewrite (is_finite64_small _ n (proj2 Hn) Hp0 Hp1).
Qed.

Lemma check_delta_day_range_inr (days k : Z) :
  Py.check_delta_day_range days = inr k
  <-> Z.abs days <= Py.MAX_DELTA_DAYS /\ k = days.
Proof.
  unfold Py.check_delta_day_range.
  destruct (Z.leb_spec (Z.abs days) Py.MAX_DELTA_DAYS); cbn; split.
  - intros [= <-]. now split.
  - now intros [_ ->].
  - discriminate.
  - intros [H' _]. lia.
Qed.

Lemma date_minus_inr (d days r : Z) :
  Py.date_minus d days = inr r
  <-> 1 <= d <= Py.MAXORDINAL /\ 1 <= d - days <= Py.MAXORDINAL /\ r = d - days.
Proof.
  unfold Py.date_minus, Py.is_date.
  destruct (Z.leb_spec 1 d), (Z.leb_spec d Py.MAXORDINAL),
    (Z.leb_spec 1 (d - days)), (Z.leb_spec (d - days) Py.MAXORDINAL); cbn;
    split; try discriminate; try (intros [= <-]; lia);
    try (intros (H3 & H4 & ->); reflexivity); intros; lia.
Qed.

(* ================================================================== *)
(** * The warning engine *)
(* ================================================================== *)

Section WarningEngine.

Variable coef : Q.

Lemma hard_threshold_inr (deadline n hard : Z) :
  hard_threshold deadline n = inr hard
  <-> representable deadline n /\ hard = deadline - n.
Proof.
  unfold hard_threshold, Py.timedelta_days_int, representable.
  destruct (Py.check_delta_day_range n) as [e | days] eqn:E; cbn.
  - split; [discriminate|]. intros [(Hn & _) _].
    unfold Py.check_delta_day_range in E.
    destruct (Z.leb_spec (Z.abs n) Py.MAX_DELTA_DAYS); [discriminate | lia].
  - apply check_delta_day_range_inr in E as [Hn ->].
    rewrite date_minus_inr. tauto.
Qed.

Lemma hard_threshold_inl (deadline n : Z) (e : Py.exn) :
  hard_threshold deadline n = inl e -> e = Py.OverflowError.
Proof.
  unfold hard_threshold, Py.timedelta_days_int, Py.check_delta_day_range,
    Py.date_minus, Py.bind, Py.raise, Py.ret.
  destruct (_ <=? _); [|congruence].
  destruct (_ && _); congruence.
Qed.

Lemma soft_threshold_inl (deadline n : Z) (e : Py.exn) :
  soft_threshold coef deadline n = inl e ->
  e = Py.OverflowError \/ e = Py.ValueError.
Proof.
  unfold soft_threshold, Py.int_mul_float, Py.timedelta_days,
    Py.check_delta_day_range, Py.date_minus, Py.bind, Py.raise, Py.ret.
  destruct (Py.to_float (inject_Z n)); [|intros [= <-]; now left].
  destruct (Py.to_float coef);
    [|destruct (n =? 0); intros [= <-]; auto].
  destruct (Py.to_float _); [|intros [= <-]; now left].
  destruct (_ <=? _); [|intros [= <-]; now left].
  destruct (_ && _); [discriminate | intros [= <-]; now left].
Qed.

Lemma soft_threshold_inr (deadline n soft : Z) :
  soft_threshold coef deadline n = inr soft ->
  exists product days,
    Py.int_mul_float n coef = inr product
    /\ Py.timedelta_days product = inr days
    /\ 1 <= deadline <= Py.MAXORDINAL
    /\ 1 <= soft <= Py.MAXORDINAL
    /\ soft = deadline - days.
Proof.
  unfold soft_threshold.
  destruct (Py.int_mul_float n coef) as [e | product] eqn:Ep; [discriminate|].
  cbn [Py.bind].
  destruct (Py.timedelta_days product) as [e | days] eqn:Ed; [discriminate|].
  cbn [Py.bind]. intros H. apply date_minus_inr in H as (H1 & H2 & ->).
  exists product, days. repeat split; (reflexivity || assumption || lia).
Qed.

(** With a coefficient of at most 1 the soft threshold is not earlier than
    the hard one. *)
Lemma soft_threshold_not_earlier (deadline n soft : Z) :
  (coef <= 1)%Q -> 0 <= n -> representable deadline n ->
  soft_threshold coef deadline n = inr soft ->
  deadline - n <= soft.
Proof.
  intros Hc Hn (Hmax & _) H.
  apply soft_threshold_inr in H as (product & days & Hp & Hd & _ & _ & ->).
  assert (Hn53 : 0 <= n < 2 ^ 53) by (unfold Py.MAX_DELTA_DAYS in Hmax; lia).
  pose proof (int_mul_float_le n coef product Hn53 Hc Hp) as Hle.
  unfold Py.timedelta_days in Hd.
  apply check_delta_day_range_inr in Hd as [_ ->].
  pose proof (timedelta_microseconds_le product n Hn Hle). lia.
Qed.

(** With a coefficient between 0 and 1 the soft threshold is a date
    whenever the hard one is. *)
Lemma soft_threshold_between (deadline n : Z) :
  (0 <= coef)%Q -> (coef <= 1)%Q -> 0 <= n -> representable deadline n ->
  exists soft,
    soft_threshold coef deadline n = inr soft
    /\ deadline - n <= soft <= deadline.
Proof.
  intros Hc0 Hc1 Hn (Hmax & Hd & Hdn).
  assert (Hn53 : 0 <= n < 2 ^ 53) by (unfold Py.MAX_DELTA_DAYS in Hmax; lia).
  destruct (int_mul_float_small n coef Hn53 Hc0 Hc1) as (product & Hp & Hp0 & Hp1).
  pose proof (timedelta_microseconds_le product n Hn Hp1) as Hk1.
  pose proof (timedelta_microseconds_nonneg product Hp0) as Hk0.
  exists (deadline - Py.timedelta_microseconds product / Py.us_per_day).
  split; [|lia].
  unfold soft_threshold. rewrite Hp. cbn [Py.bind]. unfold Py.timedelta_days.
  assert (Hrange : Z.abs (Py.timedelta_microseconds product / Py.us_per_day)
                   <= Py.MAX_DELTA_DAYS) by lia.
  rewrite (proj2 (check_delta_day_range_inr _ _) (conj Hrange eq_refl)).
  cbn [Py.bind]. apply date_minus_inr. lia.
Qed.

(** The outcome of a status branch. *)
Lemma branch_warnings_spec (task_id : Z) (hard_type soft_type : WarningTypeEnum)
    (deadline n current_date : Z) :
  match branch_warnings coef task_id hard_type soft_type deadline n
          current_date with
  | inr ws =>
      thresholds_defined coef deadline n current_date
      /\ ((deadline - n <= current_date
           /\ ws = [ {| WarningModel.type := hard_type;
                        WarningModel.task_id := task_id |} ])
          \/ (current_date < deadline - n
              /\ exists soft,
                   soft_threshold coef deadline n = inr soft
                   /\ ((soft <= current_date
                        /\ ws = [ {| WarningModel.type := soft_type;
                                     WarningModel.task_id := task_id |} ])
                       \/ (current_date < soft /\ ws = []))))
  | inl e =>
      ~ thresholds_defined coef deadline n current_date
      /\ (e = Py.OverflowError \/ e = Py.ValueError)
  end.
Proof.
  unfold branch_warnings, thresholds_defined, Py.ret.
  destruct (hard_threshold deadline n) as [e | hard] eqn:Eh; cbn [Py.bind].
  - split; [|left; now apply hard_threshold_inl in Eh].
    intros [Hr _].
    assert (H : hard_threshold deadline n = inr (deadline - n))
      by now apply hard_threshold_inr.
    congruence.
  - apply hard_threshold_inr in Eh as [Hr ->].
    destruct (Z.geb_spec current_date (deadline - n)) as [Hh | Hh].
    + split; [split; [exact Hr | lia]|]. left. now split.
    + destruct (soft_threshold coef deadline n) as [e | soft] eqn:Es;
        cbn [Py.bind].
      * split; [|now apply soft_threshold_inl in Es].
        intros [_ Hs]. destruct (Hs Hh) as (soft & Hsoft). discriminate.
      * destruct (Z.geb_spec current_date soft);
          (split; [split; [exact Hr | intros _; now exists soft]|]);
          right; (split; [exact Hh|]); exists soft; (split; [reflexivity|]);
          [left | right]; now split.
Qed.

Lemma get_warnings_list_to_do (task : Task) (current_date : Py.date) :
  Task.status task = to_do ->
  get_warnings_list coef task current_date
  = (ws <- branch_warnings coef (Task.id task) start_hard start_soft
             (Task.deadline task) (Task.days_for_completion task)
             current_date ;;
     Py.ret (ws ++ late_part task current_date)).
Proof.
  intros Hst.
  unfold get_warnings_list, branch_warnings, hard_threshold, soft_threshold,
    late_part.
  rewrite Hst.
  destruct (Py.timedelta_days_int _); cbn [Py.bind]; [reflexivity|].
  destruct (Py.date_minus _ _); cbn [Py.bind]; [reflexivity|].
  destruct (_ >=? _); cbn [Py.bind]; [reflexivity|].
  destruct (Py.int_mul_float _ _); cbn [Py.bind]; [reflexivity|].
  destruct (Py.timedelta_days _); cbn [Py.bind]; [reflexivity|].
  destruct (Py.date_minus _ _); cbn [Py.bind]; [reflexivity|].
  destruct (_ >=? _); reflexivity.
Qed.

Lemma get_warnings_list_in_progress (task : Task) (current_date start : Py.date) :
  Task.status task = in_progress ->
  Task.actual_start_date task = Some start ->
  get_warnings_list coef task current_date
  = (ws <- branch_warnings coef (Task.id task) finish_hard finish_soft
             (Task.deadline task)
             (Z.max (Task.days_for_completion task - (current_date - start)) 0)
             current_date ;;
     Py.ret (ws ++ late_part task current_date)).
Proof.
  intros Hst Hstart.
  unfold get_warnings_list, branch_warnings, hard_threshold, soft_threshold,
    late_part.
  rewrite Hst, Hstart. cbn [Py.date_sub Py.bind Py.ret].
  replace (if Task.days_for_completion task - (current_date - start) <? 0
           then 0
           else Task.days_for_completion task - (current_date - start))
    with (Z.max (Task.days_for_completion task - (current_date - start)) 0)
    by (destruct (Z.ltb_spec
                    (Task.days_for_completion task - (current_date - start)) 0);
        lia).
  cbv zeta.
  destruct (Py.timedelta_days_int _); cbn [Py.bind]; [reflexivity|].
  destruct (Py.date_minus _ _); cbn [Py.bind]; [reflexivity|].
  destruct (_ >=? _); cbn [Py.bind]; [reflexivity|].
  destruct (Py.int_mul_float _ _); cbn [Py.bind]; [reflexivity|].
  destruct (Py.timedelta_days _); cbn [Py.bind]; [reflexivity|].
  destruct (Py.date_minus _ _); cbn [Py.bind]; [reflexivity|].
  destruct (_ >=? _); reflexivity.
Qed.

Lemma get_warnings_list_done (task : Task) (current_date : Py.date) :
  Task.status task = done ->
  get_warnings_list coef task current_date = inr (late_part task current_date).
Proof.
  intros Hst. unfold get_warnings_list, late_part. rewrite Hst. reflexivity.
Qed.

Lemma get_warnings_list_no_start_date (task : Task) (current_date : Py.date) :
  Task.status task = in_progress ->
  Task.actual_start_date task = None ->
  get_warnings_list coef task current_date = inl Py.TypeError.
Proof.
  intros Hst Hstart. unfold get_warnings_list. now rewrite Hst, Hstart.
Qed.

Lemma has_warning_app (ty : WarningTypeEnum) (l1 l2 : list WarningModel) :
  has_warning ty (l1 ++ l2) <-> has_warning ty l1 \/ has_warning ty l2.
Proof.
  unfold has_warning. rewrite map_app. apply in_app_iff.
Qed.

Lemma has_warning_nil (ty : WarningTypeEnum) : has_warning ty [] <-> False.
Proof. reflexivity. Qed.

Lemma has_warning_one (ty : WarningTypeEnum) (w : WarningModel) :
  has_warning ty [w] <-> WarningModel.type w = ty.
Proof. unfold has_warning. cbn. tauto. Qed.

Lemma has_late_part (ty : WarningTypeEnum) (task : Task) (current_date : Py.date) :
  has_warning ty (late_part task current_date)
  <-> ty = late_deadline /\ Task.deadline task < current_date.
Proof.
  unfold late_part, has_warning.
  destruct (Z.gtb_spec current_date (Task.deadline task)); cbn.
  - split; [intros [<- | []]; split; [reflexivity | lia] | intros [-> _]; now left].
  - split; [intros [] | intros [_ Hlt]; lia].
Qed.

(** C9.  A task whose status is [in_progress] and whose
    [actual_start_date] is unset makes the warning computation fail: the
    subtraction [current_date - None] raises [TypeError], and no warning
    list, defaulted or not, is returned. *)
Theorem in_progress_without_start_date_raises (task : Task)
    (current_date : Py.date) :
  Task.status task = in_progress ->
  Task.actual_start_date task = None ->
  get_warnings_list coef task current_date = inl Py.TypeError
  /\ forall ws, get_warnings_list coef task current_date <> inr ws.
Proof.
  intros Hst Hstart.
  assert (E : get_warnings_list coef task current_date = inl Py.TypeError).
  { unfold get_warnings_list. rewrite Hst, Hstart. reflexivity. }
  split; [exact E | intros ws; rewrite E; discriminate].
Qed.

(** The status part of a result. *)
Lemma branch_warnings_inr (task_id : Z) (hard_type soft_type : WarningTypeEnum)
    (deadline n current_date : Z) (ws : list WarningModel) :
  branch_warnings coef task_id hard_type soft_type deadline n current_date
  = inr ws ->
  (length ws <= 1)%nat
  /\ Forall (fun w => (WarningModel.type w = hard_type
                       \/ WarningModel.type w = soft_type)
                      /\ WarningModel.task_id w = task_id) ws.
Proof.
  intros H. pose proof (branch_warnings_spec task_id hard_type soft_type
                          deadline n current_date) as S.
  rewrite H in S.
  destruct S as [_ [[_ ->] | (_ & soft & _ & [[_ ->] | [_ ->]])]];
    cbn [length]; (split; [lia|]);
    [constructor; [cbn; auto | constructor]
    |constructor; [cbn; auto | constructor]
    |constructor].
Qed.

(** The engine returns a list exactly under the precondition of the
    branch, and the list is a status part of at most one warning followed
    by the late part. *)
Lemma get_warnings_list_returns (task : Task) (current_date : Py.date) :
  branch_precondition coef task current_date ->
  exists status_part,
    get_warnings_list coef task current_date
    = inr (status_part ++ late_part task current_date).
Proof.
  unfold branch_precondition. destruct (Task.status task) eqn:Hst.
  - intros Hpre. rewrite (get_warnings_list_to_do _ _ Hst).
    pose proof (branch_warnings_spec (Task.id task) start_hard start_soft
                  (Task.deadline task) (Task.days_for_completion task)
                  current_date) as S.
    destruct (branch_warnings _ _ _ _ _ _ _) as [e | ws]; [now destruct S|].
    now exists ws.
  - intros (start & Hstart & Hpre).
    rewrite (get_warnings_list_in_progress _ _ _ Hst Hstart).
    pose proof (branch_warnings_spec (Task.id task) finish_hard finish_soft
                  (Task.deadline task)
                  (Z.max (Task.days_for_completion task
                          - (current_date - start)) 0)
                  current_date) as S.
    destruct (branch_warnings _ _ _ _ _ _ _) as [e | ws]; [now destruct S|].
    now exists ws.
  - intros _. rewrite (get_warnings_list_done _ _ Hst). now exists [].
Qed.

Lemma get_warnings_list_inr (task : Task) (current_date : Py.date)
    (ws : list WarningModel) :
  get_warnings_list coef task current_date = inr ws ->
  branch_precondition coef task current_date
  /\ exists status_part,
       ws = status_part ++ late_part task current_date
       /\ (length status_part <= 1)%nat
       /\ Forall (fun w => status_conditioned w = true
                           /\ WarningModel.task_id w = Task.id task)
            status_part.
Proof.
  unfold branch_precondition. destruct (Task.status task) eqn:Hst.
  - rewrite (get_warnings_list_to_do _ _ Hst).
    pose proof (branch_warnings_spec (Task.id task) start_hard start_soft
                  (Task.deadline task) (Task.days_for_completion task)
                  current_date) as S.
    destruct (branch_warnings _ _ _ _ _ _ _) as [e | sp] eqn:E; [discriminate|].
    intros [= <-]. split; [now destruct S|].
    exists sp. split; [reflexivity|].
    apply branch_warnings_inr in E as [Hlen Hall]. split; [exact Hlen|].
    eapply Forall_impl; [|exact Hall]. intros w [[Hw | Hw] Hid];
      (split; [|exact Hid]); unfold status_conditioned; now rewrite Hw.
  - destruct (Task.actual_start_date task) as [start|] eqn:Hstart.
    + rewrite (get_warnings_list_in_progress _ _ _ Hst Hstart).
      pose proof (branch_warnings_spec (Task.id task) finish_hard finish_soft
                    (Task.deadline task)
                    (Z.max (Task.days_for_completion task
                            - (current_date - start)) 0)
                    current_date) as S.
      destruct (branch_warnings _ _ _ _ _ _ _) as [e | sp] eqn:E;
        [discriminate|].
      intros [= <-]. split; [exists start; split; [reflexivity | now destruct S]|].
      exists sp. split; [reflexivity|].
      apply branch_warnings_inr in E as [Hlen Hall]. split; [exact Hlen|].
      eapply Forall_impl; [|exact Hall]. intros w [[Hw | Hw] Hid];
        (split; [|exact Hid]); unfold status_conditioned; now rewrite Hw.
    + now rewrite (get_warnings_list_no_start_date _ _ Hst Hstart).
  - rewrite (get_warnings_list_done _ _ Hst). intros [= <-].
    split; [exact I|]. exists []. cbn. auto.
Qed.

(** The exceptions of the engine. *)
Lemma get_warnings_list_inl (task : Task) (current_date : Py.date) (e : Py.exn) :
  get_warnings_list coef task current_date = inl e ->
  e = Py.TypeError \/ e = Py.OverflowError \/ e = Py.ValueError.
Proof.
  destruct (Task.status task) eqn:Hst.
  - rewrite (get_warnings_list_to_do _ _ Hst).
    pose proof (branch_warnings_spec (Task.id task) start_hard start_soft
                  (Task.deadline task) (Task.days_for_completion task)
                  current_date) as S.
    destruct (branch_warnings _ _ _ _ _ _ _) as [e' | sp]; [|discriminate].
    cbn. intros [= <-]. right. tauto.
  - destruct (Task.actual_start_date task) as [start|] eqn:Hstart.
    + rewrite (get_warnings_list_in_progress _ _ _ Hst Hstart).
      pose proof (branch_warnings_spec (Task.id task) finish_hard finish_soft
                    (Task.deadline task)
                    (Z.max (Task.days_for_completion task
                            - (current_date - start)) 0)
                    current_date) as S.
      destruct (branch_warnings _ _ _ _ _ _ _) as [e' | sp]; [|discriminate].
      cbn. intros [= <-]. right. tauto.
    + rewrite (get_warnings_list_no_start_date _ _ Hst Hstart).
      intros [= <-]. now left.
  - now rewrite (get_warnings_list_done _ _ Hst).
Qed.

Lemma status_conditioned_not_late (ws : list WarningModel) :
  Forall (fun w => status_conditioned w = true) ws ->
  ~ has_warning late_deadline ws.
Proof.
  unfold has_warning. induction 1 as [|w ws Hw _ IH]; cbn; [tauto|].
  intros [E | Hin]; [|tauto].
  unfold status_conditioned in Hw. rewrite E in Hw. discriminate.
Qed.

Lemma filter_status_conditioned (ws : list WarningModel) :
  Forall (fun w => status_conditioned w = true) ws ->
  filter status_conditioned ws = ws.
Proof.
  induction 1 as [|w l Hw _ IH]; cbn [filter]; [reflexivity|].
  now rewrite Hw, IH.
Qed.

Lemma filter_late_of_status_conditioned (ws : list WarningModel) :
  Forall (fun w => status_conditioned w = true) ws ->
  filter is_late_deadline ws = [].
Proof.
  induction 1 as [|w l Hw _ IH]; cbn [filter]; [reflexivity|].
  unfold status_conditioned in Hw. unfold is_late_deadline at 1.
  destruct (WarningModel.type w); try discriminate; exact IH.
Qed.


Ltac has_warning_cases :=
  rewrite ?has_warning_app, ?has_late_part, ?has_warning_one,
    ?has_warning_nil;
  cbn [WarningModel.type].

(** C2, amended.  For every task that satisfies the precondition of its
    branch (an [in_progress] task has its [actual_start_date], and the
    thresholds that the branch computes are dates) and every evaluation
    date, the engine returns a list, and the list holds [late_deadline] if
    and only if the date is past the deadline, whatever the status; the
    warning is additive: there are a [to_do] task and an [in_progress]
    task whose lists hold it next to [start_hard] and [finish_hard]. *)
Theorem late_deadline_iff_past_deadline :
  (forall (task : Task) (current_date : Py.date),
      branch_precondition coef task current_date ->
      exists ws,
        get_warnings_list coef task current_date = inr ws
        /\ (has_warning late_deadline ws <-> current_date > Task.deadline task))
  /\ (exists task current_date ws,
        Task.status task = to_do
        /\ get_warnings_list coef task current_date = inr ws
        /\ has_warning start_hard ws /\ has_warning late_deadline ws)
  /\ (exists task current_date ws,
        Task.status task = in_progress
        /\ get_warnings_list coef task current_date = inr ws
        /\ has_warning finish_hard ws /\ has_warning late_deadline ws).
Proof.
  split; [|split].
  - intros task current_date Hpre.
    destruct (get_warnings_list_returns task current_date Hpre) as (sp & E).
    exists (sp ++ late_part task current_date). split; [exact E|].
    destruct (get_warnings_list_inr _ _ _ E) as (_ & sp' & Heq & _ & Hsp).
    apply app_inv_tail in Heq. subst sp'.
    rewrite has_warning_app, has_late_part. split.
    + intros [H | [_ H]]; [|lia].
      exfalso. revert H. apply status_conditioned_not_late.
      eapply Forall_impl; [|exact Hsp]. now intros w [H _].
    + intros H. right. split; [reflexivity | lia].
  - exists (sample_task 1 to_do 10 3 None), 20.
    eexists. split; [reflexivity|]. split; [reflexivity|].
    unfold has_warning. cbn. tauto.
  - exists (sample_task 1 in_progress 10 3 (Some 2)), 20.
    eexists. split; [reflexivity|]. split; [reflexivity|].
    unfold has_warning. cbn. tauto.
Qed.

(** C3, amended.  For a [to_do] task with a positive planned duration, a
    reserve coefficient in (0,1] and a hard threshold
    [deadline - days_for_completion] that is a date, the engine returns a
    list in which [start_hard] is present exactly when
    [today >= deadline - days_for_completion], [start_soft] is present
    exactly when that condition is false and today has reached the soft
    threshold [deadline - timedelta(days=days_for_completion * coefficient)],
    and the two are never present together. *)
Theorem start_warnings_of_to_do (task : Task) (current_date : Py.date) :
  Task.status task = to_do ->
  0 < Task.days_for_completion task ->
  (0 < coef /\ coef <= 1)%Q ->
  representable (Task.deadline task) (Task.days_for_completion task) ->
  exists ws,
    get_warnings_list coef task current_date = inr ws
    /\ (has_warning start_hard ws
        <-> current_date >= Task.deadline task - Task.days_for_completion task)
    /\ (has_warning start_soft ws
        <-> ~ current_date >= Task.deadline task - Task.days_for_completion task
            /\ exists soft,
                 soft_threshold coef (Task.deadline task)
                   (Task.days_for_completion task) = inr soft
                 /\ current_date >= soft)
    /\ ~ (has_warning start_hard ws /\ has_warning start_soft ws).
Proof.
  intros Hst Hd [Hc0 Hc1] Hr.
  destruct (soft_threshold_between (Task.deadline task)
              (Task.days_for_completion task)
              (Qlt_le_weak _ _ Hc0) Hc1 ltac:(lia) Hr) as (soft0 & Hs0 & Hb).
  rewrite (get_warnings_list_to_do _ _ Hst).
  pose proof (branch_warnings_spec (Task.id task) start_hard start_soft
                (Task.deadline task) (Task.days_for_completion task)
                current_date) as S.
  destruct (branch_warnings _ _ _ _ _ _ _) as [e | sp].
  - exfalso. destruct S as [S _]. apply S. split; [exact Hr|].
    intros _. now exists soft0.
  - cbn [Py.bind]. eexists. split; [reflexivity|].
    destruct S as [_ [[Hh ->] | (Hh & soft & Hs & [[Hle ->] | [Hlt ->]])]];
      has_warning_cases.
    + intuition (try discriminate; try lia).
    + rewrite Hs0 in Hs. injection Hs as <-. lia.
    + split; [|split].
      * intuition (try discriminate; try lia).
      * split; [intros [[] | [H _]]; discriminate|].
        intros (_ & s & Hs' & Hge). rewrite Hs in Hs'. injection Hs' as <-. lia.
      * intuition (try discriminate).
Qed.

(** C4, amended.  For an [in_progress] task whose [actual_start_date] is
    set, with [days_in_work = today - actual_start_date] (not clamped) and
    [days_to_deadline = max (days_for_completion - days_in_work) 0], and
    whose thresholds for [days_to_deadline] are dates, the engine returns
    a list in which [finish_hard] is present exactly when
    [today >= deadline - days_to_deadline] and [finish_soft] exactly when
    that is false and today has reached the soft threshold
    [deadline - timedelta(days=days_to_deadline * coefficient)]; with a
    coefficient in the range of the floats, a task started on day 10 with
    5 days planned and deadline day 20 gets no warning on day 16. *)
Theorem finish_warnings_of_in_progress :
  (forall (task : Task) (current_date start : Py.date),
      Task.status task = in_progress ->
      Task.actual_start_date task = Some start ->
      let days_in_work := current_date - start in
      let days_to_deadline :=
        Z.max (Task.days_for_completion task - days_in_work) 0 in
      thresholds_defined coef (Task.deadline task) days_to_deadline
        current_date ->
      exists ws,
        get_warnings_list coef task current_date = inr ws
        /\ (has_warning finish_hard ws
            <-> current_date >= Task.deadline task - days_to_deadline)
        /\ (has_warning finish_soft ws
            <-> ~ current_date >= Task.deadline task - days_to_deadline
                /\ exists soft,
                     soft_threshold coef (Task.deadline task) days_to_deadline
                     = inr soft
                     /\ current_date >= soft))
  /\ (forall task : Task,
        Task.status task = in_progress ->
        Task.actual_start_date task = Some 10 ->
        Task.days_for_completion task = 5 ->
        Task.deadline task = 20 ->
        finite_coef coef ->
        get_warnings_list coef task 16 = inr []).
Proof.
  split.
  - intros task current_date start Hst Hstart. cbv zeta. intros Hpre.
    rewrite (get_warnings_list_in_progress _ _ _ Hst Hstart).
    set (days_to_deadline :=
           Z.max (Task.days_for_completion task - (current_date - start)) 0)
      in *.
    pose proof (branch_warnings_spec (Task.id task) finish_hard finish_soft
                  (Task.deadline task) days_to_deadline current_date) as S.
    destruct (branch_warnings _ _ _ _ _ _ _) as [e | sp].
    + exfalso. now destruct S as [S _].
    + cbn [Py.bind]. eexists. split; [reflexivity|].
      destruct S as [_ [[Hh ->] | (Hh & soft & Hs & [[Hle ->] | [Hlt ->]])]];
        has_warning_cases.
      * intuition (try discriminate; try lia).
      * split.
        -- intuition (try discriminate; try lia).
        -- split; [intros _; split; [lia | exists soft; split; [exact Hs | lia]]|].
           intros _. now left.
      * split.
        -- intuition (try discriminate; try lia).
        -- split; [intros [[] | [H _]]; discriminate|].
           intros (_ & s & Hs' & Hge). rewrite Hs in Hs'.
           injection Hs' as <-. lia.
  - intros task Hst Hstart Hd Hdl (c & Hc).
    rewrite (get_warnings_list_in_progress _ _ _ Hst Hstart).
    unfold late_part. rewrite Hd, Hdl.
    unfold branch_warnings, soft_threshold, Py.int_mul_float.
    cbn [Z.sub Z.add Z.opp Z.pos_sub Z.max Z.compare Pos.compare
         Pos.compare_cont Z.succ_double Z.pred_double Z.double Pos.pred_double].
    rewrite Hc.
    replace (Py.to_float (inject_Z 0)) with (Some (inject_Z 0))
      by (vm_compute; reflexivity).
    assert (E : Py.to_float (inject_Z 0 * c) = Some 0%Q).
    { destruct c as [cn cd]. unfold Py.to_float, Py.round64. cbn [Qnum Qmult inject_Z].
      cbn [Z.mul]. vm_compute. reflexivity. }
    rewrite E. vm_compute. reflexivity.
Qed.

(** C10.  The engine returns a list exactly for the tasks that satisfy the
    precondition of their branch, and a list that it returns holds at
    most two warnings: at most one of [start_soft], [start_hard],
    [finish_soft], [finish_hard] and at most one [late_deadline], nothing
    else, and each of them carries the task's [id]. *)
Theorem at_most_two_warnings (task : Task) (current_date : Py.date) :
  (branch_precondition coef task current_date
   <-> exists ws, get_warnings_list coef task current_date = inr ws)
  /\ forall ws,
       get_warnings_list coef task current_date = inr ws ->
       (length ws <= 2)%nat
       /\ (length (filter status_conditioned ws) <= 1)%nat
       /\ (length (filter is_late_deadline ws) <= 1)%nat
       /\ Forall (fun w => status_conditioned w = true
                           \/ is_late_deadline w = true) ws
       /\ Forall (fun w => WarningModel.task_id w = Task.id task) ws.
Proof.
  split.
  - split.
    + intros Hpre.
      destruct (get_warnings_list_returns task current_date Hpre) as (sp & E).
      eexists. exact E.
    + intros (ws & E). now apply get_warnings_list_inr in E.
  - intros ws E.
    destruct (get_warnings_list_inr _ _ _ E) as (_ & sp & -> & Hlen & Hsp).
    assert (Hlate : late_part task current_date = []
                    \/ late_part task current_date
                       = [ {| WarningModel.type := late_deadline;
                              WarningModel.task_id := Task.id task |} ]).
    { unfold late_part. destruct (_ >? _); auto. }
    assert (Hfs : filter status_conditioned sp = sp).
    { apply filter_status_conditioned.
      eapply Forall_impl; [|exact Hsp]. now intros w [Hw _]. }
    assert (Hfl : filter is_late_deadline sp = []).
    { apply filter_late_of_status_conditioned.
      eapply Forall_impl; [|exact Hsp]. now intros w [Hw _]. }
    rewrite !filter_app, Hfs, Hfl, !length_app.
    split; [|split; [|split; [|split]]].
    + destruct Hlate as [-> | ->]; cbn; lia.
    + destruct Hlate as [-> | ->]; cbn; lia.
    + destruct Hlate as [-> | ->]; cbn; lia.
    + apply Forall_app. split.
      * eapply Forall_impl; [|exact Hsp]. intros w [Hw _]. now left.
      * destruct Hlate as [-> | ->];
          [constructor | constructor; [now right | constructor]].
    + apply Forall_app. split.
      * eapply Forall_impl; [|exact Hsp]. now intros w [_ Hw].
      * destruct Hlate as [-> | ->]; repeat constructor.
Qed.

End WarningEngine.

(** ** The rounding, next to the floats of the machine *)

(** [Py.round64] gives the value of the float that the machine's own
    conversion and multiplication give. *)
Example round64_of_a_tenth :
  Q_of_float (PrimFloat.div (PrimFloat.of_uint63 1) (PrimFloat.of_uint63 10))
  = Some (Py.round64 (1 # 10)).
Proof. vm_compute. reflexivity. Qed.

Example round64_of_a_product :
  let tenth := PrimFloat.div (PrimFloat.of_uint63 1) (PrimFloat.of_uint63 10) in
  option_map Py.round64
    (option_map (Qmult (inject_Z 3)) (Q_of_float tenth))
  = Q_of_float (PrimFloat.mul (PrimFloat.of_uint63 3) tenth).
Proof. vm_compute. reflexivity. Qed.

(** [5 * 1.2] is [6.0] in binary64, although the float of 1.2 is below
    1.2: the timedelta has 6 days, not 5. *)
Example six_days_of_5_by_1_2 :
  (product <- Py.int_mul_float 5 (12 # 10) ;; Py.timedelta_days product)
  = inr 6.
Proof. vm_compute. reflexivity. Qed.

(** [10 * 1.9999999999999] is [19.999999999999] in binary64, and the
    microseconds of that many days round to those of 20 days. *)
Example twenty_days_of_10_by_1_9999999999999 :
  (product <- Py.int_mul_float 10 (19999999999999 # 10000000000000) ;;
   Py.timedelta_days product)
  = inr 20.
Proof. vm_compute. reflexivity. Qed.

(** Two days and a half: the two whole days are subtracted. *)
Example two_days_of_5_by_a_half :
  (product <- Py.int_mul_float 5 (1 # 2) ;; Py.timedelta_days product) = inr 2.
Proof. vm_compute. reflexivity. Qed.

(** A timedelta of a thousand million days does not exist. *)
Example no_timedelta_of_1000000000_days :
  Py.timedelta_days_int 1000000000 = inl Py.OverflowError.
Proof. reflexivity. Qed.

(** 2026-12-01 is the day 739951; a million days before it there is no
    date. *)
Example no_date_a_million_days_before_2026 :
  hard_threshold 739951 1000000 = inl Py.OverflowError.
Proof. reflexivity. Qed.

(** ** The engine on the scenarios of the specification *)

(** Task A on day 20: [start_hard]. *)
Example task_a_day_20 :
  get_warnings_list (1 # 2) (sample_task 1 to_do 30 10 None) 20
  = inr [ {| WarningModel.type := start_hard; WarningModel.task_id := 1 |} ].
Proof. vm_compute. reflexivity. Qed.

(** Task A on day 16: no warning. *)
Example task_a_day_16 :
  get_warnings_list (1 # 2) (sample_task 1 to_do 30 10 None) 16 = inr [].
Proof. vm_compute. reflexivity. Qed.

(** Task B on day 21: [late_deadline] fires. *)
Example task_b_day_21 :
  emits (1 # 2) (sample_task 2 in_progress 20 5 (Some 10)) 21 late_deadline.
Proof. eexists. split; [reflexivity|]. unfold has_warning. cbn. tauto. Qed.

(** With a coefficient above 1 the soft threshold comes first: task A with
    the coefficient 1.2 gets [start_soft] on day 18, twelve days before
    the deadline. *)
Example task_a_soft_day_18 :
  get_warnings_list (12 # 10) (sample_task 1 to_do 30 10 None) 18
  = inr [ {| WarningModel.type := start_soft; WarningModel.task_id := 1 |} ].
Proof. vm_compute. reflexivity. Qed.

Lemma in_progress_without_start_date_raises_witness :
  get_warnings_list (1 # 2) (sample_task 2 in_progress 20 5 None) 21
  = inl Py.TypeError
  /\ forall ws,
      get_warnings_list (1 # 2) (sample_task 2 in_progress 20 5 None) 21
      <> inr ws.
Proof.
  apply (in_progress_without_start_date_raises (1 # 2)
           (sample_task 2 in_progress 20 5 None) 21); reflexivity.
Defined.

(** C2 without the branch precondition fails: an [in_progress] task
    without [actual_start_date]
    is past its deadline on day 20, and no [late_deadline] is emitted,
    because the computation raises before it reaches the deadline test. *)
Lemma late_deadline_lost_without_start_date :
  ~ (emits (1 # 2) (sample_task 2 in_progress 10 5 None) 20 late_deadline
     <-> 20 > Task.deadline (sample_task 2 in_progress 10 5 None)).
Proof.
  intros [_ H].
  destruct H as (ws & E & _); [cbn; lia | discriminate E].
Qed.

Lemma late_deadline_iff_past_deadline_witness :
  exists ws,
    get_warnings_list (1 # 2) (sample_task 2 in_progress 20 5 (Some 10)) 21
    = inr ws
    /\ (has_warning late_deadline ws
        <-> 21 > Task.deadline (sample_task 2 in_progress 20 5 (Some 10))).
Proof.
  apply (proj1 (late_deadline_iff_past_deadline (1 # 2))
           (sample_task 2 in_progress 20 5 (Some 10)) 21).
  exists 10. split; [reflexivity|].
  split; [vm_compute; intuition discriminate|].
  intros H. vm_compute in H. discriminate H.
Defined.

(** C3 without a range fails: a [to_do] task with the deadline 2026-12-01
    (day 739951) and 1000000 days planned is past
    [deadline - days_for_completion] on any day of the calendar, and no
    [start_hard] is emitted, because [deadline - timedelta(days=1000000)]
    raises [OverflowError]. *)
Lemma start_hard_lost_out_of_range :
  ~ (emits (1 # 2) (sample_task 1 to_do 739951 1000000 None) 739952 start_hard
     <-> 739952 >= 739951 - 1000000).
Proof.
  intros [_ H].
  destruct H as (ws & E & _); [lia | discriminate E].
Qed.

Lemma start_warnings_of_to_do_witness :
  exists ws,
    get_warnings_list (1 # 2) (sample_task 1 to_do 30 10 None) 20 = inr ws
    /\ (has_warning start_hard ws <-> 20 >= 30 - 10)
    /\ (has_warning start_soft ws
        <-> ~ 20 >= 30 - 10
            /\ exists soft,
                 soft_threshold (1 # 2) 30 10 = inr soft /\ 20 >= soft)
    /\ ~ (has_warning start_hard ws /\ has_warning start_soft ws).
Proof.
  apply (start_warnings_of_to_do (1 # 2) (sample_task 1 to_do 30 10 None) 20).
  - reflexivity.
  - simpl. lia.
  - split; reflexivity || discriminate.
  - vm_compute. intuition discriminate.
Defined.

(** C4 without a range fails in the same way: an [in_progress] task
    started on day 739000, with 1000000 days planned and the deadline
    739951, is past [deadline - days_to_deadline] on its first day, and no
    [finish_hard] is emitted. *)
Lemma finish_hard_lost_out_of_range :
  ~ (emits (1 # 2) (sample_task 2 in_progress 739951 1000000 (Some 739000))
       739000 finish_hard
     <-> 739000 >= 739951 - Z.max (1000000 - (739000 - 739000)) 0).
Proof.
  intros [_ H].
  destruct H as (ws & E & _); [lia | discriminate E].
Qed.

Lemma finish_warnings_of_in_progress_witness :
  (exists ws,
      get_warnings_list (1 # 2) (sample_task 2 in_progress 20 5 (Some 10)) 16
      = inr ws
      /\ (has_warning finish_hard ws <-> 16 >= 20 - Z.max (5 - (16 - 10)) 0)
      /\ (has_warning finish_soft ws
          <-> ~ 16 >= 20 - Z.max (5 - (16 - 10)) 0
              /\ exists soft,
                   soft_threshold (1 # 2) 20 (Z.max (5 - (16 - 10)) 0)
                   = inr soft
                   /\ 16 >= soft))
  /\ get_warnings_list (1 # 2) (sample_task 2 in_progress 20 5 (Some 10)) 16
     = inr [].
Proof.
  split.
  - apply (proj1 (finish_warnings_of_in_progress (1 # 2))
             (sample_task 2 in_progress 20 5 (Some 10)) 16 10);
      [reflexivity | reflexivity |].
    split; [vm_compute; intuition discriminate|].
    intros _. exists 20. vm_compute. reflexivity.
  - apply (proj2 (finish_warnings_of_in_progress (1 # 2))
             (sample_task 2 in_progress 20 5 (Some 10)));
      [reflexivity | reflexivity | reflexivity | reflexivity |].
    eexists. vm_compute. reflexivity.
Defined.

Lemma at_most_two_warnings_witness :
  let ws := [ {| WarningModel.type := finish_hard; WarningModel.task_id := 2 |};
              {| WarningModel.type := late_deadline; WarningModel.task_id := 2 |} ] in
  (length ws <= 2)%nat
  /\ (length (filter status_conditioned ws) <= 1)%nat
  /\ (length (filter is_late_deadline ws) <= 1)%nat
  /\ Forall (fun w => status_conditioned w = true \/ is_late_deadline w = true) ws
  /\ Forall (fun w => WarningModel.task_id w = 2) ws.
Proof.
  apply (proj2 (at_most_two_warnings (1 # 2)
                  (sample_task 2 in_progress 20 5 (Some 10)) 21)).
  vm_compute. reflexivity.
Defined.

(* ================================================================== *)
(** * [order by]: a sorted permutation *)
(* ================================================================== *)

Section OrderByFacts.
Context {A : Type}.
Variable key : A -> Z.

Lemma order_insert_perm (a : A) (l : list A) :
  Permutation (order_insert key a l) (a :: l).
Proof.
  induction l as [|b l IH]; cbn.
  - reflexivity.
  - destruct (key a <=? key b).
    + reflexivity.
    + rewrite IH. apply perm_swap.
Qed.

Lemma order_by_perm (l : list A) : Permutation (order_by key l) l.
Proof.
  induction l as [|a l IH]; cbn.
  - reflexivity.
  - rewrite order_insert_perm. now apply perm_skip.
Qed.

Lemma order_by_In (a : A) (l : list A) : In a (order_by key l) <-> In a l.
Proof.
  split; apply Permutation_in;
    [apply order_by_perm | symmetry; apply order_by_perm].
Qed.

Lemma order_by_length (l : list A) : length (order_by key l) = length l.
Proof. apply Permutation_length, order_by_perm. Qed.

Lemma order_insert_sorted (a : A) (l : list A) :
  StronglySorted (key_le key) l -> StronglySorted (key_le key) (order_insert key a l).
Proof.
  induction 1 as [|b l Hl IH Hb]; cbn.
  - repeat constructor.
  - destruct (Z.leb_spec (key a) (key b)) as [Hab | Hab].
    + constructor; [now constructor|].
      constructor; [exact Hab|].
      eapply Forall_impl; [|exact Hb].
      unfold key_le in *. intros c Hc. lia.
    + constructor; [exact IH|].
      apply (Permutation_Forall (Permutation_sym (order_insert_perm a l))).
      constructor; [unfold key_le; lia | exact Hb].
Qed.

Lemma order_by_sorted (l : list A) : StronglySorted (key_le key) (order_by key l).
Proof.
  induction l as [|a l IH]; cbn.
  - constructor.
  - now apply order_insert_sorted.
Qed.

End OrderByFacts.

(* ================================================================== *)
(** * The dashboard view: the progress figure *)
(* ================================================================== *)

Section Dashboard.

Variable coef : Q.
Variable User : Set.
Variable user_get_by_id : Z -> option User.

Lemma TaskStatusEnum_eqb_eq (a b : TaskStatusEnum) :
  TaskStatusEnum_eqb a b = true <-> a = b.
Proof. destruct a, b; cbn; split; congruence. Qed.

Lemma contains_update {V : Type} (k k' : TaskStatusEnum) (f : V -> V)
    (d : Py.dict) :
  Py.contains TaskStatusEnum_eqb k (Py.update TaskStatusEnum_eqb k' f d)
  = Py.contains TaskStatusEnum_eqb k d.
Proof.
  unfold Py.contains, Py.update. induction d as [|[k0 v] d IH]; cbn.
  - reflexivity.
  - rewrite IH. now destruct (TaskStatusEnum_eqb k0 k').
Qed.

Lemma contains_setitem_new {V : Type} (k k' : TaskStatusEnum) (v : V)
    (d : Py.dict) :
  Py.contains TaskStatusEnum_eqb k (Py.setitem_new k' v d)
  = Py.contains TaskStatusEnum_eqb k d || TaskStatusEnum_eqb k' k.
Proof.
  unfold Py.contains, Py.setitem_new. rewrite existsb_app. cbn.
  now rewrite orb_false_r.
Qed.

Lemma getitem_missing {V : Type} (k : TaskStatusEnum) (d : Py.dict (V := V)) :
  Py.contains TaskStatusEnum_eqb k d = false ->
  Py.getitem TaskStatusEnum_eqb k d = inl Py.KeyError.
Proof.
  unfold Py.contains. induction d as [|[k0 v] d IH]; cbn.
  - reflexivity.
  - intros H. apply orb_false_elim in H as [-> H]. now apply IH.
Qed.

(** The loop creates a key only for a status that occurs among the
    tasks. *)
Lemma group_by_status_no_done (current_date : Py.date) (tasks : list Task) :
  (forall t, In t tasks -> Task.status t <> done) ->
  forall statuses,
    Py.contains TaskStatusEnum_eqb done statuses = false ->
    match group_by_status coef User user_get_by_id current_date tasks statuses with
    | inl e => True
    | inr statuses' => Py.contains TaskStatusEnum_eqb done statuses' = false
    end.
Proof.
  induction tasks as [|task rest IH]; intros Hno statuses Hd; cbn.
  - exact Hd.
  - destruct (get_warnings_list coef task current_date) as [e | ws] eqn:E; cbn.
    + exact I.
    + apply IH; [intros t Ht; apply Hno; now right|].
      destruct (Py.contains TaskStatusEnum_eqb (Task.status task) statuses).
      * now rewrite contains_update.
      * rewrite contains_setitem_new, Hd. cbn.
        destruct (TaskStatusEnum_eqb (Task.status task) done) eqn:Heq;
          [|reflexivity].
        apply TaskStatusEnum_eqb_eq in Heq. exfalso.
        apply (Hno task); [now left | exact Heq].
Qed.

Lemma get_tasks_ordered_by_deadline_In (db : Db) (t : Task) :
  In t (TaskRepository.get_tasks_ordered_by_deadline db)
  <-> In t (Db.task db) /\ Task.is_archived t = false.
Proof.
  unfold TaskRepository.get_tasks_ordered_by_deadline.
  rewrite order_by_In, filter_In, negb_true_iff. reflexivity.
Qed.

(** The loop itself fails only through the warning engine. *)
Lemma group_by_status_returns (current_date : Py.date) (tasks : list Task) :
  (forall t, In t tasks -> branch_precondition coef t current_date) ->
  forall statuses,
  exists statuses',
    group_by_status coef User user_get_by_id current_date tasks statuses
    = inr statuses'.
Proof.
  induction tasks as [|task rest IH]; intros Hpre statuses; cbn.
  - now exists statuses.
  - destruct (get_warnings_list_returns coef task current_date
                (Hpre task (or_introl eq_refl))) as (sp & ->).
    cbn. apply IH. intros t Ht. apply Hpre. now right.
Qed.

(** C1, on the code.  When no task that is not archived has the status
    [done] (in particular when there is no task at all), the view returns
    no progress figure, where the specified figure is 0: it raises, and
    the exception is the [KeyError] of [statuses[TaskStatusEnum.done]]
    whenever the warning engine has not raised before, that is when
    every listed task satisfies the precondition of its branch. *)
Theorem dashboard_without_done_task_raises (db : Db) (current_date : Py.date) :
  (forall t, In t (Db.task db) -> Task.is_archived t = false ->
             Task.status t <> done) ->
  (exists e,
      get_dashboard_tasks coef User user_get_by_id db current_date = inl e)
  /\ ((forall t, In t (Db.task db) -> Task.is_archived t = false ->
                 branch_precondition coef t current_date) ->
      get_dashboard_tasks coef User user_get_by_id db current_date
      = inl Py.KeyError).
Proof.
  intros Hno. unfold get_dashboard_tasks.
  pose proof (group_by_status_no_done current_date
                (TaskRepository.get_tasks_ordered_by_deadline db)) as H.
  specialize (H (fun t Ht =>
                   match proj1 (get_tasks_ordered_by_deadline_In db t) Ht with
                   | conj Hin Harch => Hno t Hin Harch
                   end) [] eq_refl).
  pose proof (group_by_status_returns current_date
                (TaskRepository.get_tasks_ordered_by_deadline db)) as R.
  destruct (group_by_status _ _ _ _ _ _) as [e | statuses] eqn:E; cbn.
  - split; [now exists e|].
    intros Hpre.
    destruct (R (fun t Ht =>
                   match proj1 (get_tasks_ordered_by_deadline_In db t) Ht with
                   | conj Hin Harch => Hpre t Hin Harch
                   end) []) as (s' & Hs').
    rewrite E in Hs'. discriminate Hs'.
  - rewrite (getitem_missing _ _ H). cbn. split; [now eexists | reflexivity].
Qed.

End Dashboard.

(** Four tasks, one of them [done]: 25. *)
Example progress_one_of_four : progress_of (tasks_with_done 4 1) 0 = inr 25.
Proof. vm_compute. reflexivity. Qed.

(** Three tasks, none of them [done]: [KeyError], where the floor is 0. *)
Example progress_none_of_three :
  progress_of (tasks_with_done 3 0) 0 = inl Py.KeyError.
Proof. vm_compute. reflexivity. Qed.

(** No task: [KeyError] again; the division is not reached. *)
Example progress_of_no_task :
  progress_of (tasks_with_done 0 0) 0 = inl Py.KeyError.
Proof. vm_compute. reflexivity. Qed.

(** A hundred tasks, 29 of them [done]: 28, because [29 / 100 * 100] is
    [28.999999999999996] in binary64 and [int] truncates. *)
Example progress_29_of_100 : progress_of (tasks_with_done 100 29) 0 = inr 28.
Proof. vm_compute. reflexivity. Qed.

Lemma dashboard_without_done_task_raises_witness :
  (exists e,
      get_dashboard_tasks (1 # 2) unit (fun _ => None) (tasks_with_done 3 0) 0
      = inl e)
  /\ get_dashboard_tasks (1 # 2) unit (fun _ => None) (tasks_with_done 3 0) 0
     = inl Py.KeyError.
Proof.
  assert (Hno : forall t, In t (Db.task (tasks_with_done 3 0)) ->
                  Task.is_archived t = false -> Task.status t <> done).
  { intros t Hin _. simpl in Hin.
    destruct Hin as [<- | [<- | [<- | []]]]; discriminate. }
  destruct (dashboard_without_done_task_raises (1 # 2) unit (fun _ => None)
              (tasks_with_done 3 0) 0 Hno) as [Hraise Hkey].
  split; [exact Hraise|]. apply Hkey.
  intros t Hin _. simpl in Hin.
  destruct Hin as [<- | [<- | [<- | []]]];
    (split; [vm_compute; intuition discriminate
            | intros _; exists 100; vm_compute; reflexivity]).
Defined.

(* ================================================================== *)
(** * The task table: actual dates *)
(* ================================================================== *)

Lemma set_actual_dates_invariant (start finish : option Py.date) (t : Task) :
  completion_days_invariant
    (TaskRepository.set_actual_dates start finish (inclusive_days start finish) t).
Proof.
  unfold completion_days_invariant, inclusive_days. cbn.
  destruct start, finish; reflexivity.
Qed.

(** C5.  After [update_task_start_finish_dates] on the id of an existing
    task, the method has answered [True] and every row with that id holds
    the two dates it was given and, as [actual_completion_days],
    [(finish - start) + 1] if both dates are set and nothing if either is
    unset: the invariant of the inclusive day count holds on the row.  The
    other rows are as before. *)
Theorem update_dates_inclusive_day_count (db : Db) (task_id : Z)
    (new_start_date new_finish_date : option Py.date) :
  (exists t, In t (Db.task db) /\ Task.id t = task_id) ->
  let r := TaskRepository.update_task_start_finish_dates
             db task_id new_start_date new_finish_date in
  snd r = true
  /\ (exists t', In t' (Db.task (fst r)) /\ Task.id t' = task_id)
  /\ (forall t', In t' (Db.task (fst r)) -> Task.id t' = task_id ->
        Task.actual_start_date t' = new_start_date
        /\ Task.actual_finish_date t' = new_finish_date
        /\ Task.actual_completion_days t'
           = inclusive_days new_start_date new_finish_date
        /\ completion_days_invariant t')
  /\ (forall t', Task.id t' <> task_id ->
        In t' (Db.task (fst r)) <-> In t' (Db.task db)).
Proof.
  intros (t & Hin & Hid). cbv zeta.
  unfold TaskRepository.update_task_start_finish_dates. cbn [fst snd Db.task].
  fold (inclusive_days new_start_date new_finish_date).
  split; [|split; [|split]].
  - apply existsb_exists. exists t. split; [exact Hin | now apply Z.eqb_eq].
  - exists (TaskRepository.set_actual_dates new_start_date new_finish_date
              (inclusive_days new_start_date new_finish_date) t).
    split; [|exact Hid].
    apply in_map_iff. exists t. split; [|exact Hin].
    apply Z.eqb_eq in Hid. now rewrite Hid.
  - intros t' Hin' Hid'. apply in_map_iff in Hin' as (t0 & <- & _).
    destruct (Task.id t0 =? task_id) eqn:E.
    + repeat split. apply set_actual_dates_invariant.
    + apply Z.eqb_neq in E. contradiction.
  - intros t' Hid'. rewrite in_map_iff. split.
    + intros (t0 & Heq & Hin0).
      destruct (Task.id t0 =? task_id) eqn:E.
      * apply Z.eqb_eq in E. subst t'. now cbn in Hid'.
      * now subst t'.
    + intros Hin'. exists t'. split; [|exact Hin'].
      apply Z.eqb_neq in Hid'. now rewrite Hid'.
Qed.

Lemma update_dates_inclusive_day_count_witness :
  let r := TaskRepository.update_task_start_finish_dates
             sample_db 2 (Some 10) (Some 14) in
  snd r = true
  /\ (exists t', In t' (Db.task (fst r)) /\ Task.id t' = 2)
  /\ (forall t', In t' (Db.task (fst r)) -> Task.id t' = 2 ->
        Task.actual_start_date t' = Some 10
        /\ Task.actual_finish_date t' = Some 14
        /\ Task.actual_completion_days t' = inclusive_days (Some 10) (Some 14)
        /\ completion_days_invariant t')
  /\ (forall t', Task.id t' <> 2 ->
        In t' (Db.task (fst r)) <-> In t' (Db.task sample_db)).
Proof.
  apply (update_dates_inclusive_day_count sample_db 2 (Some 10) (Some 14)).
  exists (sample_task 2 in_progress 20 5 (Some 10)).
  split; [simpl; tauto | reflexivity].
Defined.

(** The days from day 10 to day 14, both included, count as 5. *)
Example inclusive_days_10_14 : inclusive_days (Some 10) (Some 14) = Some 5.
Proof. reflexivity. Qed.

(* ================================================================== *)
(** * The dependency edges *)
(* ================================================================== *)

Lemma same_edge_key (id_ depends_id : Z) (d : TaskDepends) :
  TaskRepository.same_edge id_ depends_id d = true
  <-> edge_key d = (id_, depends_id).
Proof.
  unfold TaskRepository.same_edge, edge_key.
  rewrite andb_true_iff, !Z.eqb_eq. split.
  - now intros [-> ->].
  - intros [= -> ->]. now split.
Qed.

Lemma has_edge_key (db : Db) (id_ depends_id : Z) :
  has_edge db id_ depends_id = true
  <-> In (id_, depends_id) (map edge_key (Db.task_depends db)).
Proof.
  unfold has_edge. rewrite existsb_exists, in_map_iff.
  split; intros (d & H1 & H2); exists d.
  - split; [now apply same_edge_key | exact H1].
  - split; [exact H2 | now apply same_edge_key].
Qed.

Lemma Db_eta (db : Db) :
  {| Db.task := Db.task db; Db.task_depends := Db.task_depends db |} = db.
Proof. now destruct db. Qed.

(** The statement of [add_task_depends], case by case. *)
Lemma add_task_depends_eq (db : Db) (now id_ depends_id : Z) :
  TaskRepository.add_task_depends db now id_ depends_id
  = inr (if has_edge db id_ depends_id
         then db
         else {| Db.task := Db.task db;
                 Db.task_depends :=
                   Db.task_depends db
                   ++ [ {| TaskDepends.task_id := id_;
                           TaskDepends.depends_task_id := depends_id;
                           TaskDepends.created_timestamp := now |} ] |}).
Proof.
  unfold TaskRepository.add_task_depends, TaskRepository.insert_task_depends,
    has_edge.
  now destruct (existsb _ _).
Qed.

(** The unique constraint survives [add_task_depends]. *)
Lemma add_task_depends_unique (db db' : Db) (now id_ depends_id : Z) :
  unique_edges db ->
  TaskRepository.add_task_depends db now id_ depends_id = inr db' ->
  unique_edges db'.
Proof.
  intros Hu. rewrite add_task_depends_eq. intros [= <-].
  destruct (has_edge db id_ depends_id) eqn:E; [exact Hu|].
  unfold unique_edges in *. cbn. rewrite map_app. cbn.
  apply NoDup_app_remove_l with (l := []). cbn.
  apply Permutation_NoDup with (l := (id_, depends_id)
                                      :: map edge_key (Db.task_depends db)).
  - apply Permutation_cons_append.
  - constructor; [|exact Hu].
    intros Hin. apply has_edge_key in Hin. congruence.
Qed.

(** C6.  [add_task_depends] never fails on a duplicate.  On an edge that is
    already stored it leaves the database as it is, so that the number of
    edges is unchanged; on an edge that is not stored it appends exactly
    that edge and touches nothing else; either way the edge is stored
    afterwards, and adding it a second time changes nothing. *)
Theorem add_task_depends_idempotent (db : Db) (now id_ depends_id : Z) :
  exists db',
    TaskRepository.add_task_depends db now id_ depends_id = inr db'
    /\ Db.task db' = Db.task db
    /\ has_edge db' id_ depends_id = true
    /\ (has_edge db id_ depends_id = true ->
        db' = db
        /\ length (Db.task_depends db') = length (Db.task_depends db))
    /\ (has_edge db id_ depends_id = false ->
        Db.task_depends db'
        = Db.task_depends db
          ++ [ {| TaskDepends.task_id := id_;
                  TaskDepends.depends_task_id := depends_id;
                  TaskDepends.created_timestamp := now |} ])
    /\ (forall now',
          TaskRepository.add_task_depends db' now' id_ depends_id = inr db').
Proof.
  rewrite add_task_depends_eq. eexists. split; [reflexivity|].
  assert (Hnew : has_edge
                   {| Db.task := Db.task db;
                      Db.task_depends :=
                        Db.task_depends db
                        ++ [ {| TaskDepends.task_id := id_;
                                TaskDepends.depends_task_id := depends_id;
                                TaskDepends.created_timestamp := now |} ] |}
                   id_ depends_id = true).
  { unfold has_edge. cbn. rewrite existsb_app. cbn.
    unfold TaskRepository.same_edge at 2. cbn. rewrite !Z.eqb_refl. cbn.
    apply orb_true_r. }
  destruct (has_edge db id_ depends_id) eqn:E.
  - repeat split; try congruence.
    intros now'. now rewrite add_task_depends_eq, E.
  - repeat split; try congruence.
    intros now'. now rewrite add_task_depends_eq, Hnew.
Qed.

Lemma filter_other_edges_id (id_ depends_id : Z) (rows : list TaskDepends) :
  existsb (TaskRepository.same_edge id_ depends_id) rows = false ->
  filter (fun d => negb (TaskRepository.same_edge id_ depends_id d)) rows = rows.
Proof.
  induction rows as [|d rows IH]; cbn; [reflexivity|].
  intros H. apply orb_false_elim in H as [-> H]. cbn. now rewrite IH.
Qed.

Lemma filter_other_edges_length (id_ depends_id : Z) (rows : list TaskDepends) :
  NoDup (map edge_key rows) ->
  existsb (TaskRepository.same_edge id_ depends_id) rows = true ->
  S (length (filter (fun d => negb (TaskRepository.same_edge id_ depends_id d))
               rows))
  = length rows.
Proof.
  induction rows as [|d rows IH]; cbn; [discriminate|].
  intros Hu H. apply NoDup_cons_iff in Hu as [Hd Hu].
  destruct (TaskRepository.same_edge id_ depends_id d) eqn:E; cbn.
  - rewrite filter_other_edges_id; [reflexivity|].
    destruct (existsb _ rows) eqn:E'; [|reflexivity].
    exfalso. apply Hd. apply same_edge_key in E. rewrite E.
    apply existsb_exists in E' as (d' & Hin & Hd').
    apply same_edge_key in Hd'. rewrite <- Hd'. now apply in_map.
  - f_equal. now apply IH.
Qed.

(** C7.  [del_tasks_depends] answers whether the edge was stored.  If it
    was, the answer is [True], the rows of that edge are gone and every
    other row stays (under the unique constraint the table is one row
    shorter); if it was not, the answer is [False] and the database is
    unchanged.  The method raises in neither case. *)
Theorem del_tasks_depends_reports (db : Db) (id_ depends_id : Z) :
  let r := TaskRepository.del_tasks_depends db id_ depends_id in
  snd r = has_edge db id_ depends_id
  /\ Db.task (fst r) = Db.task db
  /\ has_edge (fst r) id_ depends_id = false
  /\ (forall d, In d (Db.task_depends (fst r))
                <-> In d (Db.task_depends db) /\ edge_key d <> (id_, depends_id))
  /\ (has_edge db id_ depends_id = false -> fst r = db)
  /\ (has_edge db id_ depends_id = true -> unique_edges db ->
      S (length (Db.task_depends (fst r))) = length (Db.task_depends db)).
Proof.
  cbv zeta. unfold TaskRepository.del_tasks_depends, has_edge, unique_edges.
  cbn [fst snd Db.task Db.task_depends].
  split; [|split; [|split; [|split; [|split]]]].
  - destruct (find _ _) as [d|] eqn:E.
    + symmetry. apply existsb_exists. exists d.
      apply find_some in E. exact E.
    + symmetry. destruct (existsb _ _) eqn:E'; [|reflexivity].
      apply existsb_exists in E' as (d & Hin & Hd).
      now rewrite (find_none _ _ E d Hin) in Hd.
  - reflexivity.
  - destruct (existsb _ (filter _ _)) eqn:E; [|reflexivity].
    apply existsb_exists in E as (d & Hin & Hd).
    apply filter_In in Hin as [_ Hn]. now rewrite Hd in Hn.
  - intros d. rewrite filter_In, negb_true_iff, <- same_edge_key.
    now destruct (TaskRepository.same_edge id_ depends_id d).
  - intros H. rewrite (filter_other_edges_id _ _ _ H). apply Db_eta.
  - intros H Hu. now apply filter_other_edges_length.
Qed.

Lemma add_task_depends_idempotent_witness :
  exists db',
    TaskRepository.add_task_depends sample_db 9 1 2 = inr db'
    /\ Db.task db' = Db.task sample_db
    /\ has_edge db' 1 2 = true
    /\ (has_edge sample_db 1 2 = true ->
        db' = sample_db
        /\ length (Db.task_depends db') = length (Db.task_depends sample_db))
    /\ (has_edge sample_db 1 2 = false ->
        Db.task_depends db'
        = Db.task_depends sample_db
          ++ [ {| TaskDepends.task_id := 1;
                  TaskDepends.depends_task_id := 2;
                  TaskDepends.created_timestamp := 9 |} ])
    /\ (forall now', TaskRepository.add_task_depends db' now' 1 2 = inr db').
Proof. exact (add_task_depends_idempotent sample_db 9 1 2). Defined.

Lemma del_tasks_depends_reports_witness :
  let r := TaskRepository.del_tasks_depends sample_db 1 2 in
  snd r = has_edge sample_db 1 2
  /\ Db.task (fst r) = Db.task sample_db
  /\ has_edge (fst r) 1 2 = false
  /\ (forall d, In d (Db.task_depends (fst r))
                <-> In d (Db.task_depends sample_db) /\ edge_key d <> (1, 2))
  /\ (has_edge sample_db 1 2 = false -> fst r = sample_db)
  /\ (has_edge sample_db 1 2 = true -> unique_edges sample_db ->
      S (length (Db.task_depends (fst r))) = length (Db.task_depends sample_db)).
Proof. exact (del_tasks_depends_reports sample_db 1 2). Defined.

(** The edge of [sample_db] is removed once; a second removal answers
    [False]. *)
Example del_tasks_depends_twice :
  let r := TaskRepository.del_tasks_depends sample_db 1 2 in
  snd r = true
  /\ Db.task_depends (fst r) = []
  /\ TaskRepository.del_tasks_depends (fst r) 1 2 = (fst r, false).
Proof. repeat split. Qed.

(* ================================================================== *)
(** * The relations of a task *)
(* ================================================================== *)

Lemma sql_union_In {A : Type} (eq_dec : forall a b : A, {a = b} + {a <> b})
    (q1 q2 : list A) (a : A) :
  In a (sql_union eq_dec q1 q2) <-> In a q1 \/ In a q2.
Proof. unfold sql_union. now rewrite nodup_In, in_app_iff. Qed.

Lemma sql_union_NoDup {A : Type} (eq_dec : forall a b : A, {a = b} + {a <> b})
    (q1 q2 : list A) :
  NoDup (sql_union eq_dec q1 q2).
Proof. apply NoDup_nodup. Qed.

Lemma join_select_type (db : Db) (ty : DependencyTypeEnum)
    (on_where : TaskDepends -> Task -> bool) (row : TaskWithDependency) :
  In row (TaskRepository.join_select db ty on_where) ->
  TaskWithDependency.dependency_type row = ty.
Proof.
  unfold TaskRepository.join_select. rewrite in_flat_map.
  intros (d & _ & Hrow). apply in_map_iff in Hrow as (t & <- & _).
  reflexivity.
Qed.

(** Under the primary key, [where "id" = $1] selects one row. *)
Lemma select_by_id (tasks : list Task) (t : Task) :
  NoDup (map Task.id tasks) ->
  In t tasks ->
  filter (fun t' => Task.id t' =? Task.id t) tasks = [t].
Proof.
  induction tasks as [|t0 tasks IH]; cbn; [tauto|].
  intros Hu Hin. apply NoDup_cons_iff in Hu as [Hnot Hu].
  assert (Hrest : forall t', In t' tasks -> Task.id t' = Task.id t0 -> False).
  { intros t' Hin' Heq. apply Hnot. rewrite <- Heq. now apply in_map. }
  destruct Hin as [-> | Hin].
  - rewrite Z.eqb_refl. f_equal.
    clear IH Hu Hnot. induction tasks as [|t1 tasks IH]; cbn; [reflexivity|].
    destruct (Z.eqb_spec (Task.id t1) (Task.id t)) as [Heq | _].
    + exfalso. apply (Hrest t1); [now left | exact Heq].
    + apply IH. intros t' Hin'. apply Hrest. now right.
  - destruct (Z.eqb_spec (Task.id t0) (Task.id t)) as [Heq | _].
    + exfalso. apply (Hrest t Hin). now symmetry.
    + now apply IH.
Qed.

(** C8.  For the id of a task of the table, whose ids are unique, the
    result of [get_all_task_dependencies] holds the row of the task itself
    under the category [self], that row is the only row of the category,
    it occurs once, and the whole result, the three categories together,
    is in ascending order of deadline. *)
Theorem all_task_dependencies_self_once_and_sorted (db : Db) (t : Task) :
  unique_ids db ->
  In t (Db.task db) ->
  let rows := TaskRepository.get_all_task_dependencies db (Task.id t) in
  In (TaskRepository.dependency_row self t) rows
  /\ filter is_self rows = [TaskRepository.dependency_row self t]
  /\ count_occ TaskWithDependency_eq_dec rows
       (TaskRepository.dependency_row self t) = 1%nat
  /\ StronglySorted (key_le TaskWithDependency.deadline) rows.
Proof.
  intros Hu Hin. cbv zeta.
  unfold TaskRepository.get_all_task_dependencies.
  rewrite (select_by_id _ _ Hu Hin). cbn [map].
  set (q12 := sql_union _ (TaskRepository.join_select _ _ _) _).
  set (q := sql_union _ q12 _).
  assert (Hq12 : forall row, In row q12 -> is_self row = false).
  { intros row Hrow. apply sql_union_In in Hrow.
    unfold is_self.
    destruct Hrow as [Hrow | Hrow]; apply join_select_type in Hrow;
      now rewrite Hrow. }
  assert (Hperm : Permutation (order_by TaskWithDependency.deadline q) q)
    by apply order_by_perm.
  assert (Hnd : NoDup (order_by TaskWithDependency.deadline q)).
  { apply (Permutation_NoDup (Permutation_sym Hperm)), sql_union_NoDup. }
  assert (Hself : In (TaskRepository.dependency_row self t)
                    (order_by TaskWithDependency.deadline q)).
  { apply order_by_In, sql_union_In. right. now left. }
  split; [exact Hself|]. split; [|split].
  - apply Permutation_length_1_inv. apply NoDup_Permutation.
    + repeat constructor. intros [].
    + now apply NoDup_filter.
    + intros row. rewrite filter_In, order_by_In. unfold q.
      rewrite sql_union_In. cbn [In]. split.
      * intros [<- | []]. split; [now right; left | reflexivity].
      * intros [[Hrow | [<- | []]] Hs]; [|now left].
        apply Hq12 in Hrow. congruence.
  - apply NoDup_count_occ'; assumption.
  - apply order_by_sorted.
Qed.

Lemma all_task_dependencies_self_once_and_sorted_witness :
  let t := sample_task 2 in_progress 20 5 (Some 10) in
  let rows := TaskRepository.get_all_task_dependencies sample_db (Task.id t) in
  In (TaskRepository.dependency_row self t) rows
  /\ filter is_self rows = [TaskRepository.dependency_row self t]
  /\ count_occ TaskWithDependency_eq_dec rows
       (TaskRepository.dependency_row self t) = 1%nat
  /\ StronglySorted (key_le TaskWithDependency.deadline) rows.
Proof.
  apply (all_task_dependencies_self_once_and_sorted sample_db
           (sample_task 2 in_progress 20 5 (Some 10))).
  - unfold unique_ids. simpl. repeat constructor; simpl; intuition lia.
  - simpl. tauto.
Defined.

(** The relations of task 2 in [sample_db]: itself, then task 1, which
    depends on it and has the later deadline. *)
Example relations_of_task_2 :
  map (fun row => (TaskWithDependency.id row,
                   TaskWithDependency.dependency_type row,
                   TaskWithDependency.deadline row))
    (TaskRepository.get_all_task_dependencies sample_db 2)
  = [(2, self, 20); (1, depends_of, 30)].
Proof. reflexivity. Qed.

(* ================================================================== *)
(** * More on the warning engine *)
(* ================================================================== *)

Section WarningEngineMore.

Variable coef : Q.

Lemma emits_of_result (task : Task) (current_date : Py.date)
    (ws : list WarningModel) (ty : WarningTypeEnum) :
  get_warnings_list coef task current_date = inr ws ->
  emits coef task current_date ty <-> has_warning ty ws.
Proof.
  intros E. unfold emits. split.
  - intros (ws' & E' & H). rewrite E in E'. now injection E' as <-.
  - intros H. now exists ws.
Qed.

Lemma not_emits_of_error (task : Task) (current_date : Py.date)
    (e : Py.exn) (ty : WarningTypeEnum) :
  get_warnings_list coef task current_date = inl e ->
  ~ emits coef task current_date ty.
Proof. intros E (ws & E' & _). rewrite E in E'. discriminate. Qed.

Ltac has_warning_cases :=
  rewrite ?has_warning_app, ?has_late_part, ?has_warning_one,
    ?has_warning_nil;
  cbn [WarningModel.type].

(** A warning of the status branch is emitted exactly when the branch
    returns it: the deadline test adds [late_deadline] only. *)
Lemma emits_branch (task : Task) (current_date : Py.date)
    (hard_type soft_type ty : WarningTypeEnum) (n : Z) :
  get_warnings_list coef task current_date
  = (ws <- branch_warnings coef (Task.id task) hard_type soft_type
             (Task.deadline task) n current_date ;;
     Py.ret (ws ++ late_part task current_date)) ->
  ty <> late_deadline ->
  emits coef task current_date ty
  <-> exists ws,
        branch_warnings coef (Task.id task) hard_type soft_type
          (Task.deadline task) n current_date = inr ws
        /\ has_warning ty ws.
Proof.
  intros E Hty. unfold emits. rewrite E.
  destruct (branch_warnings _ _ _ _ _ _ _) as [e | sp]; cbn [Py.bind].
  - split; intros (ws & H & _); discriminate.
  - split.
    + intros (ws & [= <-] & H). exists sp. split; [reflexivity|].
      apply has_warning_app in H as [H | H]; [exact H|].
      apply has_late_part in H as [H _]. now elim Hty.
    + intros (ws & [= <-] & H). eexists. split; [reflexivity|].
      apply has_warning_app. now left.
Qed.

(** The hard warning of a branch: the hard threshold is a date and has
    come. *)
Lemma branch_warnings_hard (task_id : Z) (hard_type soft_type : WarningTypeEnum)
    (deadline n current_date : Z) :
  hard_type <> soft_type ->
  (exists ws,
      branch_warnings coef task_id hard_type soft_type deadline n current_date
      = inr ws
      /\ has_warning hard_type ws)
  <-> representable deadline n /\ deadline - n <= current_date.
Proof.
  intros Hneq.
  pose proof (branch_warnings_spec coef task_id hard_type soft_type deadline n
                current_date) as S.
  destruct (branch_warnings _ _ _ _ _ _ _) as [e | sp].
  - destruct S as [S _]. split; [intros (ws & H & _); discriminate|].
    intros [Hr Hle]. exfalso. apply S. split; [exact Hr | lia].
  - destruct S as [[Hr _] S]. split.
    + intros (ws & [= <-] & H). split; [exact Hr|].
      destruct S as [[Hle _] | (_ & soft & _ & [[_ ->] | [_ ->]])];
        [exact Hle | |].
      * apply has_warning_one in H. cbn in H. now elim Hneq.
      * now apply has_warning_nil in H.
    + intros [_ Hle]. exists sp. split; [reflexivity|].
      destruct S as [[_ ->] | (Hlt & _)]; [|lia].
      now apply has_warning_one.
Qed.

(** The soft warning of a branch: the hard threshold has not come, the
    soft one is a date and has come. *)
Lemma branch_warnings_soft (task_id : Z) (hard_type soft_type : WarningTypeEnum)
    (deadline n current_date : Z) :
  hard_type <> soft_type ->
  (exists ws,
      branch_warnings coef task_id hard_type soft_type deadline n current_date
      = inr ws
      /\ has_warning soft_type ws)
  <-> representable deadline n
      /\ current_date < deadline - n
      /\ exists soft,
           soft_threshold coef deadline n = inr soft /\ soft <= current_date.
Proof.
  intros Hneq.
  pose proof (branch_warnings_spec coef task_id hard_type soft_type deadline n
                current_date) as S.
  destruct (branch_warnings _ _ _ _ _ _ _) as [e | sp].
  - destruct S as [S _]. split; [intros (ws & H & _); discriminate|].
    intros (Hr & Hlt & soft & Hs & _). exfalso. apply S.
    split; [exact Hr|]. intros _. now exists soft.
  - destruct S as [[Hr _] S]. split.
    + intros (ws & [= <-] & H). split; [exact Hr|].
      destruct S as [[_ ->] | (Hlt & soft & Hs & [[Hle ->] | [_ ->]])].
      * apply has_warning_one in H. cbn in H. now elim Hneq.
      * split; [exact Hlt|]. now exists soft.
      * now apply has_warning_nil in H.
    + intros (_ & Hlt & soft & Hs & Hle). exists sp. split; [reflexivity|].
      destruct S as [[Hge _] | (_ & soft' & Hs' & [[_ ->] | [Hlt' _]])].
      * lia.
      * now apply has_warning_one.
      * rewrite Hs in Hs'. injection Hs' as <-. lia.
Qed.

(** The branch returns no other warning than its own two. *)
Lemma branch_warnings_other (task_id : Z)
    (hard_type soft_type ty : WarningTypeEnum)
    (deadline n current_date : Z) (ws : list WarningModel) :
  ty <> hard_type -> ty <> soft_type ->
  branch_warnings coef task_id hard_type soft_type deadline n current_date
  = inr ws ->
  ~ has_warning ty ws.
Proof.
  intros Hh Hs E H. apply branch_warnings_inr in E as [_ Hall].
  unfold has_warning in H. apply in_map_iff in H as (w & Hw & Hin).
  rewrite Forall_forall in Hall. destruct (Hall w Hin) as [[Ht | Ht] _];
    congruence.
Qed.

Lemma emits_none_of_branch (task : Task) (current_date : Py.date)
    (hard_type soft_type ty : WarningTypeEnum) (n : Z) :
  get_warnings_list coef task current_date
  = (ws <- branch_warnings coef (Task.id task) hard_type soft_type
             (Task.deadline task) n current_date ;;
     Py.ret (ws ++ late_part task current_date)) ->
  ty <> late_deadline -> ty <> hard_type -> ty <> soft_type ->
  ~ emits coef task current_date ty.
Proof.
  intros E Hl Hh Hs H. apply (emits_branch _ _ _ _ _ _ E Hl) in H.
  destruct H as (ws & Eb & H).
  now apply (branch_warnings_other _ _ _ _ _ _ _ _ Hh Hs Eb).
Qed.

(** [start_hard] belongs to the [to_do] tasks whose planned start,
    [deadline - days_for_completion], is a date and has come. *)
Lemma start_hard_spec (task : Task) (current_date : Py.date) :
  emits coef task current_date start_hard
  <-> Task.status task = to_do
      /\ representable (Task.deadline task) (Task.days_for_completion task)
      /\ Task.deadline task - Task.days_for_completion task <= current_date.
Proof.
  destruct (Task.status task) eqn:Hst.
  - rewrite (emits_branch _ _ _ _ _ _
               (get_warnings_list_to_do coef _ _ Hst)) by discriminate.
    rewrite branch_warnings_hard by discriminate. tauto.
  - split; [|intros [H _]; discriminate]. intros H. exfalso. revert H.
    destruct (Task.actual_start_date task) as [start|] eqn:Hstart.
    + apply (emits_none_of_branch _ _ _ _ _ _
               (get_warnings_list_in_progress coef _ _ _ Hst Hstart));
        discriminate.
    + apply (not_emits_of_error _ _ _ _
               (get_warnings_list_no_start_date coef _ current_date Hst Hstart)).
  - rewrite (emits_of_result _ _ _ _ (get_warnings_list_done coef _ _ Hst)).
    has_warning_cases. intuition discriminate.
Qed.

(** [finish_hard] in the terms of the code. *)
Lemma finish_hard_spec (task : Task) (current_date : Py.date) :
  emits coef task current_date finish_hard
  <-> Task.status task = in_progress
      /\ exists start,
           Task.actual_start_date task = Some start
           /\ representable (Task.deadline task)
                (Z.max (Task.days_for_completion task
                        - (current_date - start)) 0)
           /\ Task.deadline task
              - Z.max (Task.days_for_completion task - (current_date - start)) 0
              <= current_date.
Proof.
  destruct (Task.status task) eqn:Hst.
  - split; [|intros [H _]; discriminate]. intros H. exfalso. revert H.
    apply (emits_none_of_branch _ _ _ _ _ _
             (get_warnings_list_to_do coef _ _ Hst)); discriminate.
  - destruct (Task.actual_start_date task) as [start|] eqn:Hstart.
    + rewrite (emits_branch _ _ _ _ _ _
                 (get_warnings_list_in_progress coef _ _ _ Hst Hstart))
        by discriminate.
      rewrite branch_warnings_hard by discriminate. split.
      * intros H. split; [reflexivity|]. now exists start.
      * now intros (_ & s & [= <-] & H).
    + split; [|intros (_ & s & H & _); discriminate].
      intros H. exfalso. revert H.
      apply (not_emits_of_error _ _ _ _
               (get_warnings_list_no_start_date coef _ current_date Hst Hstart)).
  - rewrite (emits_of_result _ _ _ _ (get_warnings_list_done coef _ _ Hst)).
    has_warning_cases. intuition discriminate.
Qed.

(** [finish_hard] belongs to the started [in_progress] tasks whose hard
    threshold is a date and for which the later of today and the planned
    finish, [actual_start_date + days_for_completion], has reached the
    deadline: while the planned days are not used up the warning depends
    on the plan alone, afterwards on the date alone. *)
Theorem finish_hard_iff (task : Task) (current_date : Py.date) :
  emits coef task current_date finish_hard
  <-> Task.status task = in_progress
      /\ exists start,
           Task.actual_start_date task = Some start
           /\ representable (Task.deadline task)
                (Z.max (Task.days_for_completion task
                        - (current_date - start)) 0)
           /\ Task.deadline task
              <= Z.max current_date (start + Task.days_for_completion task).
Proof.
  rewrite finish_hard_spec. split.
  - intros (Hst & start & Hstart & Hr & H). split; [exact Hst|].
    exists start. split; [exact Hstart|]. split; [exact Hr | lia].
  - intros (Hst & start & Hstart & Hr & H). split; [exact Hst|].
    exists start. split; [exact Hstart|]. split; [exact Hr | lia].
Qed.

(** [late_deadline] is emitted exactly when the engine returns and the
    deadline is past. *)
Lemma late_deadline_iff (task : Task) (current_date : Py.date) :
  emits coef task current_date late_deadline
  <-> branch_precondition coef task current_date
      /\ Task.deadline task < current_date.
Proof.
  split.
  - intros (ws & E & H).
    destruct (get_warnings_list_inr coef _ _ _ E) as (Hpre & sp & -> & _ & Hsp).
    split; [exact Hpre|].
    apply has_warning_app in H as [H | H].
    + exfalso. revert H. apply status_conditioned_not_late.
      eapply Forall_impl; [|exact Hsp]. now intros w [Hw _].
    + now apply has_late_part in H.
  - intros [Hpre Hlt].
    destruct (get_warnings_list_returns coef task current_date Hpre)
      as (sp & E').
    exists (sp ++ late_part task current_date). split; [exact E'|].
    apply has_warning_app. right. now apply has_late_part.
Qed.

(** Past the deadline the precondition of a branch does not go away with
    time: the soft threshold is not looked at, and the hard one stays a
    date. *)
Lemma branch_precondition_later (task : Task)
    (current_date later_date : Py.date) :
  current_date <= later_date ->
  Task.deadline task < current_date ->
  branch_precondition coef task current_date ->
  branch_precondition coef task later_date.
Proof.
  intros Hle Hlate. unfold branch_precondition, thresholds_defined.
  destruct (Task.status task); [| |trivial].
  - intros [Hr Hs]. split; [exact Hr|]. intros H. apply Hs. lia.
  - intros (start & Hstart & Hr & _). exists start. split; [exact Hstart|].
    unfold representable in *. split; [lia | intros H; exfalso; lia].
Qed.

(** Urgency does not go back with time: once [start_hard], [finish_hard]
    or [late_deadline] is emitted for a task, it is emitted on every later
    date, as long as the task is the same. *)
Theorem hard_and_late_warnings_persist (task : Task)
    (current_date later_date : Py.date) (ty : WarningTypeEnum) :
  current_date <= later_date ->
  ty = start_hard \/ ty = finish_hard \/ ty = late_deadline ->
  emits coef task current_date ty ->
  emits coef task later_date ty.
Proof.
  intros Hle [-> | [-> | ->]].
  - rewrite !start_hard_spec. intros (Hst & Hr & H).
    split; [exact Hst|]. split; [exact Hr | lia].
  - rewrite !finish_hard_spec. intros (Hst & start & Hstart & Hr & H).
    split; [exact Hst|]. exists start. split; [exact Hstart|].
    unfold representable in *. split; lia.
  - rewrite !late_deadline_iff. intros [Hpre H].
    split; [|lia]. now apply (branch_precondition_later task current_date).
Qed.

(** The soft warnings need a coefficient above 1: with
    [TIME_RESERVE_COEF <= 1] the soft threshold is not earlier than the
    hard one, and neither [start_soft] (planned days not negative) nor
    [finish_soft] is ever emitted. *)
Theorem no_soft_warning_when_coef_le_1 (task : Task) (current_date : Py.date) :
  (coef <= 1)%Q ->
  (Task.status task = to_do -> 0 <= Task.days_for_completion task) ->
  ~ emits coef task current_date start_soft
  /\ ~ emits coef task current_date finish_soft.
Proof.
  intros Hc Hd. destruct (Task.status task) eqn:Hst.
  - split.
    + rewrite (emits_branch _ _ _ _ _ _
                 (get_warnings_list_to_do coef _ _ Hst)) by discriminate.
      rewrite branch_warnings_soft by discriminate.
      intros (Hr & Hlt & soft & Hs & Hle).
      pose proof (soft_threshold_not_earlier coef _ _ _ Hc (Hd eq_refl) Hr Hs).
      lia.
    + apply (emits_none_of_branch _ _ _ _ _ _
               (get_warnings_list_to_do coef _ _ Hst)); discriminate.
  - destruct (Task.actual_start_date task) as [start|] eqn:Hstart.
    + split.
      * apply (emits_none_of_branch _ _ _ _ _ _
                 (get_warnings_list_in_progress coef _ _ _ Hst Hstart));
          discriminate.
      * rewrite (emits_branch _ _ _ _ _ _
                   (get_warnings_list_in_progress coef _ _ _ Hst Hstart))
          by discriminate.
        rewrite branch_warnings_soft by discriminate.
        intros (Hr & Hlt & soft & Hs & Hle).
        pose proof (soft_threshold_not_earlier coef _ _ _ Hc
                      (Z.le_max_r _ 0) Hr Hs).
        lia.
    + split;
        apply (not_emits_of_error _ _ _ _
                 (get_warnings_list_no_start_date coef _ current_date
                    Hst Hstart)).
  - rewrite !(emits_of_result _ _ _ _ (get_warnings_list_done coef _ _ Hst)).
    has_warning_cases. intuition discriminate.
Qed.

(** The branch past its hard threshold: the hard warning alone. *)
Lemma branch_warnings_past_hard (task_id : Z)
    (hard_type soft_type : WarningTypeEnum) (deadline n current_date : Z) :
  representable deadline n ->
  deadline - n <= current_date ->
  branch_warnings coef task_id hard_type soft_type deadline n current_date
  = inr [ {| WarningModel.type := hard_type;
             WarningModel.task_id := task_id |} ].
Proof.
  intros Hr Hle.
  pose proof (branch_warnings_spec coef task_id hard_type soft_type deadline n
                current_date) as S.
  destruct (branch_warnings _ _ _ _ _ _ _) as [e | sp].
  - exfalso. destruct S as [S _]. apply S. split; [exact Hr | lia].
  - destruct S as [_ [[_ ->] | (Hlt & _)]]; [reflexivity | lia].
Qed.

(** Past the deadline the engine does not weigh anything: a [to_do] task
    (planned days not negative) gets [start_hard] and [late_deadline], a
    started [in_progress] task gets [finish_hard] and [late_deadline],
    each when its hard threshold is a date, and a [done] task gets
    [late_deadline] alone. *)
Theorem warnings_past_deadline (task : Task) (current_date : Py.date) :
  Task.deadline task < current_date ->
  let warning ty :=
    {| WarningModel.type := ty; WarningModel.task_id := Task.id task |} in
  match Task.status task with
  | to_do =>
      0 <= Task.days_for_completion task ->
      representable (Task.deadline task) (Task.days_for_completion task) ->
      get_warnings_list coef task current_date
      = inr [warning start_hard; warning late_deadline]
  | in_progress =>
      forall start,
        Task.actual_start_date task = Some start ->
        representable (Task.deadline task)
          (Z.max (Task.days_for_completion task - (current_date - start)) 0) ->
        get_warnings_list coef task current_date
        = inr [warning finish_hard; warning late_deadline]
  | done =>
      get_warnings_list coef task current_date = inr [warning late_deadline]
  end.
Proof.
  intros Hlate. cbv zeta.
  assert (Hl : late_part task current_date
               = [ {| WarningModel.type := late_deadline;
                      WarningModel.task_id := Task.id task |} ]).
  { unfold late_part. destruct (Z.gtb_spec current_date (Task.deadline task));
      [reflexivity | lia]. }
  destruct (Task.status task) eqn:Hst.
  - intros Hd Hr. rewrite (get_warnings_list_to_do coef _ _ Hst), Hl.
    rewrite branch_warnings_past_hard; [reflexivity | exact Hr | lia].
  - intros start Hstart Hr.
    rewrite (get_warnings_list_in_progress coef _ _ _ Hst Hstart), Hl.
    rewrite branch_warnings_past_hard; [reflexivity | exact Hr | lia].
  - now rewrite (get_warnings_list_done coef _ _ Hst), Hl.
Qed.

End WarningEngineMore.

(* ================================================================== *)
(** * More on the dashboard view *)
(* ================================================================== *)

Section DashboardMore.

Variable coef : Q.
Variable User : Set.
Variable user_get_by_id : Z -> option User.

Lemma contains_In {V : Type} (k : TaskStatusEnum) (d : Py.dict (V := V)) :
  Py.contains TaskStatusEnum_eqb k d = true <-> In k (map fst d).
Proof.
  unfold Py.contains. rewrite existsb_exists, in_map_iff.
  split; intros (kv & H1 & H2); exists kv.
  - split; [now apply TaskStatusEnum_eqb_eq | exact H1].
  - split; [exact H2 | now apply TaskStatusEnum_eqb_eq].
Qed.

Lemma status_is_true (s : TaskStatusEnum) (t : Task) :
  status_is s t = true <-> Task.status t = s.
Proof. apply TaskStatusEnum_eqb_eq. Qed.

Lemma filter_status_snoc_same (seen : list Task) (t : Task) :
  filter (status_is (Task.status t)) (seen ++ [t])
  = filter (status_is (Task.status t)) seen ++ [t].
Proof.
  rewrite filter_app. cbn.
  now rewrite (proj2 (status_is_true (Task.status t) t) eq_refl).
Qed.

Lemma filter_status_snoc_other (seen : list Task) (t : Task) (k : TaskStatusEnum) :
  k <> Task.status t ->
  filter (status_is k) (seen ++ [t]) = filter (status_is k) seen.
Proof.
  intros Hk. rewrite filter_app. cbn.
  destruct (status_is k t) eqn:E.
  - apply status_is_true in E. congruence.
  - apply app_nil_r.
Qed.

Lemma filter_status_absent (seen : list Task) (k : TaskStatusEnum) :
  (forall t, In t seen -> Task.status t <> k) ->
  filter (status_is k) seen = [].
Proof.
  induction seen as [|t0 seen IH]; cbn; [reflexivity|].
  intros H. destruct (status_is k t0) eqn:E.
  - apply status_is_true in E. exfalso. apply (H t0); [now left | exact E].
  - apply IH. intros t Hin. apply H. now right.
Qed.

(** One turn of the loop keeps the invariant. *)
Lemma grouped_step (current_date : Py.date) (seen : list Task) (t : Task)
    (dt : DashboardTask User) (statuses : Py.dict) :
  grouped coef user_get_by_id current_date seen statuses ->
  shows coef user_get_by_id current_date t dt ->
  grouped coef user_get_by_id current_date (seen ++ [t])
    (if Py.contains TaskStatusEnum_eqb (Task.status t) statuses
     then Py.update TaskStatusEnum_eqb (Task.status t)
            (fun l => l ++ [dt]) statuses
     else Py.setitem_new (Task.status t) [dt] statuses).
Proof.
  intros (Hnd & Hkeys & Hgroups) Hshow.
  destruct (Py.contains TaskStatusEnum_eqb (Task.status t) statuses) eqn:Hc.
  - assert (Hfst : map fst (Py.update TaskStatusEnum_eqb (Task.status t)
                              (fun l => l ++ [dt]) statuses)
                   = map fst statuses).
    { unfold Py.update. rewrite map_map. apply map_ext.
      intros [k l]. cbn. now destruct (TaskStatusEnum_eqb k (Task.status t)). }
    split; [now rewrite Hfst | split].
    + intros t' Hin. rewrite Hfst. apply in_app_iff in Hin as [Hin | [<- | []]].
      * now apply Hkeys.
      * now apply contains_In.
    + intros k l Hin. unfold Py.update in Hin.
      apply in_map_iff in Hin as ([k0 l0] & Heq & Hin0). cbn in Heq.
      destruct (Hgroups k0 l0 Hin0) as [Hne Hf].
      destruct (TaskStatusEnum_eqb k0 (Task.status t)) eqn:E;
        injection Heq as <- <-.
      * apply TaskStatusEnum_eqb_eq in E. subst k0. split.
        -- now destruct l0.
        -- rewrite filter_status_snoc_same. apply Forall2_app; [exact Hf|].
           constructor; [exact Hshow | constructor].
      * split; [exact Hne|].
        rewrite filter_status_snoc_other; [exact Hf|].
        intros ->. now rewrite (proj2 (TaskStatusEnum_eqb_eq _ _) eq_refl) in E.
  - assert (Hnot : ~ In (Task.status t) (map fst statuses)).
    { intros Hin. apply contains_In in Hin. congruence. }
    unfold Py.setitem_new. split; [|split].
    + rewrite map_app. cbn.
      apply (Permutation_NoDup (Permutation_cons_append _ _)).
      now constructor.
    + intros t' Hin. rewrite map_app, in_app_iff. cbn.
      apply in_app_iff in Hin as [Hin | [<- | []]]; [left | right]; auto.
    + intros k l Hin. apply in_app_iff in Hin as [Hin | [[= <- <-] | []]].
      * destruct (Hgroups k l Hin) as [Hne Hf]. split; [exact Hne|].
        rewrite filter_status_snoc_other; [exact Hf|].
        intros ->. apply Hnot. apply in_map_iff. now exists (Task.status t, l).
      * split; [discriminate|].
        rewrite filter_status_snoc_same, filter_status_absent.
        -- cbn. constructor; [exact Hshow | constructor].
        -- intros t' Hin' Heq. apply Hnot. rewrite <- Heq. now apply Hkeys.
Qed.

Lemma group_by_status_grouped (current_date : Py.date) (rest : list Task) :
  forall (seen : list Task) (statuses statuses' : Py.dict),
    grouped coef user_get_by_id current_date seen statuses ->
    group_by_status coef User user_get_by_id current_date rest statuses
    = inr statuses' ->
    grouped coef user_get_by_id current_date (seen ++ rest) statuses'.
Proof.
  induction rest as [|task rest IH]; intros seen statuses statuses' Hg H.
  - cbn in H. injection H as <-. now rewrite app_nil_r.
  - cbn in H.
    destruct (get_warnings_list coef task current_date) as [e | ws] eqn:E;
      [discriminate|].
    cbn in H. apply IH with (seen := seen ++ [task]) in H.
    + now rewrite <- app_assoc in H.
    + apply grouped_step; [exact Hg|]. now repeat split.
Qed.

Lemma group_by_status_error (current_date : Py.date) (tasks : list Task) :
  forall (statuses : Py.dict) (e : Py.exn),
    group_by_status coef User user_get_by_id current_date tasks statuses = inl e ->
    e = Py.TypeError \/ e = Py.OverflowError \/ e = Py.ValueError.
Proof.
  induction tasks as [|task rest IH]; intros statuses e H; cbn in H.
  - discriminate.
  - destruct (get_warnings_list coef task current_date) as [e' | ws] eqn:E;
      cbn in H.
    + injection H as <-. now apply get_warnings_list_inl in E.
    + now apply IH in H.
Qed.

(** The loop does not get past a task on which the engine raises. *)
Lemma group_by_status_raises (current_date : Py.date) (tasks : list Task)
    (t : Task) (e : Py.exn) :
  In t tasks ->
  get_warnings_list coef t current_date = inl e ->
  forall statuses : Py.dict,
  exists e',
    group_by_status coef User user_get_by_id current_date tasks statuses
    = inl e'.
Proof.
  intros Hin Ht. induction tasks as [|task rest IH]; intros statuses;
    [destruct Hin|].
  cbn. destruct (get_warnings_list coef task current_date) as [e' | ws] eqn:E;
    cbn.
  - now exists e'.
  - destruct Hin as [-> | Hin]; [congruence | now apply IH].
Qed.

(** When the unstarted tasks are the only ones on which the engine raises,
    the exception of the loop is the [TypeError] of the first of them. *)
Lemma group_by_status_raises_TypeError (current_date : Py.date)
    (tasks : list Task) (t : Task) :
  In t tasks ->
  unstarted t ->
  (forall t', In t' tasks ->
              unstarted t' \/ branch_precondition coef t' current_date) ->
  forall statuses : Py.dict,
    group_by_status coef User user_get_by_id current_date tasks statuses
    = inl Py.TypeError.
Proof.
  intros Hin Ht. induction tasks as [|task rest IH]; intros Hall statuses;
    [destruct Hin|].
  assert (Hun : forall t', unstarted t' ->
                  get_warnings_list coef t' current_date = inl Py.TypeError).
  { intros t' [Hst Hstart]. now apply get_warnings_list_no_start_date. }
  cbn. destruct (get_warnings_list coef task current_date) as [e | ws] eqn:E;
    cbn.
  - destruct (Hall task (or_introl eq_refl)) as [H | H].
    + rewrite (Hun _ H) in E. now injection E as <-.
    + destruct (get_warnings_list_returns coef _ _ H) as (sp & E').
      rewrite E' in E. discriminate E.
  - destruct Hin as [-> | Hin].
    + rewrite (Hun _ Ht) in E. discriminate E.
    + apply IH; [exact Hin|]. intros t' Ht'. apply Hall. now right.
Qed.

Lemma shows_sorted (current_date : Py.date) (l : list Task)
    (dts : list (DashboardTask User)) :
  Forall2 (shows coef user_get_by_id current_date) l dts ->
  StronglySorted (key_le Task.deadline) l ->
  StronglySorted (key_le dt_deadline) dts.
Proof.
  induction 1 as [|t dt l dts Hs Hf IH]; intros Hl; [constructor|].
  apply StronglySorted_inv in Hl as [Hl Ht].
  constructor; [now apply IH|].
  clear IH Hl. induction Hf as [|t' dt' l dts Hs' Hf IH]; [constructor|].
  apply Forall_cons_iff in Ht as [Ht' Ht]. constructor; [|now apply IH].
  unfold key_le in *.
  destruct Hs as (_ & _ & -> & _), Hs' as (_ & _ & -> & _). exact Ht'.
Qed.

Lemma filter_sorted {A : Type} (key : A -> Z) (f : A -> bool) (l : list A) :
  StronglySorted (key_le key) l -> StronglySorted (key_le key) (filter f l).
Proof.
  induction 1 as [|a l Hl IH Ha]; cbn; [constructor|].
  destruct (f a); [|exact IH]. constructor; [exact IH|].
  apply Forall_forall. intros b Hb. apply filter_In in Hb as [Hb _].
  now apply (proj1 (Forall_forall _ _) Ha).
Qed.

Lemma NoDup_map_injective {A B : Type} (f : A -> B) (l : list A) :
  (forall a b, f a = f b -> a = b) -> NoDup l -> NoDup (map f l).
Proof.
  intros Hf. induction 1 as [|a l Ha _ IH]; cbn; constructor; [|exact IH].
  intros Hin. apply in_map_iff in Hin as (b & Hb & Hin).
  apply Hf in Hb. now subst b.
Qed.

Lemma get_status_order_number_inj (a b : TaskStatusEnum) :
  get_status_order_number a = get_status_order_number b -> a = b.
Proof. destruct a, b; cbv; congruence. Qed.

(** A response of the dashboard view, when there is one: one group for
    each status that occurs among the tasks that are not archived and no
    other group, the groups with distinct ranks, a [done] group among them;
    each group holds the entries of the tasks of its status, each with the
    warnings of the engine, in ascending order of deadline. *)
Theorem dashboard_groups_by_status (db : Db) (current_date : Py.date)
    (r : GetDashboardTasksResponse User) :
  get_dashboard_tasks coef User user_get_by_id db current_date = inr r ->
  let shown := TaskRepository.get_tasks_ordered_by_deadline db in
  NoDup (map status_name (statuses r))
  /\ NoDup (map order_number (statuses r))
  /\ (exists g, In g (statuses r) /\ status_name g = done)
  /\ (forall t, In t shown ->
        exists g, In g (statuses r) /\ status_name g = Task.status t)
  /\ (forall g, In g (statuses r) ->
        order_number g = get_status_order_number (status_name g)
        /\ tasks g <> []
        /\ Forall2 (shows coef user_get_by_id current_date)
             (filter (status_is (status_name g)) shown) (tasks g)
        /\ StronglySorted (key_le dt_deadline) (tasks g)).
Proof.
  intros H. cbv zeta. unfold get_dashboard_tasks in H.
  destruct (group_by_status _ _ _ _ _ _) as [e | d] eqn:G; [discriminate|].
  apply (group_by_status_grouped _ _ [] [] d) in G;
    [|split; [constructor | split; [intros t [] | intros k l []]]].
  cbn [app] in G. destruct G as (Hnd & Hkeys & Hgroups).
  cbn [Py.bind] in H.
  destruct (Py.getitem TaskStatusEnum_eqb done d) as [e | done_tasks] eqn:Gd;
    [discriminate|].
  cbn [Py.bind] in H.
  destruct (Py.truediv _ _) as [e | ratio]; [discriminate|].
  cbn [Py.bind] in H.
  destruct (Py.int_of_float _) as [e | p]; [discriminate|].
  cbn in H. injection H as <-. cbn [statuses].
  assert (Hnames : map status_name
                     (map (fun kv : TaskStatusEnum * list (DashboardTask User) =>
                             {| status_name := fst kv;
                                order_number := get_status_order_number (fst kv);
                                tasks := snd kv |}) d)
                   = map fst d).
  { rewrite map_map. now apply map_ext. }
  assert (Hnumbers : map order_number
                       (map (fun kv : TaskStatusEnum * list (DashboardTask User) =>
                               {| status_name := fst kv;
                                  order_number := get_status_order_number (fst kv);
                                  tasks := snd kv |}) d)
                     = map get_status_order_number (map fst d)).
  { rewrite !map_map. now apply map_ext. }
  assert (Hin : forall k, In k (map fst d) ->
                  exists g,
                    In g (map (fun kv : TaskStatusEnum * list (DashboardTask User) =>
                                 {| status_name := fst kv;
                                    order_number := get_status_order_number (fst kv);
                                    tasks := snd kv |}) d)
                    /\ status_name g = k).
  { intros k Hk. apply in_map_iff in Hk as (kv & <- & Hkv).
    eexists. split; [apply in_map_iff; exists kv; split; [reflexivity | exact Hkv]|].
    reflexivity. }
  split; [|split; [|split; [|split]]].
  - now rewrite Hnames.
  - rewrite Hnumbers.
    apply NoDup_map_injective; [|exact Hnd].
    intros a b. apply get_status_order_number_inj.
  - apply Hin. apply contains_In.
    destruct (Py.contains TaskStatusEnum_eqb done d) eqn:Hc; [reflexivity|].
    now rewrite (getitem_missing _ _ Hc) in Gd.
  - intros t Ht. apply Hin. now apply Hkeys.
  - intros g Hg. apply in_map_iff in Hg as ([k l] & <- & Hkl). cbn.
    destruct (Hgroups k l Hkl) as [Hne Hf].
    split; [reflexivity|]. split; [exact Hne|]. split; [exact Hf|].
    apply (shows_sorted _ _ _ Hf).
    apply filter_sorted. apply order_by_sorted.
Qed.

Lemma getitem_error {V : Type} (k : TaskStatusEnum) (d : Py.dict (V := V))
    (e : Py.exn) :
  Py.getitem TaskStatusEnum_eqb k d = inl e -> e = Py.KeyError.
Proof.
  induction d as [|[k0 v] d IH]; cbn.
  - now intros [= <-].
  - destruct (TaskStatusEnum_eqb k0 k); [discriminate | exact IH].
Qed.

Lemma int_of_float_error (x : float) (e : Py.exn) :
  Py.int_of_float x = inl e -> e = Py.OverflowError \/ e = Py.ValueError.
Proof.
  unfold Py.int_of_float. destruct (Prim2SF x); cbn; intros [= <-]; auto.
Qed.

(** The division of the progress figure is never a division by zero:
    with no task the lookup of the [done] group has failed before, and
    [ZeroDivisionError] is not among the exceptions of the view. *)
Theorem dashboard_never_divides_by_zero (db : Db) (current_date : Py.date) :
  get_dashboard_tasks coef User user_get_by_id db current_date
  <> inl Py.ZeroDivisionError.
Proof.
  unfold get_dashboard_tasks.
  destruct (TaskRepository.get_tasks_ordered_by_deadline db) as [|t ts] eqn:Et.
  - cbn. discriminate.
  - destruct (group_by_status _ _ _ _ _ _) as [e | d] eqn:G.
    + apply group_by_status_error in G. cbn.
      destruct G as [-> | [-> | ->]]; discriminate.
    + cbn [Py.bind].
      destruct (Py.getitem TaskStatusEnum_eqb done d) as [e | l] eqn:Gd.
      * apply getitem_error in Gd. subst e. cbn. discriminate.
      * cbn [Py.bind]. unfold Py.truediv.
        replace (Z.of_nat (length (t :: ts)) =? 0) with false
          by (symmetry; apply Z.eqb_neq; cbn [length]; lia).
        cbn [Py.bind Py.ret].
        destruct (Py.int_of_float _) as [e | p] eqn:Ei.
        -- apply int_of_float_error in Ei. cbn.
           destruct Ei as [-> | ->]; discriminate.
        -- cbn. discriminate.
Qed.

(** One task that is not archived, is [in_progress] and has no
    [actual_start_date] is enough for the whole view to raise, whatever
    the other tasks are: the exception is one of the warning engine, and
    it is [TypeError] when every listed task either is such a task or
    satisfies the precondition of its branch. *)
Theorem dashboard_raises_on_unstarted_task (db : Db) (current_date : Py.date)
    (t : Task) :
  In t (Db.task db) ->
  Task.is_archived t = false ->
  Task.status t = in_progress ->
  Task.actual_start_date t = None ->
  (exists e,
      get_dashboard_tasks coef User user_get_by_id db current_date = inl e
      /\ (e = Py.TypeError \/ e = Py.OverflowError \/ e = Py.ValueError))
  /\ ((forall t', In t' (Db.task db) -> Task.is_archived t' = false ->
                  unstarted t' \/ branch_precondition coef t' current_date) ->
      get_dashboard_tasks coef User user_get_by_id db current_date
      = inl Py.TypeError).
Proof.
  intros Hin Harch Hst Hstart.
  assert (Hlisted : In t (TaskRepository.get_tasks_ordered_by_deadline db))
    by (apply get_tasks_ordered_by_deadline_In; now split).
  unfold get_dashboard_tasks. split.
  - destruct (group_by_status_raises current_date _ t Py.TypeError Hlisted
                (get_warnings_list_no_start_date coef _ _ Hst Hstart) [])
      as (e & E).
    exists e. rewrite E. split; [reflexivity|].
    now apply group_by_status_error in E.
  - intros Hall.
    rewrite (group_by_status_raises_TypeError current_date _ t);
      [reflexivity | exact Hlisted | now split |].
    intros t' Ht'. apply get_tasks_ordered_by_deadline_In in Ht' as [Hin' Ha'].
    now apply Hall.
Qed.

End DashboardMore.

(* ================================================================== *)
(** * More on the task table *)
(* ================================================================== *)

Section UpdateWhereId.

Variable set : Task -> Task.
Hypothesis set_id : forall t, Task.id (set t) = Task.id t.

Lemma update_where_id_ids (db : Db) (task_id : Z) :
  map Task.id (Db.task (fst (TaskRepository.update_where_id db task_id set)))
  = map Task.id (Db.task db).
Proof.
  cbn. rewrite map_map. apply map_ext. intros t.
  destruct (Task.id t =? task_id); [apply set_id | reflexivity].
Qed.

Lemma update_where_id_Forall (P : Task -> Prop) (db : Db) (task_id : Z) :
  (forall t, P t -> P (set t)) ->
  Forall P (Db.task db) ->
  Forall P (Db.task (fst (TaskRepository.update_where_id db task_id set))).
Proof.
  intros HP H. cbn. apply Forall_map. eapply Forall_impl; [|exact H].
  intros t Ht. destruct (Task.id t =? task_id); auto.
Qed.

Lemma filter_id_map (rows : list Task) (task_id j : Z) :
  filter (fun t => Task.id t =? j)
    (map (fun t => if Task.id t =? task_id then set t else t) rows)
  = map (fun t => if Task.id t =? task_id then set t else t)
      (filter (fun t => Task.id t =? j) rows).
Proof.
  induction rows as [|t rows IH]; cbn; [reflexivity|].
  assert (E : Task.id (if Task.id t =? task_id then set t else t) = Task.id t).
  { destruct (Task.id t =? task_id); [apply set_id | reflexivity]. }
  rewrite E. destruct (Task.id t =? j); cbn; now rewrite IH.
Qed.

(** The row that the statement returns is the row that a later
    [get_by_id] finds, the old row with the new columns; a missing id
    gives no row. *)
Lemma update_where_id_get (db : Db) (task_id : Z) :
  TaskRepository.fetchrow (snd (TaskRepository.update_where_id db task_id set))
  = option_map set (TaskRepository.get_by_id db task_id)
  /\ TaskRepository.get_by_id
       (fst (TaskRepository.update_where_id db task_id set)) task_id
     = option_map set (TaskRepository.get_by_id db task_id).
Proof.
  unfold TaskRepository.get_by_id. cbn [fst snd TaskRepository.update_where_id Db.task].
  rewrite filter_id_map.
  split.
  - now destruct (filter _ (Db.task db)).
  - destruct (filter _ (Db.task db)) as [|t rows] eqn:E; [reflexivity|].
    cbn. assert (Ht : In t (filter (fun t => Task.id t =? task_id) (Db.task db)))
      by (rewrite E; now left).
    apply filter_In in Ht as [_ Ht]. now rewrite Ht.
Qed.

Lemma update_where_id_other (db : Db) (task_id j : Z) :
  j <> task_id ->
  TaskRepository.get_by_id
    (fst (TaskRepository.update_where_id db task_id set)) j
  = TaskRepository.get_by_id db j.
Proof.
  intros Hj. unfold TaskRepository.get_by_id.
  cbn [fst TaskRepository.update_where_id Db.task].
  rewrite filter_id_map. f_equal.
  induction (Db.task db) as [|t rows IH]; cbn; [reflexivity|].
  destruct (Z.eqb_spec (Task.id t) j) as [Ej | Ej]; cbn; [|exact IH].
  destruct (Z.eqb_spec (Task.id t) task_id) as [Ei | Ei]; [congruence|].
  now rewrite IH.
Qed.

Lemma update_where_id_missing (db : Db) (task_id : Z) :
  TaskRepository.get_by_id db task_id = None ->
  fst (TaskRepository.update_where_id db task_id set) = db.
Proof.
  unfold TaskRepository.get_by_id. intros H.
  cbn [fst TaskRepository.update_where_id].
  rewrite <- (Db_eta db) at 3. f_equal.
  rewrite <- (map_id (Db.task db)) at 2. apply map_ext_in.
  intros t Hin. destruct (Task.id t =? task_id) eqn:E; [|reflexivity].
  exfalso.
  assert (Ht : In t (filter (fun t => Task.id t =? task_id) (Db.task db)))
    by (apply filter_In; now split).
  destruct (filter _ (Db.task db)); [destruct Ht | discriminate].
Qed.

End UpdateWhereId.

Lemma get_by_id_In (db : Db) (j : Z) (t : Task) :
  TaskRepository.get_by_id db j = Some t -> In t (Db.task db) /\ Task.id t = j.
Proof.
  unfold TaskRepository.get_by_id. intros H.
  destruct (filter _ (Db.task db)) as [|t0 rows] eqn:E; [discriminate|].
  injection H as ->.
  assert (Ht : In t (filter (fun t => Task.id t =? j) (Db.task db)))
    by (rewrite E; now left).
  apply filter_In in Ht as [Hin Ht]. split; [exact Hin | now apply Z.eqb_eq].
Qed.

Lemma get_by_id_None (db : Db) (j : Z) :
  TaskRepository.get_by_id db j = None
  <-> forall t, In t (Db.task db) -> Task.id t <> j.
Proof.
  unfold TaskRepository.get_by_id. split.
  - intros H t Hin Hid.
    assert (Ht : In t (filter (fun t => Task.id t =? j) (Db.task db)))
      by (apply filter_In; split; [exact Hin | now apply Z.eqb_eq]).
    destruct (filter _ (Db.task db)); [destruct Ht | discriminate].
  - intros H. destruct (filter _ (Db.task db)) as [|t rows] eqn:E;
      [reflexivity|].
    exfalso.
    assert (Ht : In t (filter (fun t => Task.id t =? j) (Db.task db)))
      by (rewrite E; now left).
    apply filter_In in Ht as [Hin Ht]. apply (H t Hin). now apply Z.eqb_eq.
Qed.

(** [update_task_status] returns the row that [get_by_id] finds
    afterwards: the old row with the new status and nothing else changed,
    its actual dates in particular; the rows of the other ids and the
    edges stay, and an id that is not in the table gives [None] and the
    same database. *)
Theorem update_task_status_then_get (db : Db) (task_id : Z)
    (new_status : TaskStatusEnum) :
  let r := TaskRepository.update_task_status db task_id new_status in
  TaskRepository.get_by_id (fst r) task_id = snd r
  /\ (forall t, TaskRepository.get_by_id db task_id = Some t ->
        exists t',
          snd r = Some t'
          /\ Task.status t' = new_status
          /\ Task.actual_start_date t' = Task.actual_start_date t
          /\ Task.actual_finish_date t' = Task.actual_finish_date t
          /\ Task.actual_completion_days t' = Task.actual_completion_days t
          /\ Task.deadline t' = Task.deadline t
          /\ Task.is_archived t' = Task.is_archived t)
  /\ (TaskRepository.get_by_id db task_id = None -> snd r = None /\ fst r = db)
  /\ (forall j, j <> task_id ->
        TaskRepository.get_by_id (fst r) j = TaskRepository.get_by_id db j)
  /\ Db.task_depends (fst r) = Db.task_depends db.
Proof.
  cbv zeta. unfold TaskRepository.update_task_status. cbn [fst snd].
  assert (Hid : forall t, Task.id (TaskRepository.set_status new_status t)
                          = Task.id t) by reflexivity.
  destruct (update_where_id_get _ Hid db task_id) as [Hrow Hget].
  split; [congruence|]. split; [|split; [|split]].
  - intros t Ht. rewrite Hrow, Ht. cbn. eexists. split; [reflexivity|].
    now repeat split.
  - intros Hnone. split; [now rewrite Hrow, Hnone|].
    now apply update_where_id_missing.
  - intros j Hj. now apply update_where_id_other.
  - reflexivity.
Qed.

(** [update_task_data] returns the row that [get_by_id] finds
    afterwards: the old row with the five new columns; the status, the
    actual dates and the archive flag are as before, the rows of the other
    ids too, and an id that is not in the table gives [None] and the same
    database. *)
Theorem update_task_data_then_get (db : Db) (task_id : Z)
    (title description : option string) (deadline : Py.date)
    (responsible_user_id days_for_completion : Z) :
  let r := TaskRepository.update_task_data db task_id title description
             deadline responsible_user_id days_for_completion in
  TaskRepository.get_by_id (fst r) task_id = snd r
  /\ (forall t, TaskRepository.get_by_id db task_id = Some t ->
        exists t',
          snd r = Some t'
          /\ Task.title t' = title
          /\ Task.description t' = description
          /\ Task.deadline t' = deadline
          /\ Task.responsible_user_id t' = responsible_user_id
          /\ Task.days_for_completion t' = days_for_completion
          /\ Task.status t' = Task.status t
          /\ Task.actual_start_date t' = Task.actual_start_date t
          /\ Task.actual_finish_date t' = Task.actual_finish_date t
          /\ Task.actual_completion_days t' = Task.actual_completion_days t
          /\ Task.is_archived t' = Task.is_archived t)
  /\ (TaskRepository.get_by_id db task_id = None -> snd r = None /\ fst r = db)
  /\ (forall j, j <> task_id ->
        TaskRepository.get_by_id (fst r) j = TaskRepository.get_by_id db j).
Proof.
  cbv zeta. unfold TaskRepository.update_task_data. cbn [fst snd].
  set (set := TaskRepository.set_task_data title description deadline
                responsible_user_id days_for_completion).
  assert (Hid : forall t, Task.id (set t) = Task.id t) by reflexivity.
  destruct (update_where_id_get _ Hid db task_id) as [Hrow Hget].
  split; [congruence|]. split; [|split].
  - intros t Ht. rewrite Hrow, Ht. cbn. eexists. split; [reflexivity|].
    now repeat split.
  - intros Hnone. split; [now rewrite Hrow, Hnone|].
    now apply update_where_id_missing.
  - intros j Hj. now apply update_where_id_other.
Qed.

(** [update_task_deadline] answers whether the id is in the table; if it
    is, [get_by_id] finds the old row with the new deadline afterwards,
    and nothing is recomputed; the rows of the other ids stay. *)
Theorem update_task_deadline_then_get (db : Db) (task_id : Z)
    (new_deadline : Py.date) :
  let r := TaskRepository.update_task_deadline db task_id new_deadline in
  (snd r = true <-> exists t, In t (Db.task db) /\ Task.id t = task_id)
  /\ TaskRepository.get_by_id (fst r) task_id
     = option_map (TaskRepository.set_deadline new_deadline)
         (TaskRepository.get_by_id db task_id)
  /\ (snd r = false -> fst r = db)
  /\ (forall j, j <> task_id ->
        TaskRepository.get_by_id (fst r) j = TaskRepository.get_by_id db j).
Proof.
  cbv zeta. unfold TaskRepository.update_task_deadline. cbn [fst snd].
  assert (Hid : forall t, Task.id (TaskRepository.set_deadline new_deadline t)
                          = Task.id t) by reflexivity.
  destruct (update_where_id_get _ Hid db task_id) as [Hrow Hget].
  rewrite Hrow.
  destruct (TaskRepository.get_by_id db task_id) as [t|] eqn:E; cbn.
  - split; [|split; [exact Hget | split]].
    + split; [intros _ | reflexivity].
      exists t. now apply get_by_id_In.
    + discriminate.
    + intros j Hj. now apply update_where_id_other.
  - split; [|split; [exact Hget | split]].
    + split; [discriminate|]. intros (t & Hin & Ht).
      exfalso. now apply (proj1 (get_by_id_None db task_id) E t).
    + intros _. now apply update_where_id_missing.
    + intros j Hj. now apply update_where_id_other.
Qed.

(** The listing of the dashboard and of the timeline is the rows that are
    not archived, each of them once, in ascending order of deadline. *)
Theorem tasks_ordered_by_deadline_sorted (db : Db) :
  let listing := TaskRepository.get_tasks_ordered_by_deadline db in
  StronglySorted (key_le Task.deadline) listing
  /\ Permutation listing
       (filter (fun t => negb (Task.is_archived t)) (Db.task db))
  /\ (forall t, In t listing <-> In t (Db.task db) /\ Task.is_archived t = false)
  /\ (length listing <= length (Db.task db))%nat.
Proof.
  cbv zeta. unfold TaskRepository.get_tasks_ordered_by_deadline.
  split; [apply order_by_sorted|]. split; [apply order_by_perm|]. split.
  - intros t. rewrite order_by_In, filter_In, negb_true_iff. reflexivity.
  - rewrite order_by_length. apply filter_length_le.
Qed.

(** [update_task_archive_status] answers whether the id is in the table.
    With [True] as the flag no row of that id is in the listing afterwards,
    with [False] every row of that id is; the rows of the other ids are in
    the listing as before. *)
Theorem archive_status_decides_listing (db : Db) (task_id : Z)
    (archive_status : bool) :
  let r := TaskRepository.update_task_archive_status db task_id archive_status in
  let listing := TaskRepository.get_tasks_ordered_by_deadline (fst r) in
  (snd r = true <-> exists t, In t (Db.task db) /\ Task.id t = task_id)
  /\ (archive_status = true -> forall t, In t listing -> Task.id t <> task_id)
  /\ (archive_status = false ->
      forall t, In t (Db.task db) -> Task.id t = task_id ->
        In (TaskRepository.set_is_archived false t) listing)
  /\ (forall t, Task.id t <> task_id ->
        In t listing <-> In t (TaskRepository.get_tasks_ordered_by_deadline db)).
Proof.
  cbv zeta. unfold TaskRepository.update_task_archive_status. cbn [fst snd].
  assert (Hid : forall t, Task.id (TaskRepository.set_is_archived archive_status t)
                          = Task.id t) by reflexivity.
  destruct (update_where_id_get _ Hid db task_id) as [Hrow _].
  split; [|split; [|split]].
  - rewrite Hrow.
    destruct (TaskRepository.get_by_id db task_id) as [t|] eqn:E; cbn.
    + split; [intros _ | reflexivity]. exists t. now apply get_by_id_In.
    + split; [discriminate|]. intros (t & Hin & Ht).
      exfalso. now apply (proj1 (get_by_id_None db task_id) E t).
  - intros -> t Hin Ht.
    apply get_tasks_ordered_by_deadline_In in Hin as [Hin Harch].
    cbn in Hin. apply in_map_iff in Hin as (t0 & Heq & _).
    destruct (Z.eqb_spec (Task.id t0) task_id) as [E | E]; subst t.
    + discriminate Harch.
    + contradiction.
  - intros -> t Hin Ht.
    apply get_tasks_ordered_by_deadline_In. split; [|reflexivity].
    cbn. apply in_map_iff. exists t. split; [|exact Hin].
    apply Z.eqb_eq in Ht. now rewrite Ht.
  - intros t Ht. rewrite !get_tasks_ordered_by_deadline_In.
    cbn. rewrite in_map_iff. split.
    + intros [(t0 & Heq & Hin) Harch]. split; [|exact Harch].
      destruct (Z.eqb_spec (Task.id t0) task_id) as [E | E]; subst t;
        [now cbn in Ht | exact Hin].
    + intros [Hin Harch]. split; [|exact Harch].
      exists t. split; [|exact Hin].
      apply Z.eqb_neq in Ht. now rewrite Ht.
Qed.

Section StatusAndDashboard.

Variable coef : Q.
Variable User : Set.
Variable user_get_by_id : Z -> option User.

(** [update_task_status] does not set [actual_start_date]: moving a task
    that is not archived and was never started to [in_progress] leaves a
    database on which the dashboard view raises: an exception of the
    warning engine, and [TypeError] when every listed task either is an
    [in_progress] task without [actual_start_date] or satisfies the
    precondition of its branch. *)
Theorem in_progress_without_start_breaks_dashboard (db : Db) (task_id : Z)
    (t : Task) (current_date : Py.date) :
  TaskRepository.get_by_id db task_id = Some t ->
  Task.actual_start_date t = None ->
  Task.is_archived t = false ->
  let after := fst (TaskRepository.update_task_status db task_id in_progress) in
  (exists e,
      get_dashboard_tasks coef User user_get_by_id after current_date = inl e
      /\ (e = Py.TypeError \/ e = Py.OverflowError \/ e = Py.ValueError))
  /\ ((forall t', In t' (Db.task after) -> Task.is_archived t' = false ->
                  unstarted t' \/ branch_precondition coef t' current_date) ->
      get_dashboard_tasks coef User user_get_by_id after current_date
      = inl Py.TypeError).
Proof.
  intros Hget Hstart Harch. cbv zeta.
  assert (Hid : forall t, Task.id (TaskRepository.set_status in_progress t)
                          = Task.id t) by reflexivity.
  destruct (update_where_id_get _ Hid db task_id) as [_ Hget'].
  rewrite Hget in Hget'. cbn in Hget'. apply get_by_id_In in Hget' as [Hin _].
  set (t1 := TaskRepository.set_status in_progress t) in *.
  assert (Hlisted : In t1 (TaskRepository.get_tasks_ordered_by_deadline
                             (fst (TaskRepository.update_task_status db task_id
                                     in_progress))))
    by (apply get_tasks_ordered_by_deadline_In; split; [exact Hin | exact Harch]).
  assert (Hraise : get_warnings_list coef t1 current_date = inl Py.TypeError)
    by (apply get_warnings_list_no_start_date; [reflexivity | exact Hstart]).
  unfold get_dashboard_tasks. split.
  - destruct (group_by_status_raises coef User user_get_by_id current_date _
                t1 Py.TypeError Hlisted Hraise []) as (e & E).
    exists e. rewrite E. split; [reflexivity|].
    now apply group_by_status_error in E.
  - intros Hall.
    rewrite (group_by_status_raises_TypeError coef User user_get_by_id
               current_date _ t1);
      [reflexivity | exact Hlisted | split; [reflexivity | exact Hstart] |].
    intros t' Ht'. apply get_tasks_ordered_by_deadline_In in Ht' as [Hin' Ha'].
    now apply Hall.
Qed.

End StatusAndDashboard.

(** The rows of [get_all_short_tasks] are all the rows of the table,
    archived or not, in the order of the table, when every task has a
    title; one task without a title makes the call raise the
    [ValueError] of the validation. *)
Theorem get_all_short_tasks_needs_titles (db : Db) :
  (Forall (fun t => Task.title t <> None) (Db.task db) ->
   exists shorts,
     TaskRepository.get_all_short_tasks db = inr shorts
     /\ map ShortTask.id shorts = map Task.id (Db.task db)
     /\ map (fun s => Some (ShortTask.title s)) shorts
        = map Task.title (Db.task db))
  /\ (Exists (fun t => Task.title t = None) (Db.task db) ->
      TaskRepository.get_all_short_tasks db = inl Py.ValueError).
Proof.
  unfold TaskRepository.get_all_short_tasks. split.
  - induction 1 as [|t rows Ht _ IH]; cbn.
    + now exists [].
    + destruct IH as (shorts & -> & Hids & Htitles).
      unfold TaskRepository.ShortTask_of_row.
      destruct (Task.title t) as [title|] eqn:E; [|now elim Ht].
      cbn. eexists. split; [reflexivity|]. cbn.
      now rewrite Hids, Htitles.
  - induction 1 as [t rows Ht | t rows _ IH]; cbn.
    + unfold TaskRepository.ShortTask_of_row. now rewrite Ht.
    + unfold TaskRepository.ShortTask_of_row.
      destruct (Task.title t); [|reflexivity].
      cbn. now rewrite IH.
Qed.

(* ================================================================== *)
(** * The constraints along the calls *)
(* ================================================================== *)

Lemma NoDup_map_filter {A B : Type} (f : A -> B) (g : A -> bool) (l : list A) :
  NoDup (map f l) -> NoDup (map f (filter g l)).
Proof.
  induction l as [|a l IH]; cbn; [auto|].
  intros H. apply NoDup_cons_iff in H as [Ha H].
  destruct (g a); cbn; [|now apply IH].
  constructor; [|now apply IH].
  intros Hin. apply Ha. apply in_map_iff in Hin as (b & Hb & Hin).
  apply filter_In in Hin as [Hin _]. apply in_map_iff. now exists b.
Qed.

Lemma update_where_id_consistent (set : Task -> Task) (db : Db) (task_id : Z) :
  (forall t, Task.id (set t) = Task.id t) ->
  (forall t, completion_days_invariant t -> completion_days_invariant (set t)) ->
  consistent db ->
  consistent (fst (TaskRepository.update_where_id db task_id set))
  /\ Permutation
       (map Task.id (Db.task (fst (TaskRepository.update_where_id db task_id set))))
       (map Task.id (Db.task db)).
Proof.
  intros Hid Hinv (Hids & Hedges & Hrows).
  pose proof (update_where_id_ids set Hid db task_id) as E.
  split; [|now rewrite E]. split; [|split].
  - unfold unique_ids. now rewrite E.
  - exact Hedges.
  - now apply update_where_id_Forall.
Qed.

Lemma apply_mutation_consistent (db : Db) (m : mutation) :
  consistent db ->
  consistent (apply_mutation db m)
  /\ Permutation (map Task.id (Db.task (apply_mutation db m)))
       (map Task.id (Db.task db)).
Proof.
  intros Hc. destruct m; cbn [apply_mutation].
  - apply update_where_id_consistent; auto.
  - apply update_where_id_consistent; auto.
  - apply (update_where_id_consistent
             (TaskRepository.set_actual_dates new_start_date new_finish_date
                (inclusive_days new_start_date new_finish_date)));
      [reflexivity | | exact Hc].
    intros t _. apply set_actual_dates_invariant.
  - rewrite add_task_depends_eq.
    destruct (has_edge db id_ depends_id) eqn:E; [now split|].
    split; [|reflexivity].
    destruct Hc as (Hids & Hedges & Hrows). split; [exact Hids|].
    split; [|exact Hrows].
    apply (add_task_depends_unique db _ now id_ depends_id Hedges).
    now rewrite add_task_depends_eq, E.
  - apply update_where_id_consistent; auto.
  - apply update_where_id_consistent; auto.
  - split; [|reflexivity].
    destruct Hc as (Hids & Hedges & Hrows). split; [exact Hids|].
    split; [|exact Hrows].
    unfold unique_edges. cbn. now apply NoDup_map_filter.
Qed.

(** Whatever calls of the repository are made, one after the other, on a
    database whose ids and edges are unique and whose rows satisfy the
    invariant of the actual dates, the database stays so, and it holds the
    same ids, each as often as before: no call adds or removes a task.
    The order of the rows of a table is not a property of the table, and
    nothing is said about it. *)
Theorem mutations_keep_consistency (ms : list mutation) (db : Db) :
  consistent db ->
  consistent (fold_left apply_mutation ms db)
  /\ Permutation (map Task.id (Db.task (fold_left apply_mutation ms db)))
       (map Task.id (Db.task db)).
Proof.
  revert db. induction ms as [|m ms IH]; intros db Hc; cbn.
  - now split.
  - destruct (apply_mutation_consistent db m Hc) as [Hc' Hids].
    destruct (IH _ Hc') as [Hc'' Hids'].
    split; [exact Hc''|]. now rewrite Hids'.
Qed.

(* ================================================================== *)
(** * More on the dependency edges *)
(* ================================================================== *)

(** After [add_task_depends] the edge is found from both ends, by
    [get_task_depends] on the first id and by [get_tasks_dependent_of] on
    the second; under the unique constraint it is stored once; the edges
    of the other ids are as before. *)
Theorem added_edge_is_found (db : Db) (now id_ depends_id : Z) :
  exists db',
    TaskRepository.add_task_depends db now id_ depends_id = inr db'
    /\ (exists d, In d (TaskRepository.get_task_depends db' id_)
                  /\ TaskDepends.depends_task_id d = depends_id)
    /\ (exists d, In d (TaskRepository.get_tasks_dependent_of db' depends_id)
                  /\ TaskDepends.task_id d = id_)
    /\ (unique_edges db ->
        length (filter (TaskRepository.same_edge id_ depends_id)
                  (Db.task_depends db')) = 1%nat)
    /\ (forall j, j <> id_ ->
          TaskRepository.get_task_depends db' j
          = TaskRepository.get_task_depends db j)
    /\ (forall j, j <> depends_id ->
          TaskRepository.get_tasks_dependent_of db' j
          = TaskRepository.get_tasks_dependent_of db j).
Proof.
  rewrite add_task_depends_eq. eexists. split; [reflexivity|].
  set (db' := if has_edge db id_ depends_id then db else _).
  assert (Hedge : exists d, In d (Db.task_depends db')
                            /\ TaskRepository.same_edge id_ depends_id d = true).
  { subst db'. destruct (has_edge db id_ depends_id) eqn:E.
    - now apply existsb_exists in E.
    - eexists. split; [cbn; apply in_app_iff; right; now left|].
      unfold TaskRepository.same_edge. cbn. now rewrite !Z.eqb_refl. }
  assert (Hu : unique_edges db -> unique_edges db').
  { intros Hu. apply (add_task_depends_unique db db' now id_ depends_id Hu).
    apply add_task_depends_eq. }
  destruct Hedge as (d & Hin & Hd).
  pose proof Hd as Hd'. unfold TaskRepository.same_edge in Hd'.
  apply andb_true_iff in Hd' as [Ha Hb].
  split; [|split; [|split; [|split]]].
  - exists d. split; [|now apply Z.eqb_eq].
    unfold TaskRepository.get_task_depends. apply filter_In. now split.
  - exists d. split; [|now apply Z.eqb_eq].
    unfold TaskRepository.get_tasks_dependent_of. apply filter_In. now split.
  - intros H. apply Hu in H. unfold unique_edges in H.
    assert (He : existsb (TaskRepository.same_edge id_ depends_id)
                   (Db.task_depends db') = true)
      by (apply existsb_exists; now exists d).
    pose proof (filter_other_edges_length id_ depends_id _ H He) as Hlen.
    pose proof (filter_length (TaskRepository.same_edge id_ depends_id)
                  (Db.task_depends db')) as Hsum.
    lia.
  - intros j Hj. subst db'. destruct (has_edge db id_ depends_id); [reflexivity|].
    unfold TaskRepository.get_task_depends. cbn. rewrite filter_app. cbn.
    apply Z.eqb_neq in Hj. rewrite Z.eqb_sym in Hj. rewrite Hj.
    apply app_nil_r.
  - intros j Hj. subst db'. destruct (has_edge db id_ depends_id); [reflexivity|].
    unfold TaskRepository.get_tasks_dependent_of. cbn. rewrite filter_app. cbn.
    apply Z.eqb_neq in Hj. rewrite Z.eqb_sym in Hj. rewrite Hj.
    apply app_nil_r.
Qed.

(** Adding an edge that was not stored and removing it again gives the
    database back, and the removal answers [True]. *)
Theorem add_then_del_restores (db : Db) (now id_ depends_id : Z) :
  has_edge db id_ depends_id = false ->
  exists db',
    TaskRepository.add_task_depends db now id_ depends_id = inr db'
    /\ TaskRepository.del_tasks_depends db' id_ depends_id = (db, true).
Proof.
  intros Habsent. rewrite add_task_depends_eq, Habsent.
  eexists. split; [reflexivity|].
  assert (Hnew : TaskRepository.same_edge id_ depends_id
                   {| TaskDepends.task_id := id_;
                      TaskDepends.depends_task_id := depends_id;
                      TaskDepends.created_timestamp := now |} = true).
  { unfold TaskRepository.same_edge. cbn. now rewrite !Z.eqb_refl. }
  unfold TaskRepository.del_tasks_depends. cbn [Db.task Db.task_depends].
  rewrite filter_app. cbn [filter]. rewrite Hnew. cbn [negb].
  rewrite app_nil_r, (filter_other_edges_id _ _ _ Habsent), Db_eta.
  f_equal.
  destruct (find _ _) eqn:E; [reflexivity|].
  exfalso.
  assert (Hin : In {| TaskDepends.task_id := id_;
                      TaskDepends.depends_task_id := depends_id;
                      TaskDepends.created_timestamp := now |}
                  (Db.task_depends db
                   ++ [ {| TaskDepends.task_id := id_;
                           TaskDepends.depends_task_id := depends_id;
                           TaskDepends.created_timestamp := now |} ]))
    by (apply in_app_iff; right; now left).
  pose proof (find_none _ _ E _ Hin) as H. congruence.
Qed.

(* ================================================================== *)
(** * More on the relations of a task *)
(* ================================================================== *)

Lemma join_select_In (db : Db) (ty : DependencyTypeEnum)
    (on_where : TaskDepends -> Task -> bool) (row : TaskWithDependency) :
  In row (TaskRepository.join_select db ty on_where)
  <-> exists d t,
        In d (Db.task_depends db) /\ In t (Db.task db)
        /\ on_where d t = true
        /\ row = TaskRepository.dependency_row ty t.
Proof.
  unfold TaskRepository.join_select. rewrite in_flat_map. split.
  - intros (d & Hd & Hrow). apply in_map_iff in Hrow as (t & <- & Ht).
    apply filter_In in Ht as [Ht Hon]. now exists d, t.
  - intros (d & t & Hd & Ht & Hon & ->). exists d. split; [exact Hd|].
    apply in_map. apply filter_In. now split.
Qed.

Lemma has_edge_In (db : Db) (a b : Z) :
  has_edge db a b = true
  <-> exists d, In d (Db.task_depends db)
                /\ TaskDepends.task_id d = a
                /\ TaskDepends.depends_task_id d = b.
Proof.
  unfold has_edge, TaskRepository.same_edge. rewrite existsb_exists.
  split; intros (d & Hd & H); exists d.
  - apply andb_true_iff in H as [Ha Hb]. now rewrite <- !Z.eqb_eq.
  - split; [exact Hd|]. destruct H as [<- <-]. now rewrite !Z.eqb_refl.
Qed.

(** The rows of [get_all_task_dependencies], category by category. *)
Lemma get_all_task_dependencies_In (db : Db) (task_id : Z)
    (row : TaskWithDependency) :
  In row (TaskRepository.get_all_task_dependencies db task_id)
  <-> exists t,
        In t (Db.task db)
        /\ ((row = TaskRepository.dependency_row depends_of t
             /\ has_edge db (Task.id t) task_id = true)
            \/ (row = TaskRepository.dependency_row dependent_for t
                /\ has_edge db task_id (Task.id t) = true)
            \/ (row = TaskRepository.dependency_row self t
                /\ Task.id t = task_id)).
Proof.
  unfold TaskRepository.get_all_task_dependencies.
  rewrite order_by_In, !sql_union_In, !join_select_In, in_map_iff. split.
  - intros [[(d & t & Hd & Ht & Hon & ->) | (d & t & Hd & Ht & Hon & ->)]
           | (t & <- & Ht)].
    + exists t. split; [exact Ht|]. left. split; [reflexivity|].
      apply andb_true_iff in Hon as [Ha Hb].
      apply has_edge_In. exists d. now rewrite <- !Z.eqb_eq.
    + exists t. split; [exact Ht|]. right; left. split; [reflexivity|].
      apply andb_true_iff in Hon as [Ha Hb].
      apply has_edge_In. exists d. now rewrite <- !Z.eqb_eq.
    + apply filter_In in Ht as [Ht Hid]. exists t. split; [exact Ht|].
      right; right. split; [reflexivity | now apply Z.eqb_eq].
  - intros (t & Ht & [[-> He] | [[-> He] | [-> Hid]]]).
    + left; left. apply has_edge_In in He as (d & Hd & Ha & Hb).
      exists d, t. repeat split; auto.
      apply andb_true_iff. now rewrite !Z.eqb_eq.
    + left; right. apply has_edge_In in He as (d & Hd & Ha & Hb).
      exists d, t. repeat split; auto.
      apply andb_true_iff. now rewrite !Z.eqb_eq.
    + right. exists t. split; [reflexivity|].
      apply filter_In. split; [exact Ht | now apply Z.eqb_eq].
Qed.

(** What [get_all_task_dependencies] returns for an id: the tasks that
    have an edge to it, labelled [depends_of]; the tasks it has an edge to,
    labelled [dependent_for]; the tasks of that id, labelled [self]; no row
    else and no row twice.  An edge whose other end is not a task gives no
    row, and an id that is no task and has no edge gives the empty list. *)
Theorem relations_membership (db : Db) (task_id : Z) :
  let rows := TaskRepository.get_all_task_dependencies db task_id in
  NoDup rows
  /\ (forall row,
        In row rows
        <-> exists t,
              In t (Db.task db)
              /\ row = TaskRepository.dependency_row
                         (TaskWithDependency.dependency_type row) t
              /\ match TaskWithDependency.dependency_type row with
                 | depends_of => has_edge db (Task.id t) task_id = true
                 | dependent_for => has_edge db task_id (Task.id t) = true
                 | self => Task.id t = task_id
                 end)
  /\ ((forall t, In t (Db.task db) ->
         Task.id t <> task_id
         /\ has_edge db (Task.id t) task_id = false
         /\ has_edge db task_id (Task.id t) = false) ->
      rows = []).
Proof.
  cbv zeta.
  assert (Hiff : forall row,
             In row (TaskRepository.get_all_task_dependencies db task_id)
             <-> exists t,
                   In t (Db.task db)
                   /\ row = TaskRepository.dependency_row
                              (TaskWithDependency.dependency_type row) t
                   /\ match TaskWithDependency.dependency_type row with
                      | depends_of => has_edge db (Task.id t) task_id = true
                      | dependent_for => has_edge db task_id (Task.id t) = true
                      | self => Task.id t = task_id
                      end).
  { intros row. rewrite get_all_task_dependencies_In. split.
    - intros (t & Ht & [[-> H] | [[-> H] | [-> H]]]); exists t; cbn; auto.
    - intros (t & Ht & Hrow & H). exists t. split; [exact Ht|].
      destruct (TaskWithDependency.dependency_type row); auto. }
  split; [|split; [exact Hiff|]].
  - unfold TaskRepository.get_all_task_dependencies.
    apply (Permutation_NoDup (Permutation_sym (order_by_perm _ _))).
    apply sql_union_NoDup.
  - intros Hnone.
    destruct (TaskRepository.get_all_task_dependencies db task_id)
      as [|row rows] eqn:E; [reflexivity|].
    exfalso.
    destruct (proj1 (Hiff row) (or_introl eq_refl)) as (t & Ht & _ & H).
    destruct (Hnone t Ht) as (H1 & H2 & H3).
    destruct (TaskWithDependency.dependency_type row); congruence.
Qed.

(** After [add_task_depends a b] between two tasks of the table, the
    relations of [a] hold the row of [b] under [dependent_for] and the
    relations of [b] hold the row of [a] under [depends_of]. *)
Theorem added_edge_shows_in_relations (db : Db) (now : Z) (ta tb : Task) :
  In ta (Db.task db) ->
  In tb (Db.task db) ->
  exists db',
    TaskRepository.add_task_depends db now (Task.id ta) (Task.id tb) = inr db'
    /\ In (TaskRepository.dependency_row dependent_for tb)
         (TaskRepository.get_all_task_dependencies db' (Task.id ta))
    /\ In (TaskRepository.dependency_row depends_of ta)
         (TaskRepository.get_all_task_dependencies db' (Task.id tb)).
Proof.
  intros Ha Hb. rewrite add_task_depends_eq. eexists. split; [reflexivity|].
  set (db' := if has_edge db (Task.id ta) (Task.id tb) then db else _).
  assert (Htasks : Db.task db' = Db.task db).
  { subst db'. now destruct (has_edge db (Task.id ta) (Task.id tb)). }
  assert (Hedge : has_edge db' (Task.id ta) (Task.id tb) = true).
  { subst db'. destruct (has_edge db (Task.id ta) (Task.id tb)) eqn:E;
      [exact E|].
    apply has_edge_In. eexists. split; [cbn; apply in_app_iff; right; now left|].
    now split. }
  split; apply get_all_task_dependencies_In.
  - exists tb. rewrite Htasks. split; [exact Hb|]. right; left. now split.
  - exists ta. rewrite Htasks. split; [exact Ha|]. left. now split.
Qed.

(* ================================================================== *)
(** * The additional properties on sample data *)
(* ================================================================== *)

Lemma finish_hard_iff_witness :
  emits (1 # 2) (sample_task 2 in_progress 20 5 (Some 16)) 17 finish_hard.
Proof.
  apply (proj2 (finish_hard_iff (1 # 2)
                  (sample_task 2 in_progress 20 5 (Some 16)) 17)).
  split; [reflexivity|]. exists 16. split; [reflexivity|].
  split; [vm_compute; intuition discriminate | simpl; lia].
Defined.

Lemma hard_and_late_warnings_persist_witness :
  emits (1 # 2) (sample_task 1 to_do 30 10 None) 25 start_hard.
Proof.
  apply (hard_and_late_warnings_persist (1 # 2)
           (sample_task 1 to_do 30 10 None) 20 25 start_hard).
  - lia.
  - now left.
  - eexists. split; [reflexivity|]. unfold has_warning. simpl. tauto.
Defined.

Lemma no_soft_warning_when_coef_le_1_witness :
  ~ emits (1 # 2) (sample_task 1 to_do 30 10 None) 16 start_soft
  /\ ~ emits (1 # 2) (sample_task 1 to_do 30 10 None) 16 finish_soft.
Proof.
  apply (no_soft_warning_when_coef_le_1 (1 # 2)
           (sample_task 1 to_do 30 10 None) 16).
  - unfold Qle. simpl. lia.
  - intros _. simpl. lia.
Defined.

Lemma warnings_past_deadline_witness :
  get_warnings_list (1 # 2) (sample_task 2 in_progress 20 5 (Some 10)) 21
  = inr [ {| WarningModel.type := finish_hard; WarningModel.task_id := 2 |};
          {| WarningModel.type := late_deadline; WarningModel.task_id := 2 |} ].
Proof.
  refine (warnings_past_deadline (1 # 2)
            (sample_task 2 in_progress 20 5 (Some 10)) 21 _ 10 _ _).
  - simpl. lia.
  - reflexivity.
  - vm_compute. intuition discriminate.
Defined.

Lemma dashboard_groups_by_status_witness :
  exists r,
    get_dashboard_tasks (1 # 2) unit (fun _ => None) (tasks_with_done 4 1) 0
    = inr r
    /\ NoDup (map status_name (statuses r))
    /\ NoDup (map order_number (statuses r))
    /\ (exists g, In g (statuses r) /\ status_name g = done)
    /\ (forall t,
          In t (TaskRepository.get_tasks_ordered_by_deadline
                  (tasks_with_done 4 1)) ->
          exists g, In g (statuses r) /\ status_name g = Task.status t)
    /\ (forall g, In g (statuses r) ->
          order_number g = get_status_order_number (status_name g)
          /\ tasks g <> []
          /\ Forall2 (shows (1 # 2) (fun _ => None) 0)
               (filter (status_is (status_name g))
                  (TaskRepository.get_tasks_ordered_by_deadline
                     (tasks_with_done 4 1)))
               (tasks g)
          /\ StronglySorted (key_le dt_deadline) (tasks g)).
Proof.
  eexists. split.
  - vm_compute. reflexivity.
  - apply (dashboard_groups_by_status (1 # 2) unit (fun _ => None)
             (tasks_with_done 4 1) 0).
    vm_compute. reflexivity.
Defined.

Lemma dashboard_never_divides_by_zero_witness :
  get_dashboard_tasks (1 # 2) unit (fun _ => None) (tasks_with_done 0 0) 0
  <> inl Py.ZeroDivisionError.
Proof.
  apply (dashboard_never_divides_by_zero (1 # 2) unit (fun _ => None)
           (tasks_with_done 0 0) 0).
Defined.

Lemma dashboard_raises_on_unstarted_task_witness :
  get_dashboard_tasks (1 # 2) unit (fun _ => None)
    {| Db.task := [sample_task 1 done 30 10 None;
                   sample_task 3 in_progress 20 5 None];
       Db.task_depends := [] |} 0
  = inl Py.TypeError.
Proof.
  apply (proj2 (dashboard_raises_on_unstarted_task (1 # 2) unit
                  (fun _ => None)
                  {| Db.task := [sample_task 1 done 30 10 None;
                                 sample_task 3 in_progress 20 5 None];
                     Db.task_depends := [] |} 0
                  (sample_task 3 in_progress 20 5 None)
                  (or_intror (or_introl eq_refl)) eq_refl eq_refl eq_refl)).
  intros t' Hin _. simpl in Hin. destruct Hin as [<- | [<- | []]].
  - right. exact I.
  - left. split; reflexivity.
Defined.

Lemma update_task_status_then_get_witness :
  let r := TaskRepository.update_task_status sample_db 1 done in
  TaskRepository.get_by_id (fst r) 1 = snd r
  /\ (forall t, TaskRepository.get_by_id sample_db 1 = Some t ->
        exists t',
          snd r = Some t'
          /\ Task.status t' = done
          /\ Task.actual_start_date t' = Task.actual_start_date t
          /\ Task.actual_finish_date t' = Task.actual_finish_date t
          /\ Task.actual_completion_days t' = Task.actual_completion_days t
          /\ Task.deadline t' = Task.deadline t
          /\ Task.is_archived t' = Task.is_archived t)
  /\ (TaskRepository.get_by_id sample_db 1 = None -> snd r = None /\ fst r = sample_db)
  /\ (forall j, j <> 1 ->
        TaskRepository.get_by_id (fst r) j = TaskRepository.get_by_id sample_db j)
  /\ Db.task_depends (fst r) = Db.task_depends sample_db.
Proof. exact (update_task_status_then_get sample_db 1 done). Defined.

Lemma update_task_data_then_get_witness :
  let r := TaskRepository.update_task_data sample_db 1 None None 40 5 12 in
  TaskRepository.get_by_id (fst r) 1 = snd r
  /\ (forall t, TaskRepository.get_by_id sample_db 1 = Some t ->
        exists t',
          snd r = Some t'
          /\ Task.title t' = None
          /\ Task.description t' = None
          /\ Task.deadline t' = 40
          /\ Task.responsible_user_id t' = 5
          /\ Task.days_for_completion t' = 12
          /\ Task.status t' = Task.status t
          /\ Task.actual_start_date t' = Task.actual_start_date t
          /\ Task.actual_finish_date t' = Task.actual_finish_date t
          /\ Task.actual_completion_days t' = Task.actual_completion_days t
          /\ Task.is_archived t' = Task.is_archived t)
  /\ (TaskRepository.get_by_id sample_db 1 = None -> snd r = None /\ fst r = sample_db)
  /\ (forall j, j <> 1 ->
        TaskRepository.get_by_id (fst r) j = TaskRepository.get_by_id sample_db j).
Proof. exact (update_task_data_then_get sample_db 1 None None 40 5 12). Defined.

Lemma update_task_deadline_then_get_witness :
  let r := TaskRepository.update_task_deadline sample_db 1 40 in
  (snd r = true <-> exists t, In t (Db.task sample_db) /\ Task.id t = 1)
  /\ TaskRepository.get_by_id (fst r) 1
     = option_map (TaskRepository.set_deadline 40)
         (TaskRepository.get_by_id sample_db 1)
  /\ (snd r = false -> fst r = sample_db)
  /\ (forall j, j <> 1 ->
        TaskRepository.get_by_id (fst r) j = TaskRepository.get_by_id sample_db j).
Proof. exact (update_task_deadline_then_get sample_db 1 40). Defined.

Lemma tasks_ordered_by_deadline_sorted_witness :
  let listing := TaskRepository.get_tasks_ordered_by_deadline sample_db in
  StronglySorted (key_le Task.deadline) listing
  /\ Permutation listing
       (filter (fun t => negb (Task.is_archived t)) (Db.task sample_db))
  /\ (forall t, In t listing
                <-> In t (Db.task sample_db) /\ Task.is_archived t = false)
  /\ (length listing <= length (Db.task sample_db))%nat.
Proof. exact (tasks_ordered_by_deadline_sorted sample_db). Defined.

Lemma archive_status_decides_listing_witness :
  let r := TaskRepository.update_task_archive_status sample_db 1 true in
  let listing := TaskRepository.get_tasks_ordered_by_deadline (fst r) in
  (snd r = true <-> exists t, In t (Db.task sample_db) /\ Task.id t = 1)
  /\ (true = true -> forall t, In t listing -> Task.id t <> 1)
  /\ (true = false ->
      forall t, In t (Db.task sample_db) -> Task.id t = 1 ->
        In (TaskRepository.set_is_archived false t) listing)
  /\ (forall t, Task.id t <> 1 ->
        In t listing
        <-> In t (TaskRepository.get_tasks_ordered_by_deadline sample_db)).
Proof. exact (archive_status_decides_listing sample_db 1 true). Defined.

Lemma in_progress_without_start_breaks_dashboard_witness :
  get_dashboard_tasks (1 # 2) unit (fun _ => None)
    (fst (TaskRepository.update_task_status sample_db 1 in_progress)) 0
  = inl Py.TypeError.
Proof.
  apply (proj2 (in_progress_without_start_breaks_dashboard (1 # 2) unit
                  (fun _ => None) sample_db 1 (sample_task 1 to_do 30 10 None) 0
                  eq_refl eq_refl eq_refl)).
  intros t' Hin _. simpl in Hin. destruct Hin as [<- | [<- | []]].
  - left. split; reflexivity.
  - right. exists 10. split; [reflexivity|].
    split; [vm_compute; intuition discriminate|].
    intros _. exists 13. vm_compute. reflexivity.
Defined.

Lemma get_all_short_tasks_needs_titles_witness :
  TaskRepository.get_all_short_tasks sample_db = inl Py.ValueError.
Proof.
  apply (proj2 (get_all_short_tasks_needs_titles sample_db)).
  simpl. apply Exists_cons_hd. reflexivity.
Defined.

Lemma mutations_keep_consistency_witness :
  consistent
    (fold_left apply_mutation
       [UpdateTaskStatus 1 in_progress;
        UpdateTaskStartFinishDates 1 (Some 10) (Some 14);
        AddTaskDepends 9 2 1;
        DelTasksDepends 1 2;
        UpdateTaskArchiveStatus 2 true] sample_db)
  /\ Permutation
       (map Task.id
          (Db.task
             (fold_left apply_mutation
                [UpdateTaskStatus 1 in_progress;
                 UpdateTaskStartFinishDates 1 (Some 10) (Some 14);
                 AddTaskDepends 9 2 1;
                 DelTasksDepends 1 2;
                 UpdateTaskArchiveStatus 2 true] sample_db)))
       (map Task.id (Db.task sample_db)).
Proof.
  apply (mutations_keep_consistency
           [UpdateTaskStatus 1 in_progress;
            UpdateTaskStartFinishDates 1 (Some 10) (Some 14);
            AddTaskDepends 9 2 1;
            DelTasksDepends 1 2;
            UpdateTaskArchiveStatus 2 true] sample_db).
  unfold consistent, unique_ids, unique_edges. simpl.
  repeat split; repeat constructor; simpl; intuition (try discriminate; try lia).
Defined.

Lemma added_edge_is_found_witness :
  exists db',
    TaskRepository.add_task_depends sample_db 9 2 1 = inr db'
    /\ (exists d, In d (TaskRepository.get_task_depends db' 2)
                  /\ TaskDepends.depends_task_id d = 1)
    /\ (exists d, In d (TaskRepository.get_tasks_dependent_of db' 1)
                  /\ TaskDepends.task_id d = 2)
    /\ (unique_edges sample_db ->
        length (filter (TaskRepository.same_edge 2 1) (Db.task_depends db'))
        = 1%nat)
    /\ (forall j, j <> 2 ->
          TaskRepository.get_task_depends db' j
          = TaskRepository.get_task_depends sample_db j)
    /\ (forall j, j <> 1 ->
          TaskRepository.get_tasks_dependent_of db' j
          = TaskRepository.get_tasks_dependent_of sample_db j).
Proof. exact (added_edge_is_found sample_db 9 2 1). Defined.

Lemma add_then_del_restores_witness :
  exists db',
    TaskRepository.add_task_depends sample_db 9 2 1 = inr db'
    /\ TaskRepository.del_tasks_depends db' 2 1 = (sample_db, true).
Proof.
  apply (add_then_del_restores sample_db 9 2 1). reflexivity.
Defined.

Lemma relations_membership_witness :
  TaskRepository.get_all_task_dependencies sample_db 7 = [].
Proof.
  apply (proj2 (proj2 (relations_membership sample_db 7))).
  intros t Hin. simpl in Hin.
  destruct Hin as [<- | [<- | []]]; repeat split; discriminate || reflexivity.
Defined.

Lemma added_edge_shows_in_relations_witness :
  exists db',
    TaskRepository.add_task_depends sample_db 9
      (Task.id (sample_task 2 in_progress 20 5 (Some 10)))
      (Task.id (sample_task 1 to_do 30 10 None)) = inr db'
    /\ In (TaskRepository.dependency_row dependent_for
             (sample_task 1 to_do 30 10 None))
         (TaskRepository.get_all_task_dependencies db'
            (Task.id (sample_task 2 in_progress 20 5 (Some 10))))
    /\ In (TaskRepository.dependency_row depends_of
             (sample_task 2 in_progress 20 5 (Some 10)))
         (TaskRepository.get_all_task_dependencies db'
            (Task.id (sample_task 1 to_do 30 10 None))).
Proof.
  apply (added_edge_shows_in_relations sample_db 9
           (sample_task 2 in_progress 20 5 (Some 10))
           (sample_task 1 to_do 30 10 None)); simpl; tauto.
Defined.
